(** * Intent detection and disambiguation of the blockchain chat agent

    A shallow embedding of [src/actions/api_tools_actions.py] (the network
    table and the eight [detect_*_query] matchers), of the disambiguation
    block of [ollama_chat] in [src/actions/ollama_actions.py] and of the
    dispatch guards of [src/server/app.py], followed by the properties of the
    specification that were checked against them.

    Text is a [string] of 8-bit characters.  [str.lower()] is modelled on the
    ASCII letters; characters above 127 are caseless and are neither word
    characters, digits nor white space.  On ASCII text this is what
    Python does; on other text Python's [lower()] and its classes for digits,
    white space and word characters know more characters than the model, and
    a statement about what a class matched is made for ASCII text.  Calls to the logger are left out:
    they do not change what a function returns.  An operation that can raise
    ([m.group(i)], [network.lower()]) returns a [result].

    Around this core the development also covers the [get_*] actions of
    [api_tools_actions.py] up to the call they make, the tool call of each
    branch of the chat loop and what the loop does with the reply of the
    model, the prompt built in [src/connections/ollama_connection.py], and
    the [/api-tools] endpoints of the server.  What depends on the JSON of a
    remote service is taken as a parameter. *)

From Stdlib Require Import String Ascii List Bool Arith NArith Lia.
Import ListNotations.
Local Open Scope list_scope.
Local Open Scope string_scope.

(* ================================================================== *)
(** ** Python strings *)

Module Str.

Definition code (c : ascii) : N := N_of_ascii c.

Definition between (lo hi c : ascii) : bool :=
  (code lo <=? code c)%N && (code c <=? code hi)%N.

Definition is_upper (c : ascii) : bool := between "A" "Z" c.
Definition is_digit (c : ascii) : bool := between "0" "9" c.

(** [[a-fA-F0-9]] *)
Definition is_hex (c : ascii) : bool :=
  between "a" "f" c || between "A" "F" c || between "0" "9" c.

(** [\w] on ASCII text: letters, digits and the underscore. *)
Definition is_word (c : ascii) : bool :=
  between "a" "z" c || between "A" "Z" c || between "0" "9" c
  || Ascii.eqb c "_".

(** [\s] of a [str] pattern: tab, newline, vertical tab, form feed,
    carriage return, the four separators 28..31 and the space. *)
Definition is_space (c : ascii) : bool :=
  ((9 <=? code c)%N && (code c <=? 13)%N)
  || ((28 <=? code c)%N && (code c <=? 32)%N).

(** [.] without [re.DOTALL]: anything but a newline. *)
Definition not_newline (c : ascii) : bool := negb (code c =? 10)%N.

Definition one_of (cs : string) (c : ascii) : bool :=
  existsb (Ascii.eqb c) (list_ascii_of_string cs).

Definition lower_char (c : ascii) : ascii :=
  if is_upper c then ascii_of_N (code c + 32) else c.

(** [s.lower()] *)
Fixpoint lower (s : string) : string :=
  match s with
  | EmptyString => EmptyString
  | String c s' => String (lower_char c) (lower s')
  end.

Fixpoint take (n : nat) (s : string) : string :=
  match n, s with
  | S n', String c s' => String c (take n' s')
  | _, _ => EmptyString
  end.

Fixpoint drop (n : nat) (s : string) : string :=
  match n, s with
  | S n', String _ s' => drop n' s'
  | _, _ => s
  end.

Fixpoint all (p : ascii -> bool) (s : string) : bool :=
  match s with
  | EmptyString => true
  | String c s' => p c && all p s'
  end.

(** [kw in s]: [kw] occurs in [s] as a contiguous substring. *)
Fixpoint contains (kw s : string) : bool :=
  prefix kw s
  || match s with
     | EmptyString => false
     | String _ s' => contains kw s'
     end.

(** Truth value of an optional string in a condition: [None] and the empty
    string are false. *)
Definition truthy (o : option string) : bool :=
  match o with
  | Some (String _ _) => true
  | _ => false
  end.

(** [a == b] on optional strings. *)
Definition eqb_opt (a b : option string) : bool :=
  match a, b with
  | Some x, Some y => String.eqb x y
  | None, None => true
  | _, _ => false
  end.

End Str.

(* ================================================================== *)
(** ** Exceptions *)

Inductive exn : Type :=
| AttributeError   (* attribute access on [None] *)
| IndexError.      (* [m.group(i)] for a group the pattern does not have *)

Inductive result (A : Type) : Type :=
| Ok (a : A)
| Raise (e : exn).
Arguments Ok {A} a.
Arguments Raise {A} e.

Definition bind {A B : Type} (m : result A) (k : A -> result B) : result B :=
  match m with
  | Ok a => k a
  | Raise e => Raise e
  end.

Notation "x <- m ;; k" := (bind m (fun x => k))
  (at level 61, m at next level, right associativity).
Notation "' pat <- m ;; k" := (bind m (fun x => match x with pat => k end))
  (at level 61, pat pattern, m at next level, right associativity).

(* ================================================================== *)
(** ** The fragment of [re] the patterns are written in

    Repetition is only ever applied to a single character class in the
    patterns of this program ([\d+], [\s*], [.*], [[a-fA-F0-9]{40}]), so
    [Rep] takes a class.  At most one capturing group occurs in a pattern. *)

Module Re.

Inductive regex : Type :=
| Void                                   (* matches nothing *)
| Lit (s : string)                       (* a literal run of characters *)
| Class (p : ascii -> bool)              (* one character of a class *)
| Cat (r1 r2 : regex)                    (* r1 r2 *)
| Alt (r1 r2 : regex)                    (* r1|r2, r1 tried first *)
| Opt (r : regex)                        (* r?, greedy *)
| Rep (p : ascii -> bool) (lo : nat) (hi : option nat)
                                         (* [p]{lo,hi}, greedy; hi = None: no upper bound *)
| WordBoundary                           (* \b *)
| Group (r : regex).                     (* ( r ), capturing group 1 *)

(** A position in the text under search. *)
Record cursor : Type := Cursor {
  before   : option ascii;  (* character to the left, [None] at the start *)
  rest     : string;        (* text from the position on *)
  captured : option string  (* what group 1 holds *)
}.

Fixpoint eat (w : string) (prev : option ascii) (s : string)
  : option (option ascii * string) :=
  match w with
  | EmptyString => Some (prev, s)
  | String a w' =>
      match s with
      | String b s' => if Ascii.eqb a b then eat w' (Some b) s' else None
      | EmptyString => None
      end
  end.

Definition may_take (hi : option nat) : bool :=
  match hi with
  | Some 0 => false
  | _ => true
  end.

Definition one_less (hi : option nat) : option nat :=
  match hi with
  | Some n => Some (pred n)
  | None => None
  end.

(** Greedy repetition: the longest run first, then shorter ones. *)
Fixpoint rep (p : ascii -> bool) (lo : nat) (hi : option nat)
    (cap : option string) (prev : option ascii) (s : string) : list cursor :=
  let stop := if (lo =? 0)%nat then [Cursor prev s cap] else [] in
  match s with
  | String a s' =>
      if p a && may_take hi
      then (rep p (pred lo) (one_less hi) cap (Some a) s' ++ stop)%list
      else stop
  | EmptyString => stop
  end.

Definition word_opt (o : option ascii) : bool :=
  match o with
  | Some c => Str.is_word c
  | None => false
  end.

Definition next_char (s : string) : option ascii :=
  match s with
  | String c _ => Some c
  | EmptyString => None
  end.

(** All the ways [r] can match at a position, in the order in which a
    backtracking matcher finds them; the head is the match [re] reports. *)
Fixpoint run (r : regex) (c : cursor) : list cursor :=
  match r with
  | Void => []
  | Lit w =>
      match eat w (before c) (rest c) with
      | Some (prev, s') => [Cursor prev s' (captured c)]
      | None => []
      end
  | Class p =>
      match rest c with
      | String a s' => if p a then [Cursor (Some a) s' (captured c)] else []
      | EmptyString => []
      end
  | Cat r1 r2 => flat_map (run r2) (run r1 c)
  | Alt r1 r2 => (run r1 c ++ run r2 c)%list
  | Opt r' => (run r' c ++ [c])%list
  | Rep p lo hi => rep p lo hi (captured c) (before c) (rest c)
  | WordBoundary =>
      if xorb (word_opt (before c)) (word_opt (next_char (rest c)))
      then [c] else []
  | Group r' =>
      map (fun c' =>
             Cursor (before c') (rest c')
               (Some (Str.take (String.length (rest c) - String.length (rest c'))
                               (rest c))))
          (run r' c)
  end.

Fixpoint has_group (r : regex) : bool :=
  match r with
  | Group _ => true
  | Cat r1 r2 | Alt r1 r2 => has_group r1 || has_group r2
  | Opt r' => has_group r'
  | _ => false
  end.

(** A match object. *)
Record re_match : Type := Match {
  group0 : string;               (* the matched text *)
  groups : list (option string)  (* the capturing groups of the pattern *)
}.

Definition match_at (r : regex) (prev : option ascii) (s : string)
  : option re_match :=
  match run r (Cursor prev s None) with
  | c :: _ =>
      Some (Match (Str.take (String.length s - String.length (rest c)) s)
                  (if has_group r then [captured c] else []))
  | [] => None
  end.

Fixpoint search_from (r : regex) (prev : option ascii) (s : string)
  : option re_match :=
  match match_at r prev s with
  | Some m => Some m
  | None =>
      match s with
      | String a s' => search_from r (Some a) s'
      | EmptyString => None
      end
  end.

(** [re.search(r, text)]: the leftmost position at which [r] matches. *)
Definition search (r : regex) (text : string) : option re_match :=
  search_from r None text.

(** [re.search(r, text)] in a condition. *)
Definition found (r : regex) (text : string) : bool :=
  match search r text with
  | Some _ => true
  | None => false
  end.

(** [m.group(i)] *)
Definition group (m : re_match) (i : nat) : result (option string) :=
  match i with
  | 0 => Ok (Some (group0 m))
  | S j =>
      match nth_error (groups m) j with
      | Some g => Ok g
      | None => Raise IndexError
      end
  end.

(** Pattern-building shorthands. *)
Fixpoint cat (rs : list regex) : regex :=
  match rs with
  | [] => Lit ""
  | [r] => r
  | r :: rs' => Cat r (cat rs')
  end.

Fixpoint alt (rs : list regex) : regex :=
  match rs with
  | [] => Void
  | [r] => r
  | r :: rs' => Alt r (alt rs')
  end.

(** [(?:w1|w2|...)] *)
Definition words (ws : list string) : regex := alt (map Lit ws).

End Re.

Import Re.

(* ================================================================== *)
(** ** [api_tools_actions.py]: the network table *)

(** A [dict] literal; its keys are scanned in insertion order. *)
Definition NETWORK_TO_CHAIN_ID : list (string * string) :=
  [ ("ethereum", "1");
    ("eth", "1");
    ("mainnet", "1");
    ("binance", "56");
    ("bsc", "56");
    ("polygon", "137");
    ("matic", "137");
    ("avalanche", "43114");
    ("avax", "43114");
    ("arbitrum", "42161");
    ("optimism", "10");
    ("base", "8453");
    ("fantom", "250");
    ("ftm", "250");
    ("aurora", "1313161554") ].

Definition keys (d : list (string * string)) : list string := map fst d.

(** [d.get(k)] *)
Fixpoint dict_get (d : list (string * string)) (k : string) : option string :=
  match d with
  | [] => None
  | (k', v) :: d' => if String.eqb k' k then Some v else dict_get d' k
  end.

(** [d.get(k, default)] *)
Definition dict_get_default (d : list (string * string)) (k default : string)
  : string :=
  match dict_get d k with
  | Some v => v
  | None => default
  end.

(** The loop [for net in NETWORK_TO_CHAIN_ID.keys(): if net.lower() in
    text.lower(): network = net; break]. *)
Definition scan_network (text : string) : option string :=
  find (fun net => Str.contains (Str.lower net) (Str.lower text))
       (keys NETWORK_TO_CHAIN_ID).

(** The loop followed by [if not network: network = "ethereum"]. *)
Definition extract_network (text : string) : string :=
  match scan_network text with
  | Some net => if Str.truthy (Some net) then net else "ethereum"
  | None => "ethereum"
  end.

(** [any(re.search(pattern, s) for pattern in patterns)] *)
Definition any_found (patterns : list regex) (s : string) : bool :=
  existsb (fun pattern => found pattern s) patterns.

(** [any(keyword in s for keyword in keywords)] *)
Definition any_keyword (keywords : list string) (s : string) : bool :=
  existsb (fun keyword => Str.contains keyword s) keywords.

(** [m.group(i) if m else None] *)
Definition group_if (m : option re_match) (i : nat) : result (option string) :=
  match m with
  | Some m' => group m' i
  | None => Ok None
  end.

Definition is_some {A : Type} (o : option A) : bool :=
  match o with
  | Some _ => true
  | None => false
  end.

(** [0x[a-fA-F0-9]{40}] *)
Definition eth_address_pattern : regex :=
  Cat (Lit "0x") (Rep Str.is_hex 40 (Some 40)).

(** [what(?:'s| is) the] *)
Definition what_is_the : regex :=
  cat [Lit "what"; words ["'s"; " is"]; Lit " the"].

(** [(?:what(?:'s| is) the|current|check|get|show)] *)
Definition ask_current : regex :=
  alt [what_is_the; Lit "current"; Lit "check"; Lit "get"; Lit "show"].

(** [(?:token|erc20)] *)
Definition token_or_erc20 : regex := words ["token"; "erc20"].

(** [(?:transaction|tx)] *)
Definition transaction_or_tx : regex := words ["transaction"; "tx"].

(* ------------------------------------------------------------------ *)
(** *** [detect_gas_price_query] *)

Definition gas_patterns : list regex :=
  [ cat [ask_current; Lit " "; words ["gas"; "gas price"; "gas fee"]];
    cat [Lit "gas "; words ["price"; "fee"; "cost"]];
    cat [Lit "how much "; words ["gas"; "fee"]];
    Lit "transaction fee";
    Lit "network fee" ].

Definition detect_gas_price_query (text : string) : result (option string) :=
  let is_gas_query := any_found gas_patterns (Str.lower text) in
  if negb is_gas_query then Ok None
  else
    match scan_network text with
    | Some network => Ok (Some network)
    | None => Ok (Some "ethereum")
    end.

(* ------------------------------------------------------------------ *)
(** *** [detect_nft_holdings_query] *)

(** [nfts?] *)
Definition nfts : regex := Cat (Lit "nft") (Opt (Lit "s")).

Definition nft_patterns : list regex :=
  [ cat [words ["what"; "which"; "show"; "get"; "fetch"; "check"]; Lit " ";
         alt [nfts; cat [Lit "non-fungible token"; Opt (Lit "s")]]];
    cat [nfts; Lit " ";
         alt [cat [Lit "holding"; Opt (Lit "s")]; Lit "owned"; Lit "collection"]];
    cat [words ["owned"; "holding"]; Lit " "; nfts];
    cat [Lit "nft "; words ["collection"; "portfolio"; "gallery"]];
    cat [Lit "what "; nfts; Lit " "; words ["does"; "do"]; Lit " ";
         Rep Str.not_newline 0 None; Lit " "; words ["have"; "own"; "hold"]] ].

Definition detect_nft_holdings_query (text : string)
  : result (option string * option string) :=
  let is_nft_query := any_found nft_patterns (Str.lower text) in
  if negb is_nft_query then Ok (None, None)
  else
    let wallet_match := search eth_address_pattern text in
    wallet_address <- group_if wallet_match 0 ;;
    Ok (wallet_address, Some (extract_network text)).

(* ------------------------------------------------------------------ *)
(** *** [detect_spot_price_query] *)

Definition price_patterns : list regex :=
  [ cat [ask_current; Lit " "; words ["spot price"; "token price"; "price"]];
    cat [Lit "price "; words ["of"; "for"]; Lit " ";
         alt [cat [Lit "token"; Opt (Lit "s")];
              cat [Lit "whitelisted token"; Opt (Lit "s")]]];
    cat [Lit "token "; words ["price"; "value"]];
    cat [Lit "spot "; words ["price"; "value"]] ].

Definition currencies : list string :=
  ["USD"; "INR"; "EUR"; "GBP"; "JPY"; "CNY"].

Definition detect_spot_price_query (text : string)
  : result (option string * option string) :=
  let is_price_query := any_found price_patterns (Str.lower text) in
  if negb is_price_query then Ok (None, None)
  else
    let currency :=
      match find (fun curr => Str.contains (Str.lower curr) (Str.lower text))
                 currencies with
      | Some curr => curr
      | None => "USD"
      end in
    Ok (Some currency, Some (extract_network text)).

(* ------------------------------------------------------------------ *)
(** *** [detect_token_value_query] *)

Module TokenValue.

(** The list checked first, before anything else the matcher does. *)
Definition token_details_patterns : list regex :=
  [ Lit "token details";
    Lit "get token details";
    cat [token_or_erc20; Lit " "; words ["details"; "info"; "information"]] ].

Definition token_value_patterns : list regex :=
  [ cat [ask_current; Lit " "; words ["value"; "price"; "worth"]; Lit " of ";
         token_or_erc20];
    cat [token_or_erc20; Lit " "; words ["value"; "price"; "worth"]];
    cat [Lit "how much is "; token_or_erc20; Lit " worth"];
    cat [Lit "value of "; token_or_erc20];
    Lit "current value";
    Lit "token value";
    Lit "token worth" ].

End TokenValue.

Definition value_keywords : list string :=
  ["value"; "worth"; "price"; "cost"; "how much"].

Definition detect_token_value_query (text : string)
  : result (option string * option string) :=
  if any_found TokenValue.token_details_patterns (Str.lower text)
  then Ok (None, None)
  else
    let is_token_value_query :=
      any_found TokenValue.token_value_patterns (Str.lower text) in
    let address_match := search eth_address_pattern text in
    if negb (is_token_value_query || is_some address_match) then Ok (None, None)
    else if negb is_token_value_query && is_some address_match
            && negb (any_keyword value_keywords (Str.lower text))
    then Ok (None, None)
    else
      token_address <- group_if address_match 0 ;;
      Ok (token_address, Some (extract_network text)).

(* ------------------------------------------------------------------ *)
(** *** [detect_token_details_query] *)

Definition token_details_patterns : list regex :=
  [ cat [alt [Cat (Lit "what") (words ["'s"; " is"; " are"]);
              Lit "tell me about"; Lit "show"; Lit "get"; Lit "fetch";
              Lit "check"];
         Lit " "; Opt (Lit "the "); token_or_erc20; Lit " ";
         words ["details"; "info"; "information"]];
    cat [token_or_erc20; Lit " "; words ["details"; "info"; "information"]];
    cat [Lit "details "; words ["of"; "about"; "for"]; Lit " "; token_or_erc20];
    cat [Lit "information "; words ["on"; "about"]; Lit " "; token_or_erc20];
    Lit "token details";
    Lit "get token details";
    Lit "detailed information" ].

Definition details_keywords : list string :=
  ["details"; "info"; "information"; "stats"; "statistics"; "data"].

Definition detect_token_details_query (text : string)
  : result (option string * option string) :=
  let is_token_details_query :=
    any_found token_details_patterns (Str.lower text) in
  let address_match := search eth_address_pattern text in
  if negb (is_token_details_query || is_some address_match) then Ok (None, None)
  else if negb is_token_details_query && is_some address_match
          && negb (any_keyword details_keywords (Str.lower text))
  then Ok (None, None)
  else
    token_address <- group_if address_match 0 ;;
    Ok (token_address, Some (extract_network text)).

(* ------------------------------------------------------------------ *)
(** *** [detect_token_profitloss_query] *)

(** [(?:profit|loss|profitloss|profit and loss|profit/loss|p&l|roi|return)] *)
Definition profit_words : regex :=
  words ["profit"; "loss"; "profitloss"; "profit and loss"; "profit/loss";
         "p&l"; "roi"; "return"].

Definition profitloss_patterns : list regex :=
  [ cat [ask_current; Lit " "; profit_words];
    cat [token_or_erc20; Lit " "; profit_words];
    cat [Lit "how much "; words ["profit"; "loss"; "return"]; Lit " ";
         words ["for"; "from"]; Lit " "; token_or_erc20];
    cat [profit_words; Lit " "; words ["of"; "for"; "from"]; Lit " ";
         token_or_erc20];
    cat [profit_words; Lit " ";
         words ["information"; "data"; "stats"; "statistics"]] ].

Definition profitloss_keywords : list string :=
  ["profit"; "loss"; "profitloss"; "roi"; "return"; "p&l"; "gain"].

(** [[ -]?day] *)
Definition sep_day : regex := Cat (Opt (Class (Str.one_of " -"))) (Lit "day").

(** A [dict] from pattern to canonical token, in insertion order. *)
Definition timerange_patterns : list (regex * string) :=
  [ (Cat (words ["1"; "one"]) sep_day, "1day");
    (Cat (words ["7"; "seven"]) sep_day, "7day");
    (Cat (words ["30"; "thirty"]) sep_day, "30day");
    (Cat (words ["90"; "ninety"]) sep_day, "90day");
    (Cat (words ["180"; "one hundred eighty"]) sep_day, "180day");
    (Cat (words ["365"; "one year"]) sep_day, "365day");
    (cat [Lit "all"; Opt (Class (Str.one_of " -")); Lit "time"], "all") ].

(** [timerange = "1day"] followed by the loop over [timerange_patterns]. *)
Definition extract_timerange (text : string) : string :=
  match find (fun pv => found (fst pv) (Str.lower text)) timerange_patterns with
  | Some (_, value) => value
  | None => "1day"
  end.

Definition detect_token_profitloss_query (text : string)
  : result (option string * option string * option string) :=
  let is_profitloss_query := any_found profitloss_patterns (Str.lower text) in
  let address_match := search eth_address_pattern text in
  if negb (is_profitloss_query || is_some address_match)
  then Ok (None, None, None)
  else if negb is_profitloss_query && is_some address_match
          && negb (any_keyword profitloss_keywords (Str.lower text))
  then Ok (None, None, None)
  else
    token_address <- group_if address_match 0 ;;
    Ok (token_address, Some (extract_network text),
        Some (extract_timerange text)).

(* ------------------------------------------------------------------ *)
(** *** [detect_transaction_trace_query] *)

Definition trace_patterns : list regex :=
  [ cat [alt [what_is_the; Lit "get"; Lit "fetch"; Lit "show"; Lit "find"];
         Lit " "; words ["transaction trace"; "tx trace"; "trace"]];
    cat [transaction_or_tx; Lit " "; words ["trace"; "details"; "information"]];
    cat [Lit "trace "; words ["of"; "for"]; Lit " "; transaction_or_tx];
    cat [words ["trace"; "details"]; Lit " "; words ["of"; "for"; "about"];
         Lit " "; transaction_or_tx];
    cat [Lit "transaction "; words ["execution"; "call"]; Lit " ";
         words ["trace"; "details"]] ].

(** [0x[a-fA-F0-9]{64}] *)
Definition tx_hash_pattern : regex :=
  Cat (Lit "0x") (Rep Str.is_hex 64 (Some 64)).

(** [(?:block|blk)(?:\s+(?:number|#|num|no))?(?:\s*[:=]\s*|\s+)(\d+)] *)
Definition block_number_pattern : regex :=
  cat [ words ["block"; "blk"];
        Opt (Cat (Rep Str.is_space 1 None) (words ["number"; "#"; "num"; "no"]));
        Alt (cat [Rep Str.is_space 0 None; Class (Str.one_of ":=");
                  Rep Str.is_space 0 None])
            (Rep Str.is_space 1 None);
        Group (Rep Str.is_digit 1 None) ].

(** [\b\d{7,}\b] *)
Definition block_number_simple_pattern : regex :=
  cat [WordBoundary; Rep Str.is_digit 7 None; WordBoundary].

Definition detect_transaction_trace_query (text : string)
  : result (option string * option string * option string) :=
  let is_trace_query := any_found trace_patterns (Str.lower text) in
  let tx_hash_match := search tx_hash_pattern text in
  if negb (is_trace_query || is_some tx_hash_match) then Ok (None, None, None)
  else
    tx_hash <- group_if tx_hash_match 0 ;;
    block_number <-
      match search block_number_pattern text with
      | Some block_match => group block_match 1
      | None => group_if (search block_number_simple_pattern text) 0
      end ;;
    Ok (tx_hash, block_number, Some (extract_network text)).

(* ------------------------------------------------------------------ *)
(** *** [detect_transaction_history_query] *)

Definition history_words : regex := words ["history"; "record"; "log"].

Definition history_patterns : list regex :=
  [ cat [alt [Cat (Lit "what") (words ["'s"; " is"; " are"]);
              Lit "show"; Lit "get"; Lit "fetch"; Lit "check"];
         Lit " "; Opt (Lit "the "); transaction_or_tx; Lit " "; history_words];
    cat [transaction_or_tx; Lit " "; history_words];
    cat [history_words; Lit " "; words ["of"; "for"]; Lit " ";
         words ["transaction"; "tx"; "wallet"; "address"]];
    cat [words ["past"; "recent"; "previous"]; Lit " "; transaction_or_tx];
    cat [Lit "what "; transaction_or_tx; Lit " "; words ["has"; "have"];
         Lit " "; words ["wallet"; "address"]];
    cat [words ["list"; "show"]; Lit " "; words ["all"; "recent"]; Lit " ";
         transaction_or_tx] ].

Definition history_keywords : list string :=
  ["history"; "transactions"; "tx"; "record"; "log"; "activity"].

Definition detect_transaction_history_query (text : string)
  : result (option string * option string) :=
  let is_history_query := any_found history_patterns (Str.lower text) in
  let address_match := search eth_address_pattern text in
  if negb (is_history_query || is_some address_match) then Ok (None, None)
  else if negb is_history_query && is_some address_match
          && negb (any_keyword history_keywords (Str.lower text))
  then Ok (None, None)
  else
    wallet_address <- group_if address_match 0 ;;
    Ok (wallet_address, Some (extract_network text)).

(* ================================================================== *)
(** ** [ollama_actions.py]: one turn of the chat loop of [ollama_chat] *)

Module Chat.

(** The local variables the eight matchers are unpacked into. *)
Record detections : Type := Detections {
  network                  : option string;
  nft_wallet_address       : option string;
  nft_network              : option string;
  currency                 : option string;
  spot_network             : option string;
  token_address            : option string;
  token_network            : option string;
  details_token_address    : option string;
  details_token_network    : option string;
  profitloss_token_address : option string;
  profitloss_token_network : option string;
  profitloss_timerange     : option string;
  tx_hash                  : option string;
  block_number             : option string;
  tx_network               : option string;
  wallet_address           : option string;
  history_network          : option string
}.

(** Lines 72-94: the matchers are run one after the other on the input. *)
Definition detect_all (user_input : string) : result detections :=
  network <- detect_gas_price_query user_input ;;
  '(nft_wallet_address, nft_network) <- detect_nft_holdings_query user_input ;;
  '(currency, spot_network) <- detect_spot_price_query user_input ;;
  '(token_address, token_network) <- detect_token_value_query user_input ;;
  '(details_token_address, details_token_network) <-
      detect_token_details_query user_input ;;
  '(profitloss_token_address, profitloss_token_network, profitloss_timerange) <-
      detect_token_profitloss_query user_input ;;
  '(tx_hash, block_number, tx_network) <-
      detect_transaction_trace_query user_input ;;
  '(wallet_address, history_network) <-
      detect_transaction_history_query user_input ;;
  Ok (Detections network nft_wallet_address nft_network currency spot_network
        token_address token_network details_token_address
        details_token_network profitloss_token_address
        profitloss_token_network profitloss_timerange tx_hash block_number
        tx_network wallet_address history_network).

(** [token_address = None; token_network = None] *)
Definition clear_value (d : detections) : detections :=
  Detections (network d) (nft_wallet_address d) (nft_network d) (currency d)
    (spot_network d) None None (details_token_address d)
    (details_token_network d) (profitloss_token_address d)
    (profitloss_token_network d) (profitloss_timerange d) (tx_hash d)
    (block_number d) (tx_network d) (wallet_address d) (history_network d).

(** [details_token_address = None; details_token_network = None] *)
Definition clear_details (d : detections) : detections :=
  Detections (network d) (nft_wallet_address d) (nft_network d) (currency d)
    (spot_network d) (token_address d) (token_network d) None None
    (profitloss_token_address d) (profitloss_token_network d)
    (profitloss_timerange d) (tx_hash d) (block_number d) (tx_network d)
    (wallet_address d) (history_network d).

(** [profitloss_token_address = None; profitloss_token_network = None;
    profitloss_timerange = None] *)
Definition clear_profitloss (d : detections) : detections :=
  Detections (network d) (nft_wallet_address d) (nft_network d) (currency d)
    (spot_network d) (token_address d) (token_network d)
    (details_token_address d) (details_token_network d) None None None
    (tx_hash d) (block_number d) (tx_network d) (wallet_address d)
    (history_network d).

(** [sum(1 for keyword in keywords if keyword in user_input.lower())] *)
Definition keyword_score (keywords : list string) (user_input : string) : nat :=
  List.length
    (filter (fun keyword => Str.contains keyword (Str.lower user_input))
            keywords).

Definition value_keywords : list string :=
  ["value"; "worth"; "price"; "cost"; "how much"].
Definition details_keywords : list string :=
  ["details"; "info"; "information"; "stats"; "statistics"; "data"].
Definition profitloss_keywords : list string :=
  ["profit"; "loss"; "profitloss"; "roi"; "return"; "p&l"; "gain"].

(** Lines 96-122: token value against token details. *)
Definition resolve_value_details (user_input : string) (d : detections)
  : detections :=
  if Str.truthy (token_address d) && Str.truthy (details_token_address d)
     && Str.eqb_opt (token_address d) (details_token_address d)
  then
    let value_score := keyword_score value_keywords user_input in
    let details_score := keyword_score details_keywords user_input in
    if (value_score <? details_score)%nat then clear_value d
    else if (details_score <? value_score)%nat then clear_details d
    else clear_details d
  else d.

(** Lines 124-162: profit/loss against token value, then against token
    details; the second comparison reads what the first one left. *)
Definition resolve_profitloss (user_input : string) (d : detections)
  : detections :=
  if Str.truthy (profitloss_token_address d)
  then
    let profitloss_score := keyword_score profitloss_keywords user_input in
    let d1 :=
      if Str.truthy (token_address d)
         && Str.eqb_opt (token_address d) (profitloss_token_address d)
      then
        let value_score := keyword_score value_keywords user_input in
        if (value_score <? profitloss_score)%nat then clear_value d
        else clear_profitloss d
      else d in
    if Str.truthy (details_token_address d1)
       && Str.eqb_opt (details_token_address d1) (profitloss_token_address d1)
    then
      let details_score := keyword_score details_keywords user_input in
      if (details_score <? profitloss_score)%nat then clear_details d1
      else clear_profitloss d1
    else d1
  else d.

(** Lines 96-162. *)
Definition disambiguate (user_input : string) (d : detections) : detections :=
  resolve_profitloss user_input (resolve_value_details user_input d).

Inductive tool : Type :=
| GasPrice | NftHoldings | SpotPrice | TokenValue | TokenDetails
| TokenProfitLoss | TransactionTrace | TransactionHistory.

(** The [if]/[elif] ladder of lines 176-665; [api_tools] stands for
    ["api_tools" in agent.connection_manager.connections]. *)
Definition select_tool (d : detections) (api_tools : bool) : option tool :=
  if Str.truthy (network d) && api_tools then Some GasPrice
  else if Str.truthy (nft_wallet_address d) && api_tools then Some NftHoldings
  else if Str.truthy (currency d) && api_tools then Some SpotPrice
  else if Str.truthy (token_address d) && api_tools then Some TokenValue
  else if Str.truthy (details_token_address d) && api_tools
  then Some TokenDetails
  else if Str.truthy (profitloss_token_address d) && api_tools
  then Some TokenProfitLoss
  else if Str.truthy (tx_hash d) && Str.truthy (block_number d) && api_tools
  then Some TransactionTrace
  else if Str.truthy (wallet_address d) && api_tools
  then Some TransactionHistory
  else None.

(** Detection, disambiguation and the choice of the tool for one input. *)
Definition turn (user_input : string) (api_tools : bool)
  : result (detections * option tool) :=
  d <- detect_all user_input ;;
  let d' := disambiguate user_input d in
  Ok (d', select_tool d' api_tools).

End Chat.

(* ================================================================== *)
(** ** [server/app.py]: the routing ladder of the [/ollama/chat] endpoint *)

Module Server.

(** A call [perform_action(connection_name="api_tools", action_name=...,
    params=[...])]. *)
Record request : Type := Request {
  action_name : string;
  params      : list string
}.

(** [NETWORK_TO_CHAIN_ID.get(network.lower(), "1")] *)
Definition chain_id_of (network : option string) : result string :=
  match network with
  | Some n => Ok (dict_get_default NETWORK_TO_CHAIN_ID (Str.lower n) "1")
  | None => Raise AttributeError
  end.

Definition text_of (o : option string) : string :=
  match o with
  | Some s => s
  | None => ""
  end.

(** Each step runs one matcher and, when its guard holds, builds the call. *)
Definition trace_step (message : string) : result (option request) :=
  '(tx_hash, block_number, network) <- detect_transaction_trace_query message ;;
  if Str.truthy tx_hash && Str.truthy block_number
  then
    chain_id <- chain_id_of network ;;
    Ok (Some (Request "get-transaction-trace"
                [text_of tx_hash; text_of block_number; chain_id]))
  else Ok None.

Definition gas_step (message : string) : result (option request) :=
  network <- detect_gas_price_query message ;;
  if Str.truthy network
  then chain_id <- chain_id_of network ;;
       Ok (Some (Request "get-gas-price" [chain_id]))
  else Ok None.

(** The shape shared by the steps keyed on one address or currency. *)
Definition keyed_step (detect : string -> result (option string * option string))
    (action : string) (message : string) : result (option request) :=
  '(subject, network) <- detect message ;;
  if Str.truthy subject
  then chain_id <- chain_id_of network ;;
       Ok (Some (Request action [text_of subject; chain_id]))
  else Ok None.

Definition profitloss_step (message : string) : result (option request) :=
  '(token_address, network, timerange) <- detect_token_profitloss_query message ;;
  if Str.truthy token_address
  then chain_id <- chain_id_of network ;;
       Ok (Some (Request "get-token-profitloss"
                   [text_of token_address; chain_id; text_of timerange]))
  else Ok None.

(** Lines 255-390, in the order they are written. *)
Definition steps : list (string -> result (option request)) :=
  [ trace_step;
    gas_step;
    keyed_step detect_nft_holdings_query "get-nft-holdings";
    keyed_step detect_token_value_query "get-token-value";
    keyed_step detect_token_details_query "get-token-details";
    profitloss_step;
    keyed_step detect_spot_price_query "get-spot-price";
    keyed_step detect_transaction_history_query "get-transaction-history" ].

(** The steps are tried in order; a call whose result is true ends the
    routing, otherwise the next step runs.  The calls made are logged. *)
Fixpoint route_from (perform_action : request -> bool)
    (todo : list (string -> result (option request))) (message : string)
    (calls : list request) : result (list request * option request) :=
  match todo with
  | [] => Ok (calls, None)
  | step :: todo' =>
      o <- step message ;;
      match o with
      | Some req =>
          if perform_action req then Ok ((calls ++ [req])%list, Some req)
          else route_from perform_action todo' message (calls ++ [req])%list
      | None => route_from perform_action todo' message calls
      end
  end.

Definition route (perform_action : request -> bool) (message : string)
  : result (list request * option request) :=
  route_from perform_action steps message [].

End Server.

(* ================================================================== *)
(** ** [api_tools_actions.py]: the action functions up to their API call

    Each [get_*] action reads its keyword arguments, settles the chain id and
    hands one request to the [api_tools] connection.  What it does with the
    answer depends on the JSON of the remote service and is not modelled.  A
    keyword argument that is given is a [str] or [None]. *)

Module Actions.

(** [**kwargs]: the keywords given, each with its value. *)
Definition kwargs : Type := list (string * option string).

Definition item (kw : kwargs) (key : string) : option (option string) :=
  option_map snd (find (fun e => String.eqb (fst e) key) kw).

(** [kwargs.get(key)] *)
Definition get (kw : kwargs) (key : string) : option string :=
  match item kw key with
  | Some v => v
  | None => None
  end.

(** [kwargs.get(key, default)] *)
Definition get_default (kw : kwargs) (key default : string) : option string :=
  match item kw key with
  | Some v => v
  | None => Some default
  end.

Definition upper_char (c : ascii) : ascii :=
  if Str.between "a" "z" c then ascii_of_N (Str.code c - 32) else c.

(** [s.upper()] *)
Fixpoint upper (s : string) : string :=
  match s with
  | EmptyString => EmptyString
  | String c s' => String (upper_char c) (upper s')
  end.

(** [s.capitalize()] *)
Definition capitalize (s : string) : string :=
  match s with
  | EmptyString => EmptyString
  | String c s' => String (upper_char c) (Str.lower s')
  end.

(** [for net, cid in NETWORK_TO_CHAIN_ID.items(): if cid == chain_id: ...;
    break]: the first alias of the chain. *)
Definition first_alias (chain_id : string) : option string :=
  option_map fst
    (find (fun e => String.eqb (snd e) chain_id) NETWORK_TO_CHAIN_ID).

(** The name shown for a chain: [net.capitalize()] of its first alias, or
    [f"Chain ID {chain_id}"] when the loop ends without a [break]. *)
Definition display_name (chain_id : string) : string :=
  match first_alias chain_id with
  | Some net => capitalize net
  | None => "Chain ID " ++ chain_id
  end.

(** What an action does before it looks at an answer: it returns [False]
    without a call, or it makes one call; [network] is the name it logs. *)
Inductive outcome : Type :=
| Refused
| Call (network : string) (action_name : string) (params : list (option string)).

(** The block every action but [get_spot_price] repeats (lines 38-56 in
    [get_gas_price]): a network name is looked up when no chain id is given,
    an unknown name ends the action, and no chain id at all means
    Ethereum.  [None] stands for [return False]. *)
Definition settle_chain (chain_id network : option string)
  : option (string * string) :=
  let looked_up :=
    if Str.truthy network && negb (Str.truthy chain_id)
    then
      let network := Str.lower (Server.text_of network) in
      let chain_id := dict_get NETWORK_TO_CHAIN_ID network in
      if negb (Str.truthy chain_id) then None else Some chain_id
    else Some chain_id in
  match looked_up with
  | None => None
  | Some chain_id =>
      if negb (Str.truthy chain_id) then Some ("1", "Ethereum")
      else Some (Server.text_of chain_id,
                 display_name (Server.text_of chain_id))
  end.

(** Lines 27-66. *)
Definition get_gas_price (kw : kwargs) : outcome :=
  let chain_id := get kw "chain_id" in
  let network := get kw "network" in
  match settle_chain chain_id network with
  | None => Refused
  | Some (chain_id, network) => Call network "get-gas-price" [Some chain_id]
  end.

(** Lines 117-161: the wallet address is checked after the chain. *)
Definition get_nft_holdings (kw : kwargs) : outcome :=
  let wallet_address := get kw "wallet_address" in
  let chain_id := get kw "chain_id" in
  let network := get kw "network" in
  match settle_chain chain_id network with
  | None => Refused
  | Some (chain_id, network) =>
      if negb (Str.truthy wallet_address) then Refused
      else Call network "get-nft-holdings" [wallet_address; Some chain_id]
  end.

(** Lines 243-268: [.upper()] raises on a currency that is [None]; the
    chain id is passed on as it was given. *)
Definition get_spot_price (kw : kwargs) : result outcome :=
  currency <- match get_default kw "currency" "USD" with
              | Some c => Ok (upper c)
              | None => Raise AttributeError
              end ;;
  let chain_id := get_default kw "chain_id" "1" in
  let network :=
    match chain_id with
    | Some cid =>
        match first_alias cid with
        | Some net => capitalize net
        | None => "Ethereum"
        end
    | None => "Ethereum"
    end in
  Ok (Call network "get-spot-price" [Some currency; chain_id]).

(** Lines 332-377. *)
Definition get_token_value (kw : kwargs) : outcome :=
  let token_address := get kw "token_address" in
  let chain_id := get kw "chain_id" in
  let network := get kw "network" in
  if negb (Str.truthy token_address) then Refused
  else
    match settle_chain chain_id network with
    | None => Refused
    | Some (chain_id, network) =>
        Call network "get-token-value" [token_address; Some chain_id]
    end.

(** Lines 478-523. *)
Definition get_token_details (kw : kwargs) : outcome :=
  let token_address := get kw "token_address" in
  let chain_id := get kw "chain_id" in
  let network := get kw "network" in
  if negb (Str.truthy token_address) then Refused
  else
    match settle_chain chain_id network with
    | None => Refused
    | Some (chain_id, network) =>
        Call network "get-token-details" [token_address; Some chain_id]
    end.

Definition valid_timeranges : list string :=
  ["1day"; "7day"; "30day"; "90day"; "180day"; "365day"; "all"].

(** [timerange in valid_timeranges] *)
Definition is_valid_timerange (timerange : option string) : bool :=
  match timerange with
  | Some t => existsb (String.eqb t) valid_timeranges
  | None => false
  end.

(** Lines 617-669. *)
Definition get_token_profitloss (kw : kwargs) : outcome :=
  let token_address := get kw "token_address" in
  let chain_id := get kw "chain_id" in
  let network := get kw "network" in
  let timerange := get_default kw "timerange" "1day" in
  if negb (Str.truthy token_address) then Refused
  else
    match settle_chain chain_id network with
    | None => Refused
    | Some (chain_id, network) =>
        let timerange :=
          if negb (is_valid_timerange timerange) then Some "1day"
          else timerange in
        Call network "get-token-profitloss"
          [token_address; Some chain_id; timerange]
    end.

(** Lines 770-820: the request carries the hash and the block number only. *)
Definition get_transaction_trace (kw : kwargs) : outcome :=
  let tx_hash := get kw "tx_hash" in
  let block_number := get kw "block_number" in
  let chain_id := get kw "chain_id" in
  let network := get kw "network" in
  if negb (Str.truthy tx_hash) then Refused
  else if negb (Str.truthy block_number) then Refused
  else
    match settle_chain chain_id network with
    | None => Refused
    | Some (chain_id, network) =>
        Call network "get-transaction-trace" [tx_hash; block_number]
    end.

(** Lines 938-983. *)
Definition get_transaction_history (kw : kwargs) : outcome :=
  let wallet_address := get kw "wallet_address" in
  let chain_id := get kw "chain_id" in
  let network := get kw "network" in
  if negb (Str.truthy wallet_address) then Refused
  else
    match settle_chain chain_id network with
    | None => Refused
    | Some (chain_id, network) =>
        Call network "get-transaction-history" [wallet_address; Some chain_id]
    end.

End Actions.

(* ================================================================== *)
(** ** [ollama_actions.py]: the tool call of each branch of the ladder *)

Module ChatTools.

(** The action name and the keyword arguments a branch of the ladder (lines
    176-677) gives to [execute_action]; a chain id is looked up with
    [NETWORK_TO_CHAIN_ID.get(network.lower(), "1")] first in the branches
    that pass one. *)
Definition tool_call (t : Chat.tool) (d : Chat.detections)
  : result (string * Actions.kwargs) :=
  match t with
  | Chat.GasPrice =>
      Ok ("get-gas-price", [("network", Chat.network d)])
  | Chat.NftHoldings =>
      Ok ("get-nft-holdings",
          [("wallet_address", Chat.nft_wallet_address d);
           ("network", Chat.nft_network d)])
  | Chat.SpotPrice =>
      chain_id <- Server.chain_id_of (Chat.spot_network d) ;;
      Ok ("get-spot-price",
          [("currency", Chat.currency d); ("chain_id", Some chain_id)])
  | Chat.TokenValue =>
      chain_id <- Server.chain_id_of (Chat.token_network d) ;;
      Ok ("get-token-value",
          [("token_address", Chat.token_address d);
           ("chain_id", Some chain_id)])
  | Chat.TokenDetails =>
      chain_id <- Server.chain_id_of (Chat.details_token_network d) ;;
      Ok ("get-token-details",
          [("token_address", Chat.details_token_address d);
           ("chain_id", Some chain_id)])
  | Chat.TokenProfitLoss =>
      chain_id <- Server.chain_id_of (Chat.profitloss_token_network d) ;;
      Ok ("get-token-profitloss",
          [("token_address", Chat.profitloss_token_address d);
           ("chain_id", Some chain_id);
           ("timerange", Chat.profitloss_timerange d)])
  | Chat.TransactionTrace =>
      chain_id <- Server.chain_id_of (Chat.tx_network d) ;;
      Ok ("get-transaction-trace",
          [("tx_hash", Chat.tx_hash d);
           ("block_number", Chat.block_number d);
           ("chain_id", Some chain_id)])
  | Chat.TransactionHistory =>
      chain_id <- Server.chain_id_of (Chat.history_network d) ;;
      Ok ("get-transaction-history",
          [("wallet_address", Chat.wallet_address d);
           ("chain_id", Some chain_id)])
  end.

(** The action registered under each name by [@register_action]. *)
Definition registered (action_name : string)
  : option (Actions.kwargs -> result Actions.outcome) :=
  if String.eqb action_name "get-gas-price"
  then Some (fun kw => Ok (Actions.get_gas_price kw))
  else if String.eqb action_name "get-nft-holdings"
  then Some (fun kw => Ok (Actions.get_nft_holdings kw))
  else if String.eqb action_name "get-spot-price"
  then Some Actions.get_spot_price
  else if String.eqb action_name "get-token-value"
  then Some (fun kw => Ok (Actions.get_token_value kw))
  else if String.eqb action_name "get-token-details"
  then Some (fun kw => Ok (Actions.get_token_details kw))
  else if String.eqb action_name "get-token-profitloss"
  then Some (fun kw => Ok (Actions.get_token_profitloss kw))
  else if String.eqb action_name "get-transaction-trace"
  then Some (fun kw => Ok (Actions.get_transaction_trace kw))
  else if String.eqb action_name "get-transaction-history"
  then Some (fun kw => Ok (Actions.get_transaction_history kw))
  else None.

End ChatTools.

(* ================================================================== *)
(** ** [ollama_actions.py]: what becomes of the reply of the model

    Lines 763-944.  The ladder tests the same conditions in the same order as
    the one that selects the tool, on the values the local variables then
    have.  Of the local variables that outlive a turn, three are read
    here. *)

Module Reply.

Record locals : Type := Locals {
  (** [None]: ['template_response' in locals()] is false. *)
  template_response  : option string;
  (** [None]: the variable is not bound yet. *)
  corrected_response : option string;
  (** The value of ["assets" in nft_result and nft_result["assets"]] in a
      condition; [None] when evaluating it raises. *)
  nft_has_assets     : option bool
}.

Definition gas_keywords : list string := ["gas"; "gwei"; "fee"; "price"].
Definition price_keywords : list string := ["price"; "spot"; "token"; "value"].
Definition token_keywords : list string :=
  ["token"; "value"; "worth"; "usd"; "protocol"].
Definition details_keywords : list string :=
  ["token"; "details"; "name"; "symbol"; "price"; "value"; "amount"].
Definition profitloss_keywords : list string :=
  ["profit"; "loss"; "roi"; "return"; "performance"; "usd"].
Definition trace_keywords : list string :=
  ["transaction"; "trace"; "tx"; "hash"; "block"; "from"; "to"; "gas"; "logs";
   "calls"].
Definition history_keywords : list string :=
  ["transaction"; "history"; "wallet"; "sent"; "received"; "transfer";
   "approve"].

(** [f"{response}\n\nActually, let me provide you with the exact {what}:
    \n\n{template_response}"] *)
Definition with_correction (response what template : string) : string :=
  response ++ "

Actually, let me provide you with the exact " ++ what ++ ":

" ++ template.

(** The two tests of a branch: the subject occurs in the reply, or one of
    the keywords occurs in the lower-cased reply. *)
Definition contains_data (mentioned : bool) (keywords : list string)
    (response : string) : bool :=
  mentioned || any_keyword keywords (Str.lower response).

(** [if not contains_data and 'template_response' in locals(): response =
    ...], the form of six branches. *)
Definition amend (contains : bool) (what : string) (l : locals)
    (response : string) : string :=
  match template_response l with
  | Some template =>
      if negb contains then with_correction response what template
      else response
  | None => response
  end.

(** The reply that is appended to the history, [None] when none is (an empty
    reply, or an exception caught by the handler of line 943), and the local
    variables afterwards. *)
Definition correct (d : Chat.detections) (api_tools : bool) (l : locals)
    (response : string) : option string * locals :=
  if negb (Str.truthy (Some response)) then (None, l)
  else
    match Chat.select_tool d api_tools with
    | Some Chat.GasPrice =>
        let contains :=
          contains_data
            (Str.contains (Str.lower (Server.text_of (Chat.network d)))
                          (Str.lower response))
            gas_keywords response in
        match template_response l with
        | Some template =>
            if negb contains
            then
              let corrected :=
                with_correction response "gas prices" template in
              (Some corrected,
               Locals (template_response l) (Some corrected)
                 (nft_has_assets l))
            else (Some response, l)
        | None => (Some response, l)
        end
    | Some Chat.NftHoldings =>
        let mentioned :=
          Str.contains (Server.text_of (Chat.nft_wallet_address d)) response in
        match nft_has_assets l with
        | None => (None, l)
        | Some assets =>
            let contains := mentioned || assets in
            let l' :=
              match template_response l with
              | Some template =>
                  if negb contains
                  then Locals (template_response l)
                         (Some (with_correction response "NFT data" template))
                         (nft_has_assets l)
                  else l
              | None => l
              end in
            (corrected_response l', l')
        end
    | Some Chat.SpotPrice =>
        (Some (amend
                 (contains_data
                    (Str.contains (Server.text_of (Chat.currency d)) response)
                    price_keywords response)
                 "spot prices" l response), l)
    | Some Chat.TokenValue =>
        (Some (amend
                 (contains_data
                    (Str.contains (Server.text_of (Chat.token_address d))
                                  response)
                    token_keywords response)
                 "token value information" l response), l)
    | Some Chat.TokenDetails =>
        (Some (amend
                 (contains_data
                    (Str.contains
                       (Server.text_of (Chat.details_token_address d))
                       response)
                    details_keywords response)
                 "token details information" l response), l)
    | Some Chat.TokenProfitLoss =>
        (Some (amend
                 (contains_data
                    (Str.contains
                       (Server.text_of (Chat.profitloss_token_address d))
                       response)
                    profitloss_keywords response)
                 "token profit/loss information" l response), l)
    | Some Chat.TransactionTrace =>
        (Some (amend
                 (contains_data
                    (Str.contains (Server.text_of (Chat.tx_hash d)) response)
                    trace_keywords response)
                 "transaction trace information" l response), l)
    | Some Chat.TransactionHistory =>
        (Some (amend
                 (contains_data
                    (Str.contains (Server.text_of (Chat.wallet_address d))
                                  response)
                    history_keywords response)
                 "transaction history information" l response), l)
    | None => (Some response, l)
    end.

End Reply.

(* ================================================================== *)
(** ** [ollama_connection.py]: the prompt of [_chat_with_generate_api]

    A message is a [dict] with a [str] under ["content"], or a bare [str]. *)

Module Ollama.

Inductive message : Type :=
| Dict (role : option string) (content : string)
| Text (s : string).

(** [isinstance(msg, dict) and msg.get("role") == role] *)
Definition has_role (msg : message) (role : string) : bool :=
  match msg with
  | Dict r _ => Str.eqb_opt r (Some role)
  | Text _ => false
  end.

(** Lines 173-179: [system_content] after the first loop. *)
Definition system_content (messages : list message) : string :=
  fold_left
    (fun system_content msg =>
       match msg with
       | Dict _ content =>
           if has_role msg "system" then system_content ++ content ++ "
"
           else system_content
       | Text _ => system_content
       end)
    messages "".

(** Lines 182-194: [user_messages] and [assistant_messages] after the second
    loop; a message that is not a [dict] counts as a user message. *)
Definition collect (messages : list message) : list string * list string :=
  fold_left
    (fun '(user_messages, assistant_messages) msg =>
       match msg with
       | Dict _ content =>
           if has_role msg "user"
           then ((user_messages ++ [content])%list, assistant_messages)
           else if has_role msg "assistant"
           then (user_messages, (assistant_messages ++ [content])%list)
           else (user_messages, assistant_messages)
       | Text s => ((user_messages ++ [s])%list, assistant_messages)
       end)
    messages ([], []).

(** Lines 199-203: one round of the loop over [i]. *)
Definition round (user_messages assistant_messages : list string)
    (prompt : string) (i : nat) : string :=
  let prompt :=
    if (i <? List.length user_messages)%nat
    then prompt ++ "User: " ++ nth i user_messages "" ++ "
"
    else prompt in
  if (i <? List.length assistant_messages)%nat
  then prompt ++ "Assistant: " ++ nth i assistant_messages "" ++ "
"
  else prompt.

(** Lines 172-207: the prompt sent to the generate endpoint. *)
Definition chat_prompt (messages : list message) : string :=
  let '(user_messages, assistant_messages) := collect messages in
  let prompt :=
    fold_left (round user_messages assistant_messages)
      (seq 0 (Nat.max (List.length user_messages)
                      (List.length assistant_messages)))
      "" in
  if (List.length assistant_messages <? List.length user_messages)%nat
  then prompt ++ "Assistant: "
  else prompt.

End Ollama.

(* ================================================================== *)
(** ** [server/app.py]: the [/api-tools] endpoints

    The parameters of a request are strings.  An endpoint ends by returning
    its answer or by raising; FastAPI turns an [HTTPException] into an answer
    with that status code.  [agent.perform_action], which the process
    endpoint calls, is not in these sources: it is a parameter that gives an
    answer or raises.  The two trace endpoints are modelled from their [try]
    on, that is once an agent is loaded. *)

Module Endpoints.

Inductive raised : Type :=
| HTTPException (status_code : nat)
| Other (e : exn)
| ValueError   (* [int(s)] on a string it refuses *)
| Foreign.     (* raised by code that is not in these sources *)

Inductive outcome (A : Type) : Type :=
| Return (a : A)
| Raised (r : raised).
Arguments Return {A} a.
Arguments Raised {A} r.

(** [except Exception as e: raise HTTPException(status_code=500, ...)]: an
    [HTTPException] raised in the body is caught like any other. *)
Definition except_Exception {A : Type} (body : outcome A) : outcome A :=
  match body with
  | Return a => Return a
  | Raised _ => Raised (HTTPException 500)
  end.

(** A matcher step run inside the body of an endpoint. *)
Definition run {A : Type} (m : result A) : outcome A :=
  match m with
  | Ok a => Return a
  | Raise e => Raised (Other e)
  end.

(** Lines 608-711: the query is given to the first of five matchers that
    recognises it. *)
Definition process_steps : list (string -> result (option Server.request)) :=
  [ Server.trace_step;
    Server.gas_step;
    Server.keyed_step detect_nft_holdings_query "get-nft-holdings";
    Server.keyed_step detect_token_value_query "get-token-value";
    Server.keyed_step detect_token_details_query "get-token-details" ].

Fixpoint process_from (todo : list (string -> result (option Server.request)))
    (query : string) : result (option Server.request) :=
  match todo with
  | [] => Ok None
  | step :: todo' =>
      o <- step query ;;
      match o with
      | Some req => Ok (Some req)
      | None => process_from todo' query
      end
  end.

(** Lines 586-719.  Without an agent the endpoint raises 400 before its
    [try].  Inside it, the request of the first matcher that recognises the
    query is given to [agent.perform_action] ([None]: that call raises), and
    its answer is returned, whatever it is, with the request; [Return None]
    is the answer "No specific API tool query detected". *)
Definition process_api_tools_request {R : Type} (agent_loaded : bool)
    (agent_perform_action : Server.request -> option R) (params : list string)
  : outcome (option (Server.request * R)) :=
  if negb agent_loaded then Raised (HTTPException 400)
  else
    except_Exception
      match params with
      | [] => Raised (HTTPException 400)
      | query :: _ =>
          match run (process_from process_steps query) with
          | Raised r => Raised r
          | Return None => Return None
          | Return (Some req) =>
              match agent_perform_action req with
              | Some answer => Return (Some (req, answer))
              | None => Raised Foreign
              end
          end
      end.

(** Lines 731-762: the hash, the block number and the chain id the trace
    endpoint settles on. *)
Definition trace_arguments (params : list string)
  : outcome (option string * option string * string) :=
  match params with
  | [] => Raised (HTTPException 400)
  | [query] =>
      if (50 <? String.length query)%nat
      then
        match detect_transaction_trace_query query with
        | Raise e => Raised (Other e)
        | Ok (tx_hash, block_number, network) =>
            if negb (Str.truthy tx_hash) || negb (Str.truthy block_number)
            then Raised (HTTPException 400)
            else
              match Server.chain_id_of network with
              | Ok chain_id => Return (tx_hash, block_number, chain_id)
              | Raise e => Raised (Other e)
              end
        end
      else Return (None, None, "1")
  | tx_hash :: block_number :: rest =>
      match rest with
      | [] => Return (Some tx_hash, Some block_number, "1")
      | network :: _ =>
          Return (Some tx_hash, Some block_number,
                  dict_get_default NETWORK_TO_CHAIN_ID (Str.lower network) "1")
      end
  end.

(** [s.isdigit()], on ASCII text. *)
Definition isdigit (s : string) : bool :=
  negb (String.eqb s "") && Str.all Str.is_digit s.

(** [sys.get_int_max_str_digits()] as CPython sets it by default. *)
Definition int_max_str_digits : nat := 4300.

(** [int(s)] raises [ValueError] on a string of digits that has more of them
    than that. *)
Definition int_raises (s : string) : bool :=
  (int_max_str_digits <? String.length s)%nat.

(** Lines 766-770: [if isinstance(block_number, str) and
    block_number.isdigit(): block_number_int = int(block_number)]; the
    number is not used, but the conversion can raise. *)
Definition convert_block_number (block_number : option string)
  : outcome unit :=
  match block_number with
  | Some s => if isdigit s && int_raises s then Raised ValueError
              else Return tt
  | None => Return tt
  end.

(** Lines 772-793: the call, and the inner [try] around it.  [perform_action]
    tells whether the answer of the connection is true in a condition. *)
Definition call_trace (perform_action : list (option string) -> bool)
    (params : list (option string)) : outcome (list (option string)) :=
  except_Exception
    (if perform_action params then Return params
     else Raised (HTTPException 500)).

(** Lines 727-797: the answer holds the parameters the call was made
    with. *)
Definition get_transaction_trace
    (perform_action : list (option string) -> bool) (params : list string)
  : outcome (list (option string)) :=
  except_Exception
    match trace_arguments params with
    | Raised r => Raised r
    | Return (tx_hash, block_number, chain_id) =>
        match convert_block_number block_number with
        | Raised r => Raised r
        | Return _ =>
            call_trace perform_action [tx_hash; block_number; Some chain_id]
        end
    end.

(** Lines 809-849; [is_configured] is the answer of the connection to
    [is_configured()]. *)
Definition get_transaction_trace_direct (is_configured : bool)
    (perform_action : list (option string) -> bool)
    (tx_hash block_number network : string)
  : outcome (list (option string)) :=
  except_Exception
    (let chain_id :=
       dict_get_default NETWORK_TO_CHAIN_ID (Str.lower network) "1" in
     except_Exception
       (if negb is_configured then Raised (HTTPException 400)
        else if perform_action [Some tx_hash; Some block_number; Some chain_id]
        then Return [Some tx_hash; Some block_number; Some chain_id]
        else Raised (HTTPException 500))).

End Endpoints.

(* ================================================================== *)
(** ** Vocabulary of the specification *)

(** ["0x"] followed by exactly [n] hexadecimal digits. *)
Definition hex_token (n : nat) (a : string) : Prop :=
  exists h, a = "0x" ++ h /\ String.length h = n /\ Str.all Str.is_hex h = true.

(** A well-formed address: 40 hexadecimal digits after ["0x"]. *)
Definition is_address (a : string) : Prop := hex_token 40 a.

(** A well-formed transaction hash: 64 hexadecimal digits after ["0x"]. *)
Definition is_tx_hash (a : string) : Prop := hex_token 64 a.

(** The text has a token of that shape somewhere. *)
Definition has_token (n : nat) (text : string) : Prop :=
  exists pre a post, text = pre ++ a ++ post /\ hex_token n a.

(** [a] is the token of that shape that starts furthest to the left. *)
Definition leftmost_token (n : nat) (text a : string) : Prop :=
  exists pre post,
    text = pre ++ a ++ post /\ hex_token n a
    /\ forall pre' a' post',
         text = pre' ++ a' ++ post' -> hex_token n a' ->
         String.length pre <= String.length pre'.

(** A token of that shape starts right here. *)
Definition token_here (n : nat) (s : string) : bool :=
  prefix "0x" s
  && Str.all Str.is_hex (Str.take n (Str.drop 2 s))
  && (String.length (Str.take n (Str.drop 2 s)) =? n)%nat.

(** Left-to-right scan for the first token of that shape. *)
Fixpoint first_token (n : nat) (s : string) : option string :=
  if token_here n s then Some (Str.take (2 + n) s)
  else
    match s with
    | String _ s' => first_token n s'
    | EmptyString => None
    end.

(** The three intents whose subject is a token address. *)
Inductive token_intent : Type := Value | Details | ProfitLoss.

Definition subject (i : token_intent) (d : Chat.detections) : option string :=
  match i with
  | Value => Chat.token_address d
  | Details => Chat.details_token_address d
  | ProfitLoss => Chat.profitloss_token_address d
  end.

Definition score (i : token_intent) (user_input : string) : nat :=
  match i with
  | Value => Chat.keyword_score Chat.value_keywords user_input
  | Details => Chat.keyword_score Chat.details_keywords user_input
  | ProfitLoss => Chat.keyword_score Chat.profitloss_keywords user_input
  end.

(** The result of an intent was discarded: all its fields are absent. *)
Definition cleared (i : token_intent) (d : Chat.detections) : Prop :=
  match i with
  | Value => Chat.token_address d = None /\ Chat.token_network d = None
  | Details =>
      Chat.details_token_address d = None /\ Chat.details_token_network d = None
  | ProfitLoss =>
      Chat.profitloss_token_address d = None
      /\ Chat.profitloss_token_network d = None
      /\ Chat.profitloss_timerange d = None
  end.

(** The result of an intent is in [d'] what it was in [d]. *)
Definition kept (i : token_intent) (d d' : Chat.detections) : Prop :=
  match i with
  | Value =>
      Chat.token_address d' = Chat.token_address d
      /\ Chat.token_network d' = Chat.token_network d
  | Details =>
      Chat.details_token_address d' = Chat.details_token_address d
      /\ Chat.details_token_network d' = Chat.details_token_network d
  | ProfitLoss =>
      Chat.profitloss_token_address d' = Chat.profitloss_token_address d
      /\ Chat.profitloss_token_network d' = Chat.profitloss_token_network d
      /\ Chat.profitloss_timerange d' = Chat.profitloss_timerange d
  end.

(** Precedence on an exact tie: the smaller rank keeps its result. *)
Definition tie_rank (i : token_intent) : nat :=
  match i with
  | Value => 0
  | Details => 1
  | ProfitLoss => 2
  end.

(** The calls the ladder can make for a message whose network has chain id
    [chain]. *)
Definition call_shape (chain : string) (req : Server.request) : Prop :=
  (exists h b, h <> "" /\ b <> ""
               /\ req = Server.Request "get-transaction-trace" [h; b; chain])
  \/ req = Server.Request "get-gas-price" [chain]
  \/ (exists action subject,
        In action ["get-nft-holdings"; "get-token-value"; "get-token-details";
                   "get-spot-price"; "get-transaction-history"]
        /\ subject <> ""
        /\ req = Server.Request action [subject; chain])
  \/ (exists a range, a <> ""
        /\ req = Server.Request "get-token-profitloss" [a; chain; range]).

(** With chain id [cid] settled, every action whose subject is given makes
    its call on that chain, under the name shown for the chain. *)
Definition settled_on (kw : Actions.kwargs) (cid : string) : Prop :=
  Actions.get_gas_price kw
  = Actions.Call (Actions.display_name cid) "get-gas-price" [Some cid]
  /\ (Str.truthy (Actions.get kw "wallet_address") = true ->
      Actions.get_nft_holdings kw
      = Actions.Call (Actions.display_name cid) "get-nft-holdings"
          [Actions.get kw "wallet_address"; Some cid])
  /\ (Str.truthy (Actions.get kw "token_address") = true ->
      Actions.get_token_value kw
      = Actions.Call (Actions.display_name cid) "get-token-value"
          [Actions.get kw "token_address"; Some cid])
  /\ (Str.truthy (Actions.get kw "token_address") = true ->
      Actions.get_token_details kw
      = Actions.Call (Actions.display_name cid) "get-token-details"
          [Actions.get kw "token_address"; Some cid])
  /\ (Str.truthy (Actions.get kw "token_address") = true ->
      exists timerange,
        In timerange Actions.valid_timeranges
        /\ Actions.get_token_profitloss kw
           = Actions.Call (Actions.display_name cid) "get-token-profitloss"
               [Actions.get kw "token_address"; Some cid; Some timerange])
  /\ (Str.truthy (Actions.get kw "tx_hash") = true ->
      Str.truthy (Actions.get kw "block_number") = true ->
      Actions.get_transaction_trace kw
      = Actions.Call (Actions.display_name cid) "get-transaction-trace"
          [Actions.get kw "tx_hash"; Actions.get kw "block_number"])
  /\ (Str.truthy (Actions.get kw "wallet_address") = true ->
      Actions.get_transaction_history kw
      = Actions.Call (Actions.display_name cid) "get-transaction-history"
          [Actions.get kw "wallet_address"; Some cid]).

(** The seven actions that settle a chain all return [False] without a
    call. *)
Definition all_refused (kw : Actions.kwargs) : Prop :=
  Actions.get_gas_price kw = Actions.Refused
  /\ Actions.get_nft_holdings kw = Actions.Refused
  /\ Actions.get_token_value kw = Actions.Refused
  /\ Actions.get_token_details kw = Actions.Refused
  /\ Actions.get_token_profitloss kw = Actions.Refused
  /\ Actions.get_transaction_trace kw = Actions.Refused
  /\ Actions.get_transaction_history kw = Actions.Refused.

(** The parameters of the request a tool of the chat loop ends in, read
    from the results of the turn. *)
Definition expected_params (t : Chat.tool) (d : Chat.detections)
    (chain : string) : list (option string) :=
  match t with
  | Chat.GasPrice => [Some chain]
  | Chat.NftHoldings => [Chat.nft_wallet_address d; Some chain]
  | Chat.SpotPrice => [Chat.currency d; Some chain]
  | Chat.TokenValue => [Chat.token_address d; Some chain]
  | Chat.TokenDetails => [Chat.details_token_address d; Some chain]
  | Chat.TokenProfitLoss =>
      [Chat.profitloss_token_address d; Some chain;
       Chat.profitloss_timerange d]
  | Chat.TransactionTrace => [Chat.tx_hash d; Chat.block_number d]
  | Chat.TransactionHistory => [Chat.wallet_address d; Some chain]
  end.

(** Every result that has its subject also has the network of the message,
    and the profit-loss result its time range. *)
Definition groups_ok (net range : string) (d : Chat.detections) : Prop :=
  (Str.truthy (Chat.network d) = true -> Chat.network d = Some net)
  /\ (Str.truthy (Chat.nft_wallet_address d) = true ->
      Chat.nft_network d = Some net)
  /\ (Str.truthy (Chat.currency d) = true ->
      Chat.spot_network d = Some net
      /\ exists code, Chat.currency d = Some code /\ In code currencies)
  /\ (Str.truthy (Chat.token_address d) = true ->
      Chat.token_network d = Some net)
  /\ (Str.truthy (Chat.details_token_address d) = true ->
      Chat.details_token_network d = Some net)
  /\ (Str.truthy (Chat.profitloss_token_address d) = true ->
      Chat.profitloss_token_network d = Some net
      /\ Chat.profitloss_timerange d = Some range)
  /\ (Str.truthy (Chat.tx_hash d) = true -> Chat.tx_network d = Some net)
  /\ (Str.truthy (Chat.wallet_address d) = true ->
      Chat.history_network d = Some net).

(** The condition of the branch of the ladder that selects a tool. *)
Definition guard (t : Chat.tool) (d : Chat.detections) : Prop :=
  match t with
  | Chat.GasPrice => Str.truthy (Chat.network d) = true
  | Chat.NftHoldings => Str.truthy (Chat.nft_wallet_address d) = true
  | Chat.SpotPrice => Str.truthy (Chat.currency d) = true
  | Chat.TokenValue => Str.truthy (Chat.token_address d) = true
  | Chat.TokenDetails => Str.truthy (Chat.details_token_address d) = true
  | Chat.TokenProfitLoss =>
      Str.truthy (Chat.profitloss_token_address d) = true
  | Chat.TransactionTrace =>
      Str.truthy (Chat.tx_hash d) = true
      /\ Str.truthy (Chat.block_number d) = true
  | Chat.TransactionHistory => Str.truthy (Chat.wallet_address d) = true
  end.

(** The conversation written out in the order of the messages: a line per
    user and per assistant message, system and other messages left out. *)
Fixpoint transcript (messages : list Ollama.message) : string :=
  match messages with
  | [] => ""
  | msg :: rest =>
      match msg with
      | Ollama.Dict _ content =>
          if Ollama.has_role msg "user"
          then "User: " ++ content ++ "
" ++ transcript rest
          else if Ollama.has_role msg "assistant"
          then "Assistant: " ++ content ++ "
" ++ transcript rest
          else transcript rest
      | Ollama.Text s => "User: " ++ s ++ "
" ++ transcript rest
      end
  end.

(** Who speaks in a message: [Some true] a user, [Some false] the assistant,
    [None] neither. *)
Definition speaker (msg : Ollama.message) : option bool :=
  match msg with
  | Ollama.Dict _ _ =>
      if Ollama.has_role msg "user" then Some true
      else if Ollama.has_role msg "assistant" then Some false
      else None
  | Ollama.Text _ => Some true
  end.

(** The user and the assistant take turns; [user_next] tells whose turn it
    is at the head of the list. *)
Fixpoint takes_turns (user_next : bool) (messages : list Ollama.message)
  : bool :=
  match messages with
  | [] => true
  | msg :: rest =>
      match speaker msg with
      | Some user => Bool.eqb user user_next && takes_turns (negb user_next) rest
      | None => takes_turns user_next rest
      end
  end.

(** The last speaker of a conversation that starts with [user_next] is a
    user. *)
Fixpoint awaits_reply (user_last : bool) (messages : list Ollama.message)
  : bool :=
  match messages with
  | [] => user_last
  | msg :: rest =>
      match speaker msg with
      | Some user => awaits_reply user rest
      | None => awaits_reply user_last rest
      end
  end.

(** The contents of the user messages, and of the assistant messages, in
    order. *)
Fixpoint users (messages : list Ollama.message) : list string :=
  match messages with
  | [] => []
  | msg :: rest =>
      match speaker msg, msg with
      | Some true, Ollama.Dict _ content => content :: users rest
      | Some true, Ollama.Text s => s :: users rest
      | _, _ => users rest
      end
  end.

Fixpoint assistants (messages : list Ollama.message) : list string :=
  match messages with
  | [] => []
  | msg :: rest =>
      match speaker msg, msg with
      | Some false, Ollama.Dict _ content => content :: assistants rest
      | _, _ => assistants rest
      end
  end.

(** A line per user message, each followed by the line of the assistant
    message of the same rank when there is one. *)
Fixpoint paired_lines (user_messages assistant_messages : list string)
  : string :=
  match user_messages with
  | [] => ""
  | u :: us =>
      "User: " ++ u ++ "
" ++ match assistant_messages with
     | [] => paired_lines us []
     | a :: rest => "Assistant: " ++ a ++ "
" ++ paired_lines us rest
     end
  end.

(** The text is ASCII.  On such text the character classes and the
    [lower()] of the model are those of Python. *)
Definition is_ascii (text : string) : bool :=
  Str.all (fun c => (Str.code c <? 128)%N) text.

(** Sample tokens used in the examples. *)
Definition sample_address : string :=
  "0x1234567890123456789012345678901234567890".
Definition other_address : string :=
  "0xabcdefabcdefabcdefabcdefabcdefabcdefabcd".
Definition sample_hash : string :=
  "0x1234567890123456789012345678901234567890123456789012345678901234".

(** No token of that shape starts at any of the first [k] positions. *)
Fixpoint none_before (n k : nat) (s : string) : bool :=
  match k with
  | 0 => true
  | S k' =>
      negb (token_here n s)
      && match s with
         | String _ s' => none_before n k' s'
         | EmptyString => true
         end
  end.

(** What the matchers return on ["profit and loss value of " ++
    sample_address]: the value and the profit-loss matcher both fall back on
    the address. *)
Definition value_and_profitloss : Chat.detections :=
  Chat.Detections None None None None None
    (Some sample_address) (Some "ethereum") None None
    (Some sample_address) (Some "ethereum") (Some "1day")
    None None None None None.

(** What the matchers return on ["what is the value and details of token "
    ++ sample_address]. *)
Definition value_and_details : Chat.detections :=
  Chat.Detections None None None None None
    (Some sample_address) (Some "ethereum")
    (Some sample_address) (Some "ethereum") None None None
    None None None None None.

(* ================================================================== *)
(** ** The matchers on sample inputs *)

(** Greedy repetition with backtracking, and what group 1 captures. *)
Example block_number_samples :
  map (fun text => option_map groups (search block_number_pattern text))
      ["block 123"; "block number: 55"; "blk=7"; "block no 9 x"; "Block 12";
       "in block18500000"; "block  :  42"]
  = [Some [Some "123"]; Some [Some "55"]; Some [Some "7"]; Some [Some "9"];
     None; None; Some [Some "42"]].
Proof. vm_compute; reflexivity. Qed.

(** Word boundaries around a run of at least seven digits. *)
Example simple_block_number_samples :
  map (fun text => option_map group0 (search block_number_simple_pattern text))
      ["a 1234567 b"; "x1234567"; "1234567x"; "12345678"; "0x12345678 ";
       "_1234567"; "123456"]
  = [Some "1234567"; None; None; Some "12345678"; None; None; None].
Proof. vm_compute; reflexivity. Qed.

(** The scenarios of the specification. *)
Example scenario_nft_holdings :
  detect_nft_holdings_query
    ("show nft holdings for " ++ sample_address ++ " on base")
  = Ok (Some sample_address, Some "base")
  /\ dict_get NETWORK_TO_CHAIN_ID "base" = Some "8453".
Proof. split; vm_compute; reflexivity. Qed.

Example scenario_trace :
  detect_transaction_trace_query
    ("trace tx " ++ sample_hash ++ " in block 18500000")
  = Ok (Some sample_hash, Some "18500000", Some "ethereum").
Proof. vm_compute; reflexivity. Qed.

Example scenario_no_intent :
  Chat.turn "hello, how are you?" true
  = Ok (Chat.Detections None None None None None None None None None None
          None None None None None None None, None).
Proof. vm_compute; reflexivity. Qed.

(** A hash alone also looks like an address to the history matcher as soon as
    the text says "tx". *)
Example scenario_trace_without_block :
  Chat.turn ("trace tx " ++ sample_hash) true
  = Ok (Chat.Detections None None None None None None None None None None
          None None (Some sample_hash) None (Some "ethereum")
          (Some sample_address) (Some "ethereum"),
        Some Chat.TransactionHistory).
Proof. vm_compute; reflexivity. Qed.

(** The list the token-value matcher checks first is shorter than the
    template list of the token-details matcher: a text that only matches
    "detailed information" is a details query and a value query alike. *)
Example detailed_information_not_excluded :
  any_found token_details_patterns
    (Str.lower ("detailed information and value of token " ++ sample_address))
  = true
  /\ any_found TokenValue.token_details_patterns
       (Str.lower ("detailed information and value of token " ++ sample_address))
     = false
  /\ detect_token_value_query
       ("detailed information and value of token " ++ sample_address)
     = Ok (Some sample_address, Some "ethereum").
Proof. repeat split; vm_compute; reflexivity. Qed.

(* ================================================================== *)
(** ** Facts about strings *)

Section StringFacts.

Lemma append_assoc (a b c : string) : (a ++ b) ++ c = a ++ (b ++ c).
Proof. induction a as [|x a IH]; simpl; [reflexivity | now rewrite IH]. Qed.

Lemma length_append (a b : string) :
  String.length (a ++ b) = String.length a + String.length b.
Proof. induction a as [|x a IH]; simpl; [reflexivity | now rewrite IH]. Qed.

Lemma take_append (a b : string) : Str.take (String.length a) (a ++ b) = a.
Proof. induction a as [|x a IH]; simpl; [now destruct b | now rewrite IH]. Qed.

Lemma take_drop (n : nat) (s : string) : Str.take n s ++ Str.drop n s = s.
Proof.
  revert s; induction n as [|n IH]; intros [|c s]; simpl; try reflexivity.
  now rewrite IH.
Qed.

Lemma all_take (p : ascii -> bool) (n : nat) (s : string) :
  Str.all p s = true -> Str.all p (Str.take n s) = true.
Proof.
  revert s; induction n as [|n IH]; intros [|c s]; simpl; try reflexivity.
  intros H; apply andb_true_iff in H as [Hc Hs].
  now rewrite Hc, IH.
Qed.

Lemma length_take (n : nat) (s : string) :
  n <= String.length s -> String.length (Str.take n s) = n.
Proof.
  revert s; induction n as [|n IH]; intros [|c s]; simpl; try lia.
  intros H; rewrite IH; lia.
Qed.

Lemma prefix_spec (w s : string) :
  prefix w s = true <-> exists post, s = w ++ post.
Proof.
  revert s; induction w as [|a w IH]; intros s.
  - destruct s; simpl; split; eauto.
  - destruct s as [|b s]; simpl.
    + split; [discriminate | intros [post H]; discriminate].
    + destruct (ascii_dec a b) as [->|Hab].
      * rewrite IH; split; intros [post H]; exists post.
        -- now rewrite H.
        -- now inversion H.
      * split; [discriminate | intros [post H]; inversion H; subst; now elim Hab].
Qed.

(** [kw in s] holds exactly of the strings that have [kw] as a substring. *)
Lemma contains_spec (kw s : string) :
  Str.contains kw s = true <-> exists pre post, s = pre ++ kw ++ post.
Proof.
  induction s as [|c s IH]; cbn [Str.contains].
  - rewrite orb_false_r, prefix_spec; split.
    + intros [post H]; exists "", post; exact H.
    + intros [pre [post H]]; destruct pre; [eauto | discriminate].
  - rewrite orb_true_iff, prefix_spec, IH; split.
    + intros [[post H] | [pre [post H]]].
      * exists "", post; exact H.
      * exists (String c pre), post; simpl; now rewrite H.
    + intros [pre [post H]]; destruct pre as [|x pre]; simpl in H.
      * left; eauto.
      * right; inversion H; eauto.
Qed.

Lemma contains_trans (a b s : string) :
  Str.contains a b = true -> Str.contains b s = true ->
  Str.contains a s = true.
Proof.
  rewrite !contains_spec; intros [p1 [q1 ->]] [p2 [q2 ->]].
  exists (p2 ++ p1), (q1 ++ q2); now rewrite !append_assoc.
Qed.

End StringFacts.

(* ================================================================== *)
(** ** Facts about the matcher *)

Section MatcherFacts.

Lemma eat_sound (w : string) (prev prev' : option ascii) (s s' : string) :
  eat w prev s = Some (prev', s') -> s = w ++ s'.
Proof.
  revert prev s; induction w as [|a w IH]; intros prev s; simpl.
  - now intros [= _ ->].
  - destruct s as [|b s]; [discriminate|].
    destruct (Ascii.eqb_spec a b) as [->|]; [|discriminate].
    intros H; apply IH in H; now rewrite H.
Qed.

Lemma eat_prefix (w : string) (prev : option ascii) (s : string) :
  is_some (eat w prev s) = prefix w s.
Proof.
  revert prev s; induction w as [|a w IH]; intros prev [|b s]; simpl;
    try reflexivity.
  destruct (Ascii.eqb_spec a b) as [->|Hab].
  - destruct (ascii_dec b b); [apply IH | contradiction].
  - destruct (ascii_dec a b); [contradiction | reflexivity].
Qed.

Lemma match_at_Lit (w : string) (prev : option ascii) (s : string) :
  is_some (match_at (Lit w) prev s) = prefix w s.
Proof.
  rewrite <- (eat_prefix w prev s). unfold match_at; cbn [run before rest].
  now destruct (eat w prev s) as [[p r]|].
Qed.

(** A literal pattern is found exactly in the texts that contain it. *)
Lemma found_Lit (w s : string) : found (Lit w) s = Str.contains w s.
Proof.
  unfold found, search.
  generalize (@None ascii) as prev.
  induction s as [|c s IH]; intros prev; cbn [search_from Str.contains];
    rewrite <- (match_at_Lit w prev);
    destruct (match_at (Lit w) prev _); cbn [is_some orb];
    [reflexivity | reflexivity | reflexivity | apply IH].
Qed.

(** [[p]{n}] takes exactly [n] characters of the class or fails. *)
Lemma rep_exact (p : ascii -> bool) (n : nat) (cap : option string)
    (prev : option ascii) (s : string) :
  (Str.all p (Str.take n s) && (String.length (Str.take n s) =? n)%nat = true
   /\ exists prev', rep p n (Some n) cap prev s
                    = [Cursor prev' (Str.drop n s) cap])
  \/ (Str.all p (Str.take n s) && (String.length (Str.take n s) =? n)%nat = false
      /\ rep p n (Some n) cap prev s = []).
Proof.
  revert prev s; induction n as [|n IH]; intros prev s.
  - left; split; [now destruct s|].
    exists prev; destruct s; simpl; [reflexivity|].
    now rewrite andb_false_r.
  - destruct s as [|a s]; simpl; [right; split; reflexivity|].
    destruct (p a) eqn:Hp; simpl; [|right; split; reflexivity].
    destruct (IH (Some a) s) as [[H [prev' E]] | [H E]].
    + left; split; [exact H|]. exists prev'. now rewrite E.
    + right; split; [exact H|]. now rewrite E.
Qed.

(** The matcher only moves forward: what is left after a match is a suffix
    of what was there before it. *)
Lemma rep_forward (p : ascii -> bool) (cap : option string) (s : string) :
  forall lo hi prev c',
    In c' (rep p lo hi cap prev s) -> exists m, s = m ++ rest c'.
Proof.
  induction s as [|a s IH]; intros lo hi prev c'; cbn [rep].
  - destruct (lo =? 0)%nat; [intros [<- | []] | intros []].
    exists ""; reflexivity.
  - assert (Stop : In c' (if (lo =? 0)%nat
                          then [Cursor prev (String a s) cap] else []) ->
                   exists m, String a s = m ++ rest c')
      by (destruct (lo =? 0)%nat; [intros [<- | []] | intros []];
          exists ""; reflexivity).
    destruct (p a && may_take hi); [|exact Stop].
    intros H; apply in_app_or in H as [H | H]; [|now apply Stop].
    destruct (IH _ _ _ _ H) as [m ->]; exists (String a m); reflexivity.
Qed.

Lemma run_forward (r : regex) :
  forall c c', In c' (run r c) -> exists m, rest c = m ++ rest c'.
Proof.
  induction r as [|w|p|r1 IH1 r2 IH2|r1 IH1 r2 IH2|r IH|p lo hi| |r IH];
    intros c c'; cbn [run].
  - intros [].
  - destruct (eat w (before c) (rest c)) as [[q s']|] eqn:E; [|intros []].
    intros [<- | []]; exists w; now apply eat_sound in E.
  - destruct (rest c) as [|a s']; [intros []|].
    destruct (p a); [intros [<- | []] | intros []].
    exists (String a ""); reflexivity.
  - intros H; apply in_flat_map in H as [c1 [H1 H2]].
    destruct (IH1 _ _ H1) as [m1 E1], (IH2 _ _ H2) as [m2 E2].
    exists (m1 ++ m2); now rewrite E1, E2, append_assoc.
  - intros H; apply in_app_or in H as [H | H]; eauto.
  - intros H; apply in_app_or in H as [H | [<- | []]]; eauto.
    exists ""; reflexivity.
  - apply rep_forward.
  - destruct (xorb _ _); [intros [<- | []] | intros []].
    exists ""; reflexivity.
  - intros H; apply in_map_iff in H as [c1 [<- H]]; cbn [rest]; eauto.
Qed.

(** The text of a match is the text the pattern went over, and it is a
    substring of the text that was searched. *)
Lemma search_substring (r : regex) (text : string) (m : re_match) :
  search r text = Some m -> exists pre post, text = pre ++ group0 m ++ post.
Proof.
  unfold search; generalize (@None ascii) as prev.
  assert (At : forall prev s, match_at r prev s = Some m ->
                              exists post, s = group0 m ++ post).
  { intros prev s; unfold match_at.
    destruct (run r (Cursor prev s None)) as [|c cs] eqn:R; [discriminate|].
    intros [= <-]; cbn [group0].
    destruct (run_forward r (Cursor prev s None) c) as [w E];
      [rewrite R; now left|].
    cbn [rest] in E; subst s; exists (rest c).
    now rewrite length_append, Nat.add_sub, take_append. }
  induction text as [|a s IH]; intros prev; cbn [search_from];
    destruct (match_at r prev _) eqn:E.
  - intros [= <-]; destruct (At _ _ E) as [post ->]; exists "", post; auto.
  - discriminate.
  - intros [= <-]; destruct (At _ _ E) as [post ?]; exists "", post; auto.
  - intros H; destruct (IH _ H) as [pre [post ->]].
    exists (String a pre), post; reflexivity.
Qed.

End MatcherFacts.

(* ================================================================== *)
(** ** Searching for addresses and hashes *)

Section HexTokens.

Variable n : nat.

Let pattern : regex := Cat (Lit "0x") (Rep Str.is_hex n (Some n)).

Lemma token_here_spec (s : string) :
  token_here n s = true <->
  exists a post, s = a ++ post /\ hex_token n a.
Proof.
  unfold token_here; rewrite !andb_true_iff, prefix_spec, Nat.eqb_eq; split.
  - intros [[[s' ->] Hhex] Hlen]; cbn [Str.drop] in *.
    exists ("0x" ++ Str.take n s'), (Str.drop n s'); split.
    + rewrite append_assoc, take_drop; reflexivity.
    + exists (Str.take n s'); auto.
  - intros [a [post [-> [h [-> [Hlen Hhex]]]]]].
    rewrite append_assoc; cbn [Str.drop append].
    replace (Str.take n (h ++ post)) with h
      by (rewrite <- Hlen; symmetry; apply take_append).
    repeat split; eauto.
Qed.

Lemma take_token (a post : string) :
  hex_token n a -> Str.take (2 + n) (a ++ post) = a.
Proof.
  intros [h [-> [Hlen _]]].
  replace (2 + n) with (String.length ("0x" ++ h))
    by (rewrite length_append, Hlen; reflexivity).
  apply take_append.
Qed.

(** At one position the pattern matches exactly when a token starts there,
    and the matched text is that token. *)
Lemma match_at_hex (prev : option ascii) (s : string) :
  match_at pattern prev s
  = if token_here n s then Some (Match (Str.take (2 + n) s) []) else None.
Proof.
  unfold match_at, pattern, token_here; cbn [run before rest captured has_group orb].
  rewrite <- (eat_prefix "0x" prev s).
  destruct (eat "0x" prev s) as [[p s']|] eqn:E; cbn [is_some flat_map andb];
    [|reflexivity].
  apply eat_sound in E; subst s; cbn [Str.drop append run before rest captured].
  rewrite app_nil_r.
  destruct (rep_exact Str.is_hex n None p s') as [[H [q R]] | [H R]];
    rewrite R, H; [|reflexivity].
  apply andb_true_iff in H as [_ H]; apply Nat.eqb_eq in H.
  cbn [rest String.length].
  assert (L : String.length s' = n + String.length (Str.drop n s')).
  { rewrite <- (take_drop n s') at 1. rewrite length_append, H; reflexivity. }
  rewrite L. replace (S (S (n + _)) - _) with (2 + n) by lia.
  reflexivity.
Qed.

Lemma search_from_hex (prev : option ascii) (s : string) :
  search_from pattern prev s
  = option_map (fun a => Match a []) (first_token n s).
Proof.
  revert prev; induction s as [|c s IH]; intros prev;
    cbn [search_from first_token]; rewrite match_at_hex;
    destruct (token_here n _); auto.
Qed.

Lemma first_token_here (s : string) :
  token_here n s = true -> first_token n s = Some (Str.take (2 + n) s).
Proof. intros T; destruct s; cbn [first_token]; now rewrite T. Qed.

Lemma here_leftmost (s : string) :
  token_here n s = true -> leftmost_token n s (Str.take (2 + n) s).
Proof.
  intros T; apply token_here_spec in T as [a [post [-> Ha]]].
  rewrite take_token by exact Ha.
  exists "", post; repeat split; auto. intros; cbn; lia.
Qed.

(** The scan returns the leftmost token of the text. *)
Lemma first_token_leftmost (text a : string) :
  first_token n text = Some a <-> leftmost_token n text a.
Proof.
  split.
  - revert a; induction text as [|c s IH]; intros a; cbn [first_token];
      destruct (token_here n _) eqn:T;
      try (intros [= <-]; now apply here_leftmost); try discriminate.
    intros H; destruct (IH _ H) as [pre [post [E [Ha Hmin]]]].
    exists (String c pre), post; repeat split; [cbn; now rewrite E | exact Ha |].
    intros pre' a' post' E' Ha'. destruct pre' as [|x pre'].
    + assert (token_here n (String c s) = true)
        by (apply token_here_spec; exists a', post'; auto).
      congruence.
    + cbn in E'; injection E' as _ E'.
      specialize (Hmin pre' a' post' E' Ha'); cbn; lia.
  - intros [pre [post [-> [Ha Hmin]]]].
    induction pre as [|c pre IH]; cbn [append first_token].
    + rewrite first_token_here by (apply token_here_spec; eauto).
      now rewrite take_token.
    + destruct (token_here n (String c (pre ++ a ++ post))) eqn:T.
      * apply token_here_spec in T as [a' [post' [E Ha']]].
        specialize (Hmin "" a' post' E Ha'); cbn in Hmin; lia.
      * apply IH. intros pre' a' post' E Ha'.
        specialize (Hmin (String c pre') a' post'); cbn in Hmin.
        rewrite E in Hmin; specialize (Hmin eq_refl Ha'); lia.
Qed.

Lemma first_token_has (text : string) :
  is_some (first_token n text) = true <-> has_token n text.
Proof.
  split.
  - destruct (first_token n text) as [a|] eqn:E; [intros _ | discriminate].
    apply first_token_leftmost in E as [pre [post [E [Ha _]]]].
    exists pre, a, post; auto.
  - intros [pre [a [post [-> Ha]]]].
    induction pre as [|c pre IH]; cbn [append first_token].
    + now rewrite first_token_here by (apply token_here_spec; eauto).
    + destruct (token_here n _); [reflexivity | exact IH].
Qed.

End HexTokens.

Section AddressSearch.

Variable text : string.

Lemma address_search :
  search eth_address_pattern text
  = option_map (fun a => Match a []) (first_token 40 text).
Proof. apply search_from_hex. Qed.

Lemma hash_search :
  search tx_hash_pattern text
  = option_map (fun a => Match a []) (first_token 64 text).
Proof. apply search_from_hex. Qed.

Lemma address_group :
  group_if (search eth_address_pattern text) 0 = Ok (first_token 40 text).
Proof. rewrite address_search; now destruct (first_token 40 text). Qed.

Lemma address_is_some :
  is_some (search eth_address_pattern text) = is_some (first_token 40 text).
Proof. rewrite address_search; now destruct (first_token 40 text). Qed.

Lemma hash_group :
  group_if (search tx_hash_pattern text) 0 = Ok (first_token 64 text).
Proof. rewrite hash_search; now destruct (first_token 64 text). Qed.

Lemma hash_is_some :
  is_some (search tx_hash_pattern text) = is_some (first_token 64 text).
Proof. rewrite hash_search; now destruct (first_token 64 text). Qed.

End AddressSearch.

(** Rewrites the searches for addresses and hashes into scans. *)
Ltac scan_tokens :=
  rewrite ?address_is_some, ?address_group, ?hash_is_some, ?hash_group.

(* ================================================================== *)
(** ** The network scan *)

Lemma scan_network_keys (text : string) :
  scan_network text
  = find (fun net => Str.contains net (Str.lower text))
         ["ethereum"; "eth"; "mainnet"; "binance"; "bsc"; "polygon"; "matic";
          "avalanche"; "avax"; "arbitrum"; "optimism"; "base"; "fantom"; "ftm";
          "aurora"].
Proof. reflexivity. Qed.

Lemma scan_network_truthy (text net : string) :
  scan_network text = Some net -> Str.truthy (Some net) = true.
Proof.
  intros H; apply find_some in H as [H _].
  cbn in H; repeat (destruct H as [<- | H]; [reflexivity|]); contradiction.
Qed.

Lemma extract_network_scan (text : string) :
  extract_network text
  = match scan_network text with Some net => net | None => "ethereum" end.
Proof.
  unfold extract_network; destruct (scan_network text) as [net|] eqn:E;
    [|reflexivity].
  now rewrite (scan_network_truthy _ _ E).
Qed.

(* ================================================================== *)
(** ** The network table *)

Ltac pick_alias :=
  cbn [In];
  solve [ repeat (first [ split; [ auto 8 | reflexivity ]
                        | left; split; [ auto 8 | reflexivity ]
                        | right ]) ].

(** C8: the alias table maps exactly ethereum/eth/mainnet to "1", binance/bsc
    to "56", polygon/matic to "137", avalanche/avax to "43114", arbitrum to
    "42161", optimism to "10", base to "8453", fantom/ftm to "250" and aurora
    to "1313161554", and nothing else; the gas-price queries of the
    specification that name polygon and base are detected with that network
    and are fetched with chain id "137" and "8453". *)
Theorem network_table_exact :
  (forall alias chain_id : string,
      dict_get NETWORK_TO_CHAIN_ID alias = Some chain_id <->
      (In alias ["ethereum"; "eth"; "mainnet"] /\ chain_id = "1")
      \/ (In alias ["binance"; "bsc"] /\ chain_id = "56")
      \/ (In alias ["polygon"; "matic"] /\ chain_id = "137")
      \/ (In alias ["avalanche"; "avax"] /\ chain_id = "43114")
      \/ (alias = "arbitrum" /\ chain_id = "42161")
      \/ (alias = "optimism" /\ chain_id = "10")
      \/ (alias = "base" /\ chain_id = "8453")
      \/ (In alias ["fantom"; "ftm"] /\ chain_id = "250")
      \/ (alias = "aurora" /\ chain_id = "1313161554"))
  /\ (detect_gas_price_query "what's the gas price on polygon?"
      = Ok (Some "polygon")
      /\ Server.gas_step "what's the gas price on polygon?"
         = Ok (Some (Server.Request "get-gas-price" ["137"])))
  /\ (detect_gas_price_query "what's the gas price on base?" = Ok (Some "base")
      /\ Server.gas_step "what's the gas price on base?"
         = Ok (Some (Server.Request "get-gas-price" ["8453"]))).
Proof.
  split; [|repeat split; vm_compute; reflexivity].
  intros alias chain_id; split.
  - unfold NETWORK_TO_CHAIN_ID; cbn [dict_get].
    repeat (match goal with
            | |- context [String.eqb ?k alias] =>
                destruct (String.eqb_spec k alias) as [<- | _];
                [intros [= <-]; pick_alias|]
            end).
    discriminate.
  - cbn [In]; intros H.
    repeat (destruct H as [H | H]);
      destruct H as [H ->]; repeat (destruct H as [<- | H]); subst;
      try reflexivity; contradiction.
Qed.

(* ================================================================== *)
(** ** What the matchers return *)

Lemma match_at_groups (r : regex) (prev : option ascii) (s : string)
    (m : re_match) :
  match_at r prev s = Some m ->
  List.length (groups m) = if has_group r then 1 else 0.
Proof.
  unfold match_at; destruct (run r _) as [|c cs]; [discriminate|].
  intros [= <-]; cbn [groups]; now destruct (has_group r).
Qed.

Lemma search_groups (r : regex) (text : string) (m : re_match) :
  search r text = Some m ->
  List.length (groups m) = if has_group r then 1 else 0.
Proof.
  unfold search; generalize (@None ascii) as prev.
  induction text as [|c s IH]; intros prev; cbn [search_from];
    destruct (match_at r prev _) eqn:E;
    try (intros [= <-]; eapply match_at_groups; eassumption).
  apply IH.
Qed.

(** [block_match.group(1)] and [simple_match.group(0)] exist. *)
Lemma block_number_ok (text : string) :
  exists block_number,
    match search block_number_pattern text with
    | Some block_match => group block_match 1
    | None => group_if (search block_number_simple_pattern text) 0
    end = Ok block_number.
Proof.
  destruct (search block_number_pattern text) as [m|] eqn:E.
  - apply search_groups in E; cbn in E.
    destruct m as [g0 [|g gs]]; [discriminate|]; cbn; eauto.
  - destruct (search block_number_simple_pattern text); cbn; eauto.
Qed.

Section Shapes.

Variable text : string.

Lemma gas_shape :
  detect_gas_price_query text = Ok None
  \/ detect_gas_price_query text = Ok (Some (extract_network text)).
Proof.
  unfold detect_gas_price_query; rewrite extract_network_scan.
  destruct (any_found gas_patterns _); cbn [negb]; [right | now left].
  now destruct (scan_network text).
Qed.

Lemma nft_shape :
  detect_nft_holdings_query text = Ok (None, None)
  \/ exists wallet,
      detect_nft_holdings_query text = Ok (wallet, Some (extract_network text)).
Proof.
  unfold detect_nft_holdings_query; scan_tokens.
  destruct (any_found nft_patterns _); cbn; eauto.
Qed.

Lemma spot_shape :
  detect_spot_price_query text = Ok (None, None)
  \/ exists currency,
      detect_spot_price_query text
      = Ok (Some currency, Some (extract_network text)).
Proof.
  unfold detect_spot_price_query.
  destruct (any_found price_patterns _); cbn; eauto.
Qed.

Lemma value_shape :
  detect_token_value_query text = Ok (None, None)
  \/ exists address,
      detect_token_value_query text = Ok (address, Some (extract_network text)).
Proof.
  unfold detect_token_value_query; scan_tokens.
  destruct (any_found TokenValue.token_details_patterns _); [now left|].
  destruct (any_found TokenValue.token_value_patterns _),
    (first_token 40 text), (any_keyword value_keywords _); cbn; eauto.
Qed.

Lemma details_shape :
  detect_token_details_query text = Ok (None, None)
  \/ exists address,
      detect_token_details_query text
      = Ok (address, Some (extract_network text)).
Proof.
  unfold detect_token_details_query; scan_tokens.
  destruct (any_found token_details_patterns _),
    (first_token 40 text), (any_keyword details_keywords _); cbn; eauto.
Qed.

Lemma profitloss_shape :
  detect_token_profitloss_query text = Ok (None, None, None)
  \/ exists address,
      detect_token_profitloss_query text
      = Ok (address, Some (extract_network text), Some (extract_timerange text)).
Proof.
  unfold detect_token_profitloss_query; scan_tokens.
  destruct (any_found profitloss_patterns _),
    (first_token 40 text), (any_keyword profitloss_keywords _); cbn; eauto.
Qed.

Lemma trace_shape :
  detect_transaction_trace_query text = Ok (None, None, None)
  \/ exists tx_hash block_number,
      detect_transaction_trace_query text
      = Ok (tx_hash, block_number, Some (extract_network text)).
Proof.
  unfold detect_transaction_trace_query; scan_tokens.
  destruct (block_number_ok text) as [b ->].
  destruct (any_found trace_patterns _), (first_token 64 text); cbn; eauto.
Qed.

Lemma history_shape :
  detect_transaction_history_query text = Ok (None, None)
  \/ exists wallet,
      detect_transaction_history_query text
      = Ok (wallet, Some (extract_network text)).
Proof.
  unfold detect_transaction_history_query; scan_tokens.
  destruct (any_found history_patterns _),
    (first_token 40 text), (any_keyword history_keywords _); cbn; eauto.
Qed.

Lemma detect_all_ok : exists d, Chat.detect_all text = Ok d.
Proof.
  unfold Chat.detect_all.
  destruct gas_shape as [-> | ->];
    destruct nft_shape as [-> | [? ->]];
    destruct spot_shape as [-> | [? ->]];
    destruct value_shape as [-> | [? ->]];
    destruct details_shape as [-> | [? ->]];
    destruct profitloss_shape as [-> | [? ->]];
    destruct trace_shape as [-> | [? [? ->]]];
    destruct history_shape as [-> | [? ->]]; cbn; eauto.
Qed.

End Shapes.

(** C7: on every input string each of the eight matchers returns a value,
    which is either the all-absent tuple or a tuple that carries a network,
    and detection followed by disambiguation returns a value as well; no
    exception is raised. *)
Theorem matchers_never_raise (text : string) :
  (detect_gas_price_query text = Ok None
   \/ exists net, detect_gas_price_query text = Ok (Some net))
  /\ (detect_nft_holdings_query text = Ok (None, None)
      \/ exists w net, detect_nft_holdings_query text = Ok (w, Some net))
  /\ (detect_spot_price_query text = Ok (None, None)
      \/ exists c net, detect_spot_price_query text = Ok (Some c, Some net))
  /\ (detect_token_value_query text = Ok (None, None)
      \/ exists a net, detect_token_value_query text = Ok (a, Some net))
  /\ (detect_token_details_query text = Ok (None, None)
      \/ exists a net, detect_token_details_query text = Ok (a, Some net))
  /\ (detect_token_profitloss_query text = Ok (None, None, None)
      \/ exists a net range,
          detect_token_profitloss_query text = Ok (a, Some net, Some range))
  /\ (detect_transaction_trace_query text = Ok (None, None, None)
      \/ exists h b net,
          detect_transaction_trace_query text = Ok (h, b, Some net))
  /\ (detect_transaction_history_query text = Ok (None, None)
      \/ exists w net, detect_transaction_history_query text = Ok (w, Some net))
  /\ (forall api_tools, exists d tool,
         Chat.turn text api_tools = Ok (d, tool)).
Proof.
  repeat split.
  - destruct (gas_shape text); eauto.
  - destruct (nft_shape text) as [|[? ?]]; eauto.
  - destruct (spot_shape text) as [|[? ?]]; eauto.
  - destruct (value_shape text) as [|[? ?]]; eauto.
  - destruct (details_shape text) as [|[? ?]]; eauto.
  - destruct (profitloss_shape text) as [|[? ?]]; eauto 6.
  - destruct (trace_shape text) as [|[? [? ?]]]; eauto 6.
  - destruct (history_shape text) as [|[? ?]]; eauto.
  - intros api_tools; unfold Chat.turn.
    destruct (detect_all_ok text) as [d ->]; cbn; eauto.
Qed.

(* ================================================================== *)
(** ** Template sets and phrases *)

(** A pattern that matches at the start of every text that begins with [w]
    is found in every text that contains [w]. *)
Lemma found_phrase (r : regex) (w s : string) :
  (forall prev post, is_some (match_at r prev (w ++ post)) = true) ->
  Str.contains w s = true -> found r s = true.
Proof.
  intros Hw H; apply contains_spec in H as [pre [post ->]].
  unfold found, search; generalize (@None ascii) as prev.
  induction pre as [|c pre IH]; intros prev.
  - cbn [append]. specialize (Hw prev post).
    destruct (w ++ post); cbn [search_from];
      destruct (match_at r prev _); (reflexivity || discriminate).
  - cbn [append search_from].
    destruct (match_at r prev _); [reflexivity | apply IH].
Qed.


Lemma any_keyword_intro (keywords : list string) (kw s : string) :
  In kw keywords -> Str.contains kw s = true -> any_keyword keywords s = true.
Proof. intros; apply existsb_exists; eauto. Qed.



(* ================================================================== *)
(** ** Fallback on a bare address or hash *)

Lemma has_token_first (n : nat) (text : string) :
  has_token n text -> exists a, first_token n text = Some a /\ leftmost_token n text a.
Proof.
  intros H; apply first_token_has in H.
  destruct (first_token n text) as [a|] eqn:E; [|discriminate].
  exists a; split; [reflexivity | now apply first_token_leftmost].
Qed.

Lemma first_token_found (n : nat) (text a : string) :
  first_token n text = Some a -> has_token n text /\ leftmost_token n text a.
Proof.
  intros E; split; [|now apply first_token_leftmost].
  apply first_token_has; now rewrite E.
Qed.

(** C2, as amended: when the template set of the token-details, profit-loss
    or transaction-history matcher does not match but the text holds a
    well-formed address, the matcher reports a match (on the leftmost
    address) exactly when one of its looser keywords occurs, and no match
    otherwise; the token-value matcher does the same provided none of the
    token-details phrases it checks first matches, and reports no match when
    one does.  The NFT matcher has no fallback: without a template match it
    reports no match.  The trace matcher asks for no keyword: a well-formed
    hash alone gives a match on that hash. *)
Theorem fallback_inference (text : string) :
  has_token 40 text ->
  (any_found token_details_patterns (Str.lower text) = false ->
   (any_keyword details_keywords (Str.lower text) = true
    /\ exists a, leftmost_token 40 text a
         /\ detect_token_details_query text
            = Ok (Some a, Some (extract_network text)))
   \/ (any_keyword details_keywords (Str.lower text) = false
       /\ detect_token_details_query text = Ok (None, None)))
  /\ (any_found profitloss_patterns (Str.lower text) = false ->
      (any_keyword profitloss_keywords (Str.lower text) = true
       /\ exists a, leftmost_token 40 text a
            /\ detect_token_profitloss_query text
               = Ok (Some a, Some (extract_network text),
                     Some (extract_timerange text)))
      \/ (any_keyword profitloss_keywords (Str.lower text) = false
          /\ detect_token_profitloss_query text = Ok (None, None, None)))
  /\ (any_found history_patterns (Str.lower text) = false ->
      (any_keyword history_keywords (Str.lower text) = true
       /\ exists a, leftmost_token 40 text a
            /\ detect_transaction_history_query text
               = Ok (Some a, Some (extract_network text)))
      \/ (any_keyword history_keywords (Str.lower text) = false
          /\ detect_transaction_history_query text = Ok (None, None)))
  /\ (any_found TokenValue.token_value_patterns (Str.lower text) = false ->
      (any_found TokenValue.token_details_patterns (Str.lower text) = false
       /\ any_keyword value_keywords (Str.lower text) = true
       /\ exists a, leftmost_token 40 text a
            /\ detect_token_value_query text
               = Ok (Some a, Some (extract_network text)))
      \/ ((any_found TokenValue.token_details_patterns (Str.lower text) = true
           \/ any_keyword value_keywords (Str.lower text) = false)
          /\ detect_token_value_query text = Ok (None, None)))
  /\ (any_found nft_patterns (Str.lower text) = false ->
      detect_nft_holdings_query text = Ok (None, None))
  /\ (has_token 64 text ->
      any_found trace_patterns (Str.lower text) = false ->
      exists h block_number,
        leftmost_token 64 text h
        /\ detect_transaction_trace_query text
           = Ok (Some h, block_number, Some (extract_network text))).
Proof.
  intros Ha; destruct (has_token_first _ _ Ha) as [a [Ea La]].
  repeat split.
  - intros T; unfold detect_token_details_query; scan_tokens; rewrite T, Ea.
    destruct (any_keyword details_keywords _); cbn; eauto.
  - intros T; unfold detect_token_profitloss_query; scan_tokens; rewrite T, Ea.
    destruct (any_keyword profitloss_keywords _); cbn; eauto.
  - intros T; unfold detect_transaction_history_query; scan_tokens;
      rewrite T, Ea.
    destruct (any_keyword history_keywords _); cbn; eauto.
  - intros T; unfold detect_token_value_query; scan_tokens; rewrite T, Ea.
    destruct (any_found TokenValue.token_details_patterns _); [now eauto|].
    destruct (any_keyword value_keywords _); cbn; eauto 6.
  - intros T; unfold detect_nft_holdings_query; now rewrite T.
  - intros Hh T; destruct (has_token_first _ _ Hh) as [h [Eh Lh]].
    unfold detect_transaction_trace_query; scan_tokens; rewrite T, Eh.
    destruct (block_number_ok text) as [b ->]; cbn; eauto.
Qed.

Lemma fallback_inference_witness :
  has_token 40 ("stats for " ++ sample_address)
  /\ any_found token_details_patterns (Str.lower ("stats for " ++ sample_address))
     = false
  /\ ((any_keyword details_keywords (Str.lower ("stats for " ++ sample_address))
       = true
       /\ exists a, leftmost_token 40 ("stats for " ++ sample_address) a
            /\ detect_token_details_query ("stats for " ++ sample_address)
               = Ok (Some a,
                     Some (extract_network ("stats for " ++ sample_address))))
      \/ (any_keyword details_keywords
            (Str.lower ("stats for " ++ sample_address)) = false
          /\ detect_token_details_query ("stats for " ++ sample_address)
             = Ok (None, None))).
Proof.
  assert (H : has_token 40 ("stats for " ++ sample_address))
    by (apply (first_token_found 40 _ sample_address); vm_compute; reflexivity).
  assert (T : any_found token_details_patterns
                (Str.lower ("stats for " ++ sample_address)) = false)
    by (vm_compute; reflexivity).
  exact (conj H (conj T (proj1 (fallback_inference _ H) T))).
Defined.

(** C2 as stated fails: a bare hash with no keyword at all is reported by the
    trace matcher; the NFT matcher reports nothing for an address next to the
    word "nfts" when no template matches; and the token-value matcher reports
    nothing, although its templates do not match and the keyword "value"
    stands next to an address, when the text says "token details". *)
Lemma fallback_inference_counterexample :
  (any_found trace_patterns (Str.lower sample_hash) = false
   /\ detect_transaction_trace_query sample_hash
      = Ok (Some sample_hash, None, Some "ethereum"))
  /\ (any_found nft_patterns (Str.lower ("my nfts " ++ sample_address)) = false
      /\ first_token 40 ("my nfts " ++ sample_address) = Some sample_address
      /\ detect_nft_holdings_query ("my nfts " ++ sample_address)
         = Ok (None, None))
  /\ (any_found TokenValue.token_value_patterns
        (Str.lower ("token details, value " ++ sample_address)) = false
      /\ first_token 40 ("token details, value " ++ sample_address)
         = Some sample_address
      /\ any_keyword value_keywords
           (Str.lower ("token details, value " ++ sample_address)) = true
      /\ detect_token_value_query ("token details, value " ++ sample_address)
         = Ok (None, None)).
Proof. repeat split; vm_compute; reflexivity. Qed.

(* ================================================================== *)
(** ** Network aliases inside other words *)

Lemma find_first_spec {A : Type} (f : A -> bool) (l : list A) (x : A) :
  find f l = Some x <->
  exists earlier later,
    l = (earlier ++ x :: later)%list /\ f x = true
    /\ forall y, In y earlier -> f y = false.
Proof.
  split.
  - induction l as [|y l IH]; cbn [find]; [discriminate|].
    destruct (f y) eqn:Fy.
    + intros [= ->]; exists [], l; repeat split; auto. intros ? [].
    + intros H; destruct (IH H) as [e [t [-> [Fx He]]]].
      exists (y :: e), t; repeat split; auto.
      intros z [<- | Hz]; auto.
  - intros [e [t [-> [Fx He]]]].
    induction e as [|y e IH]; cbn [app find].
    + now rewrite Fx.
    + rewrite (He y (or_introl eq_refl)). apply IH.
      intros z Hz; apply He; now right.
Qed.

(** C10, as amended: the network of a query is the first alias, in the
    insertion order of the table, that occurs in the lower-cased text as a
    plain substring, and "ethereum" when none does; so a text that contains
    "automatic" and none of the six aliases scanned before "matic" resolves
    to "matic" (chain "137") in every matcher that reports a match. *)
Theorem network_scan_substring (text : string) :
  (forall net,
      scan_network text = Some net <->
      exists earlier later,
        ["ethereum"; "eth"; "mainnet"; "binance"; "bsc"; "polygon"; "matic";
         "avalanche"; "avax"; "arbitrum"; "optimism"; "base"; "fantom"; "ftm";
         "aurora"] = (earlier ++ net :: later)%list
        /\ Str.contains net (Str.lower text) = true
        /\ forall alias, In alias earlier ->
                         Str.contains alias (Str.lower text) = false)
  /\ (scan_network text = None -> extract_network text = "ethereum")
  /\ (Str.contains "automatic" (Str.lower text) = true ->
      (forall alias,
          In alias ["ethereum"; "eth"; "mainnet"; "binance"; "bsc"; "polygon"] ->
          Str.contains alias (Str.lower text) = false) ->
      extract_network text = "matic"
      /\ dict_get NETWORK_TO_CHAIN_ID "matic" = Some "137"
      /\ (forall net, detect_gas_price_query text = Ok (Some net) ->
                      net = "matic")
      /\ (forall x net, detect_nft_holdings_query text = Ok (x, Some net) ->
                        net = "matic")
      /\ (forall x net, detect_spot_price_query text = Ok (x, Some net) ->
                        net = "matic")
      /\ (forall x net, detect_token_value_query text = Ok (x, Some net) ->
                        net = "matic")
      /\ (forall x net, detect_token_details_query text = Ok (x, Some net) ->
                        net = "matic")
      /\ (forall x net y,
             detect_token_profitloss_query text = Ok (x, Some net, y) ->
             net = "matic")
      /\ (forall x y net,
             detect_transaction_trace_query text = Ok (x, y, Some net) ->
             net = "matic")
      /\ (forall x net,
             detect_transaction_history_query text = Ok (x, Some net) ->
             net = "matic")).
Proof.
  split; [|split].
  - intros net; rewrite scan_network_keys.
    apply (find_first_spec (fun alias => Str.contains alias (Str.lower text))).
  - intros H; rewrite extract_network_scan; now rewrite H.
  - intros Hauto Hnone.
    assert (S : scan_network text = Some "matic").
    { rewrite scan_network_keys; cbn [find].
      rewrite !Hnone by (cbn; auto 8).
      now rewrite (contains_trans "matic" "automatic" _ eq_refl Hauto). }
    assert (E : extract_network text = "matic")
      by (rewrite extract_network_scan; now rewrite S).
    split; [exact E|]. split; [reflexivity|].
    repeat split.
    + intros net; destruct (gas_shape text) as [-> | ->]; congruence.
    + intros x net; destruct (nft_shape text) as [-> | [? ->]]; congruence.
    + intros x net; destruct (spot_shape text) as [-> | [? ->]]; congruence.
    + intros x net; destruct (value_shape text) as [-> | [? ->]]; congruence.
    + intros x net; destruct (details_shape text) as [-> | [? ->]]; congruence.
    + intros x net y; destruct (profitloss_shape text) as [-> | [? ->]];
        congruence.
    + intros x y net; destruct (trace_shape text) as [-> | [? [? ->]]];
        congruence.
    + intros x net; destruct (history_shape text) as [-> | [? ->]]; congruence.
Qed.

Lemma network_scan_substring_witness :
  Str.contains "automatic" (Str.lower "gas price with automatic updates") = true
  /\ (forall alias,
         In alias ["ethereum"; "eth"; "mainnet"; "binance"; "bsc"; "polygon"] ->
         Str.contains alias (Str.lower "gas price with automatic updates")
         = false)
  /\ extract_network "gas price with automatic updates" = "matic".
Proof.
  assert (H1 : Str.contains "automatic"
                 (Str.lower "gas price with automatic updates") = true)
    by (vm_compute; reflexivity).
  assert (H2 : forall alias,
             In alias ["ethereum"; "eth"; "mainnet"; "binance"; "bsc"; "polygon"] ->
             Str.contains alias (Str.lower "gas price with automatic updates")
             = false).
  { intros alias H; cbn [In] in H.
    repeat (destruct H as [<- | H]; [vm_compute; reflexivity|]).
    destruct H. }
  exact (conj H1 (conj H2
           (proj1 (proj2 (proj2 (network_scan_substring _)) H1 H2)))).
Defined.

(** C10 as stated fails: these gas queries contain "automatic" and still do
    not resolve to "matic", because an alias scanned earlier occurs too. *)
Lemma network_scan_substring_counterexample :
  (Str.contains "automatic"
     (Str.lower "gas price on ethereum with automatic updates") = true
   /\ detect_gas_price_query "gas price on ethereum with automatic updates"
      = Ok (Some "ethereum")
   /\ dict_get NETWORK_TO_CHAIN_ID "ethereum" = Some "1")
  /\ (Str.contains "automatic"
        (Str.lower "gas price for the automatic method") = true
      /\ detect_gas_price_query "gas price for the automatic method"
         = Ok (Some "eth")
      /\ dict_get NETWORK_TO_CHAIN_ID "eth" = Some "1").
Proof. repeat split; vm_compute; reflexivity. Qed.

(* ================================================================== *)
(** ** Profit and loss *)

(** C6, as amended: when the leftmost well-formed address of the text is
    [addr] and the text contains the word "profit" (in any letter case), the
    profit-loss matcher reports a match with [addr] as subject.  Its
    time range is "1day" when none of the range patterns matches, and it is
    "30day" when a 30-day phrase such as "30 days" occurs and neither the
    1-day nor the 7-day pattern, which are tried first, matches. *)
Theorem profitloss_on_profit (text addr : string) :
  leftmost_token 40 text addr ->
  Str.contains "profit" (Str.lower text) = true ->
  detect_token_profitloss_query text
  = Ok (Some addr, Some (extract_network text), Some (extract_timerange text))
  /\ ((forall pv, In pv timerange_patterns ->
                  found (fst pv) (Str.lower text) = false) ->
      extract_timerange text = "1day")
  /\ (forall phrase,
         In phrase ["30day"; "30 day"; "30-day"; "thirtyday"; "thirty day";
                    "thirty-day"] ->
         Str.contains phrase (Str.lower text) = true ->
         found (Cat (words ["1"; "one"]) sep_day) (Str.lower text) = false ->
         found (Cat (words ["7"; "seven"]) sep_day) (Str.lower text) = false ->
         extract_timerange text = "30day").
Proof.
  intros La Hp; apply first_token_leftmost in La.
  repeat split.
  - unfold detect_token_profitloss_query; scan_tokens; rewrite La.
    rewrite (any_keyword_intro profitloss_keywords "profit" _) by (cbn; auto).
    now destruct (any_found profitloss_patterns _).
  - intros H; unfold extract_timerange, timerange_patterns; cbn [find fst].
    repeat match goal with
           | |- context [found ?r _] => rewrite (H (r, _)) by (cbn; auto 10)
           end.
    reflexivity.
  - intros phrase Hin Hs H1 H7.
    unfold extract_timerange, timerange_patterns; cbn [find fst].
    rewrite H1, H7.
    assert (F : found (Cat (words ["30"; "thirty"]) sep_day) (Str.lower text)
                = true).
    { cbn in Hin.
      repeat (destruct Hin as [<- | Hin];
              [apply found_phrase with (2 := Hs); intros; reflexivity|]).
      contradiction. }
    now rewrite F.
Qed.

Lemma profitloss_on_profit_witness :
  leftmost_token 40
    ("token profit and loss for " ++ sample_address ++ " over 30 days")
    sample_address
  /\ Str.contains "profit"
       (Str.lower ("token profit and loss for " ++ sample_address
                   ++ " over 30 days")) = true
  /\ detect_token_profitloss_query
       ("token profit and loss for " ++ sample_address ++ " over 30 days")
     = Ok (Some sample_address,
           Some (extract_network
                   ("token profit and loss for " ++ sample_address
                    ++ " over 30 days")),
           Some (extract_timerange
                   ("token profit and loss for " ++ sample_address
                    ++ " over 30 days")))
  /\ extract_timerange
       ("token profit and loss for " ++ sample_address ++ " over 30 days")
     = "30day".
Proof.
  assert (H1 : leftmost_token 40
                 ("token profit and loss for " ++ sample_address
                  ++ " over 30 days") sample_address)
    by (apply first_token_found; vm_compute; reflexivity).
  assert (H2 : Str.contains "profit"
                 (Str.lower ("token profit and loss for " ++ sample_address
                             ++ " over 30 days")) = true)
    by (vm_compute; reflexivity).
  split; [exact H1|]. split; [exact H2|].
  split; [exact (proj1 (profitloss_on_profit _ _ H1 H2))|].
  apply (proj2 (proj2 (profitloss_on_profit _ _ H1 H2)) "30 day");
    [cbn; auto | vm_compute; reflexivity ..].
Defined.

(** C6 as stated fails: this text contains the well-formed address
    [sample_address], the word "profit" and the phrase "over 30 days", yet the
    subject is the address that stands before it and the time range is
    "7day". *)
Lemma profitloss_on_profit_counterexample :
  is_address sample_address
  /\ Str.contains sample_address
       ("profit on " ++ other_address ++ " and " ++ sample_address
        ++ " over 30 days, not 7 days") = true
  /\ Str.contains "over 30 days"
       ("profit on " ++ other_address ++ " and " ++ sample_address
        ++ " over 30 days, not 7 days") = true
  /\ detect_token_profitloss_query
       ("profit on " ++ other_address ++ " and " ++ sample_address
        ++ " over 30 days, not 7 days")
     = Ok (Some other_address, Some "ethereum", Some "7day").
Proof.
  split; [exists "1234567890123456789012345678901234567890"; repeat split|].
  repeat split; vm_compute; reflexivity.
Qed.

(* ================================================================== *)
(** ** Addresses cut out of transaction hashes *)

(** The first 42 characters of a hash look like an address. *)
Lemma hash_prefix_is_address (hash : string) :
  is_tx_hash hash ->
  is_address (Str.take 42 hash)
  /\ hash = Str.take 42 hash ++ Str.drop 42 hash.
Proof.
  intros [h [-> [Hlen Hhex]]]; split; [|now rewrite take_drop].
  exists (Str.take 40 h); repeat split.
  - apply length_take; lia.
  - now apply all_take.
Qed.

(** C9, as amended: when the text contains a well-formed 64-digit hash and no
    address-shaped token starts to the left of it, the first 42 characters of
    the hash are a well-formed address, and they are the subject of every
    address-keyed matcher that reports a match.  The profit-loss, history and
    details matchers report one as soon as one of their keywords occurs.  The
    value matcher reports one as soon as one of its keywords occurs and none
    of the three token-details phrases it checks first matches; when one of
    them matches it reports no match.  The NFT matcher, which has no keyword
    list, reports one exactly when one of its templates matches. *)
Theorem address_inside_hash (pre hash post : string) :
  is_tx_hash hash ->
  (forall pre' a' post',
      pre ++ hash ++ post = pre' ++ a' ++ post' -> is_address a' ->
      String.length pre <= String.length pre') ->
  let text := pre ++ hash ++ post in
  let subject := Str.take 42 hash in
  is_address subject
  /\ (any_keyword profitloss_keywords (Str.lower text) = true ->
      detect_token_profitloss_query text
      = Ok (Some subject, Some (extract_network text),
            Some (extract_timerange text)))
  /\ (any_keyword history_keywords (Str.lower text) = true ->
      detect_transaction_history_query text
      = Ok (Some subject, Some (extract_network text)))
  /\ (any_keyword details_keywords (Str.lower text) = true ->
      detect_token_details_query text
      = Ok (Some subject, Some (extract_network text)))
  /\ (any_keyword value_keywords (Str.lower text) = true ->
      any_found TokenValue.token_details_patterns (Str.lower text) = false ->
      detect_token_value_query text
      = Ok (Some subject, Some (extract_network text)))
  /\ (any_found nft_patterns (Str.lower text) = true ->
      detect_nft_holdings_query text
      = Ok (Some subject, Some (extract_network text)))
  /\ (any_found TokenValue.token_details_patterns (Str.lower text) = true ->
      detect_token_value_query text = Ok (None, None))
  /\ (any_found nft_patterns (Str.lower text) = false ->
      detect_nft_holdings_query text = Ok (None, None)).
Proof.
  intros Hh Hleft text subject.
  destruct (hash_prefix_is_address _ Hh) as [Ha Hsplit].
  assert (E : first_token 40 text = Some subject).
  { apply first_token_leftmost.
    exists pre, (Str.drop 42 hash ++ post); repeat split; [|exact Ha|].
    - unfold text, subject.
      now rewrite <- (append_assoc (Str.take 42 hash)), take_drop.
    - intros pre' a' post' E' Ha'; exact (Hleft pre' a' post' E' Ha'). }
  split; [exact Ha|]. repeat split.
  - intros K; unfold detect_token_profitloss_query; scan_tokens.
    rewrite E, K; now destruct (any_found profitloss_patterns _).
  - intros K; unfold detect_transaction_history_query; scan_tokens.
    rewrite E, K; now destruct (any_found history_patterns _).
  - intros K; unfold detect_token_details_query; scan_tokens.
    rewrite E, K; now destruct (any_found token_details_patterns _).
  - intros K X; unfold detect_token_value_query; scan_tokens.
    rewrite E, K, X; now destruct (any_found TokenValue.token_value_patterns _).
  - intros K; unfold detect_nft_holdings_query; scan_tokens.
    now rewrite E, K.
  - intros K; unfold detect_token_value_query; now rewrite K.
  - intros K; unfold detect_nft_holdings_query; scan_tokens.
    now rewrite K.
Qed.

Lemma none_before_spec (n : nat) (pre rest : string) :
  none_before n (String.length pre) (pre ++ rest) = true ->
  forall pre' a' post',
    pre ++ rest = pre' ++ a' ++ post' -> hex_token n a' ->
    String.length pre <= String.length pre'.
Proof.
  induction pre as [|c pre IH]; cbn [String.length]; [intros; lia|].
  cbn [append none_before]; intros H pre' a' post' E Ha.
  apply andb_true_iff in H as [H1 H2].
  destruct pre' as [|x pre'].
  - assert (T : token_here n (String c (pre ++ rest)) = true)
      by (apply token_here_spec; exists a', post'; auto).
    rewrite T in H1; discriminate.
  - cbn in E; injection E as _ E.
    specialize (IH H2 pre' a' post' E Ha); cbn; lia.
Qed.

Lemma sample_hash_ok : is_tx_hash sample_hash.
Proof.
  exists "1234567890123456789012345678901234567890123456789012345678901234".
  repeat split.
Qed.

Lemma address_inside_hash_witness :
  is_tx_hash sample_hash
  /\ (forall pre' a' post',
         "show history " ++ sample_hash ++ "" = pre' ++ a' ++ post' ->
         is_address a' ->
         String.length "show history " <= String.length pre')
  /\ any_keyword history_keywords
       (Str.lower ("show history " ++ sample_hash ++ "")) = true
  /\ detect_transaction_history_query ("show history " ++ sample_hash ++ "")
     = Ok (Some (Str.take 42 sample_hash),
           Some (extract_network ("show history " ++ sample_hash ++ ""))).
Proof.
  assert (H : forall pre' a' post',
             "show history " ++ sample_hash ++ "" = pre' ++ a' ++ post' ->
             is_address a' ->
             String.length "show history " <= String.length pre')
    by (apply none_before_spec; vm_compute; reflexivity).
  assert (K : any_keyword history_keywords
                (Str.lower ("show history " ++ sample_hash ++ "")) = true)
    by (vm_compute; reflexivity).
  split; [exact sample_hash_ok|]. split; [exact H|]. split; [exact K|].
  exact (proj1 (proj2 (proj2
           (address_inside_hash "show history " sample_hash ""
              sample_hash_ok H))) K).
Defined.

(** C9 as stated fails.  In the first text, which contains a well-formed
    hash and the keywords "history" and "profit", the subject of both
    matchers is the address that stands before the hash, not the first 42
    characters of the hash.  In the second, which contains the hash and the
    value keyword "value", the phrase "token details" makes the value matcher
    report no match at all. *)
Lemma address_inside_hash_counterexample :
  is_tx_hash sample_hash
  /\ Str.contains sample_hash
       ("history and profit of " ++ other_address ++ " since " ++ sample_hash)
     = true
  /\ detect_transaction_history_query
       ("history and profit of " ++ other_address ++ " since " ++ sample_hash)
     = Ok (Some other_address, Some "ethereum")
  /\ detect_token_profitloss_query
       ("history and profit of " ++ other_address ++ " since " ++ sample_hash)
     = Ok (Some other_address, Some "ethereum", Some "1day")
  /\ other_address <> Str.take 42 sample_hash
  /\ any_keyword value_keywords
       (Str.lower ("token details value " ++ sample_hash)) = true
  /\ detect_token_value_query ("token details value " ++ sample_hash)
     = Ok (None, None).
Proof.
  split; [exact sample_hash_ok|].
  repeat split; try (vm_compute; reflexivity).
  vm_compute; discriminate.
Qed.

(* ================================================================== *)
(** ** Transaction traces need a block number *)

Lemma route_from_calls (perform_action : Server.request -> bool)
    (todo : list (string -> result (option Server.request))) (message : string) :
  forall calls calls' routed,
    Server.route_from perform_action todo message calls = Ok (calls', routed) ->
    forall req, In req calls' ->
      In req calls \/ exists step, In step todo /\ step message = Ok (Some req).
Proof.
  induction todo as [|step todo IH]; cbn [Server.route_from]; intros calls calls' routed.
  - intros [= <- _] req H; now left.
  - destruct (step message) as [[r|]|e] eqn:E; cbn [bind]; [| |discriminate].
    + destruct (perform_action r).
      * intros [= <- _] req H; apply in_app_or in H as [H | [<- | []]]; [now left|].
        right; exists step; split; [now left | exact E].
      * intros H req Hin; destruct (IH _ _ _ H req Hin) as [K | [s [Hs Es]]].
        -- apply in_app_or in K as [K | [<- | []]]; [now left|].
           right; exists step; split; [now left | exact E].
        -- right; exists s; split; [now right | exact Es].
    + intros H req Hin; destruct (IH _ _ _ H req Hin) as [K | [s [Hs Es]]].
      * now left.
      * right; exists s; split; [now right | exact Es].
Qed.

Lemma truthy_inv (o : option string) :
  Str.truthy o = true -> exists s, o = Some s /\ s <> "".
Proof.
  destruct o as [[|c s]|]; try discriminate.
  intros _; eexists; split; [reflexivity | discriminate].
Qed.

Lemma trace_step_inv (message : string) (req : Server.request) :
  Server.trace_step message = Ok (Some req) ->
  exists h b net chain,
    detect_transaction_trace_query message = Ok (Some h, Some b, net)
    /\ h <> "" /\ b <> ""
    /\ req = Server.Request "get-transaction-trace" [h; b; chain].
Proof.
  unfold Server.trace_step.
  destruct (detect_transaction_trace_query message) as [[[h b] net]|e];
    cbn [bind]; [|discriminate].
  destruct (Str.truthy h) eqn:Th; [|discriminate].
  destruct (Str.truthy b) eqn:Tb; [|discriminate].
  apply truthy_inv in Th as [h' [-> Hh]]; apply truthy_inv in Tb as [b' [-> Hb]].
  cbn [andb]; destruct (Server.chain_id_of net) as [chain|e]; cbn [bind];
    [|discriminate].
  intros [= <-]; exists h', b', net, chain; auto.
Qed.

Lemma keyed_step_action
    (detect : string -> result (option string * option string))
    (action message : string) (req : Server.request) :
  Server.keyed_step detect action message = Ok (Some req) ->
  Server.action_name req = action.
Proof.
  unfold Server.keyed_step.
  destruct (detect message) as [[subject net]|e]; cbn [bind]; [|discriminate].
  destruct (Str.truthy subject); [|discriminate].
  destruct (Server.chain_id_of net); cbn [bind]; [|discriminate].
  now intros [= <-].
Qed.

Lemma gas_step_action (message : string) (req : Server.request) :
  Server.gas_step message = Ok (Some req) ->
  Server.action_name req = "get-gas-price".
Proof.
  unfold Server.gas_step.
  destruct (detect_gas_price_query message) as [net|e]; cbn [bind];
    [|discriminate].
  destruct (Str.truthy net); [|discriminate].
  destruct (Server.chain_id_of net); cbn [bind]; [|discriminate].
  now intros [= <-].
Qed.

Lemma profitloss_step_action (message : string) (req : Server.request) :
  Server.profitloss_step message = Ok (Some req) ->
  Server.action_name req = "get-token-profitloss".
Proof.
  unfold Server.profitloss_step.
  destruct (detect_token_profitloss_query message) as [[[a net] range]|e];
    cbn [bind]; [|discriminate].
  destruct (Str.truthy a); [|discriminate].
  destruct (Server.chain_id_of net); cbn [bind]; [|discriminate].
  now intros [= <-].
Qed.

(** C5: when the text holds a well-formed 64-digit hash and neither block
    number pattern matches, the trace matcher returns the hash with no block
    number; the chat loop selects the trace tool only when both the hash and
    the block number are present, and every trace call the server makes
    carries a hash and a block number the matcher returned. *)
Theorem trace_needs_block_number :
  (forall text,
      has_token 64 text ->
      search block_number_pattern text = None ->
      search block_number_simple_pattern text = None ->
      (exists h,
          leftmost_token 64 text h
          /\ detect_transaction_trace_query text
             = Ok (Some h, None, Some (extract_network text)))
      /\ (forall api_tools d tool,
             Chat.turn text api_tools = Ok (d, tool) ->
             tool <> Some Chat.TransactionTrace)
      /\ (forall perform_action calls routed req,
             Server.route perform_action text = Ok (calls, routed) ->
             In req calls ->
             Server.action_name req <> "get-transaction-trace"))
  /\ (forall d api_tools,
         Chat.select_tool d api_tools = Some Chat.TransactionTrace ->
         Str.truthy (Chat.tx_hash d) = true
         /\ Str.truthy (Chat.block_number d) = true)
  /\ (forall perform_action message calls routed req,
         Server.route perform_action message = Ok (calls, routed) ->
         In req calls ->
         Server.action_name req = "get-transaction-trace" ->
         exists h b net chain,
           detect_transaction_trace_query message = Ok (Some h, Some b, net)
           /\ h <> "" /\ b <> ""
           /\ Server.params req = [h; b; chain]).
Proof.
  assert (Sel : forall d api_tools,
             Chat.select_tool d api_tools = Some Chat.TransactionTrace ->
             Str.truthy (Chat.tx_hash d) = true
             /\ Str.truthy (Chat.block_number d) = true).
  { intros d api_tools; unfold Chat.select_tool.
    repeat match goal with
           | |- context [if ?b then _ else _] =>
               destruct b eqn:?; try discriminate
           end.
    intros _.
    repeat match goal with
           | H : _ && _ = true |- _ => apply andb_true_iff in H as [? ?]
           end; auto. }
  assert (Srv : forall perform_action message calls routed req,
             Server.route perform_action message = Ok (calls, routed) ->
             In req calls ->
             Server.action_name req = "get-transaction-trace" ->
             exists h b net chain,
               detect_transaction_trace_query message = Ok (Some h, Some b, net)
               /\ h <> "" /\ b <> ""
               /\ Server.params req = [h; b; chain]).
  { intros pa message calls routed req R Hin Hname.
    destruct (route_from_calls _ _ _ _ _ _ R req Hin) as [[] | [step [Hs Es]]].
    cbn in Hs.
    destruct Hs as [<- | Hs].
    { apply trace_step_inv in Es as [h [b [net [chain [D [Hh [Hb ->]]]]]]].
      exists h, b, net, chain; auto. }
    exfalso.
    repeat (destruct Hs as [<- | Hs];
            [first [ apply gas_step_action in Es
                   | apply profitloss_step_action in Es
                   | apply keyed_step_action in Es ];
             rewrite Es in Hname; discriminate Hname |]).
    exact Hs. }
  split; [|split; [exact Sel | exact Srv]].
  intros text Hh B1 B2.
  destruct (has_token_first _ _ Hh) as [h [Eh Lh]].
  assert (D : detect_transaction_trace_query text
              = Ok (Some h, None, Some (extract_network text))).
  { unfold detect_transaction_trace_query; scan_tokens.
    rewrite Eh, B1, B2, orb_true_r; reflexivity. }
  split; [exists h; auto|]. split.
  - intros api_tools d tool; unfold Chat.turn.
    destruct (detect_all_ok text) as [d0 E0]; rewrite E0; cbn [bind].
    intros [= <- <-] K; apply Sel in K as [_ K].
    unfold Chat.detect_all in E0; rewrite D in E0.
    assert (Chat.block_number d0 = None).
    { revert E0.
      destruct (gas_shape text) as [-> | ->];
        destruct (nft_shape text) as [-> | [? ->]];
        destruct (spot_shape text) as [-> | [? ->]];
        destruct (value_shape text) as [-> | [? ->]];
        destruct (details_shape text) as [-> | [? ->]];
        destruct (profitloss_shape text) as [-> | [? ->]];
        destruct (history_shape text) as [-> | [? ->]]; cbn;
        now intros [= <-]. }
    assert (N : Chat.block_number (Chat.disambiguate text d0) = None).
    { unfold Chat.disambiguate, Chat.resolve_profitloss,
        Chat.resolve_value_details.
      repeat match goal with
             | |- context [if ?b then _ else _] => destruct b
             end; cbn; assumption. }
    rewrite N in K; discriminate.
  - intros pa calls routed req R Hin Hname.
    destruct (Srv pa text calls routed req R Hin Hname)
      as [h' [b' [net [chain [D' _]]]]].
    rewrite D in D'; discriminate.
Qed.

(* ================================================================== *)
(** ** Disambiguation *)

Lemma truthy_Some (a : string) : a <> "" -> Str.truthy (Some a) = true.
Proof. destruct a; [contradiction | reflexivity]. Qed.

Lemma eqb_opt_refl (a : string) : Str.eqb_opt (Some a) (Some a) = true.
Proof. apply String.eqb_refl. Qed.

Lemma eqb_opt_other_l (o : option string) (a : string) :
  o <> Some a -> Str.eqb_opt (Some a) o = false.
Proof.
  destruct o as [b|]; [|reflexivity]; intros H; cbn [Str.eqb_opt].
  destruct (String.eqb_spec a b) as [->|]; [contradiction | reflexivity].
Qed.

Lemma eqb_opt_other_r (o : option string) (a : string) :
  o <> Some a -> Str.eqb_opt o (Some a) = false.
Proof.
  destruct o as [b|]; [|reflexivity]; intros H; cbn [Str.eqb_opt].
  destruct (String.eqb_spec b a) as [->|]; [contradiction | reflexivity].
Qed.

Lemma truthy_None : Str.truthy None = false.
Proof. reflexivity. Qed.

Lemma eqb_opt_None_r (o : option string) :
  Str.truthy o && Str.eqb_opt o None = false.
Proof. now destruct o as [[|c s]|]. Qed.

Arguments Str.truthy : simpl never.
Arguments Str.eqb_opt : simpl never.

(** Runs one block of the disambiguation on a record whose fields are
    known, splitting on the score comparisons. *)
Ltac resolve_step Ha Sk :=
  repeat first
    [ rewrite (truthy_Some _ Ha)
    | rewrite eqb_opt_refl
    | rewrite truthy_None
    | rewrite (eqb_opt_other_l _ _ Sk)
    | rewrite (eqb_opt_other_r _ _ Sk)
    | rewrite andb_false_r
    | rewrite eqb_opt_None_r
    | progress cbn [andb Chat.token_address Chat.details_token_address
                    Chat.profitloss_token_address Chat.clear_value
                    Chat.clear_details Chat.clear_profitloss
                    Chat.token_network Chat.details_token_network
                    Chat.profitloss_token_network Chat.profitloss_timerange
                    kept cleared]
    | match goal with
      | |- context [(?x <? ?y)%nat] => destruct (Nat.ltb_spec x y); try lia
      | |- context [if Str.truthy ?o then _ else _] =>
          destruct (Str.truthy o) eqn:?
      end ];
  auto.

Ltac compare_scores :=
  repeat match goal with
         | |- context [(?x <? ?y)%nat] => destruct (Nat.ltb_spec x y)
         end;
  try lia; cbn; auto.

(** C4: when the token-value and the token-details result hold the same
    non-empty address and their keyword scores are equal, the comparison of
    the two keeps the token-value result and clears the token-details result.
    After the whole disambiguation the details result is still cleared, and
    the value result is still there unless a profit-loss result for the same
    address outscores it in the comparison that follows. *)
Theorem value_details_tie (user_input : string) (d : Chat.detections) :
  Str.truthy (Chat.token_address d) = true ->
  Chat.token_address d = Chat.details_token_address d ->
  score Value user_input = score Details user_input ->
  (kept Value d (Chat.resolve_value_details user_input d)
   /\ cleared Details (Chat.resolve_value_details user_input d))
  /\ cleared Details (Chat.disambiguate user_input d)
  /\ (Chat.profitloss_token_address d <> Chat.token_address d
      \/ score ProfitLoss user_input <= score Value user_input ->
      kept Value d (Chat.disambiguate user_input d)).
Proof.
  destruct d as [gas nw nn cur sn va vn da dn pa pn pt th bn tn wa hn].
  cbn [Chat.token_address Chat.details_token_address
       Chat.profitloss_token_address].
  intros T <- Tie; cbn [score] in Tie.
  destruct (truthy_inv _ T) as [a [-> Ha]].
  assert (R : Chat.resolve_value_details user_input
                (Chat.Detections gas nw nn cur sn (Some a) vn (Some a) dn pa pn
                   pt th bn tn wa hn)
              = Chat.Detections gas nw nn cur sn (Some a) vn None None pa pn pt
                  th bn tn wa hn).
  { unfold Chat.resolve_value_details;
      cbn [Chat.token_address Chat.details_token_address].
    rewrite T, eqb_opt_refl; cbn [andb]; rewrite Tie, Nat.ltb_irrefl.
    reflexivity. }
  unfold Chat.disambiguate; rewrite R; clear R.
  split; [cbn; auto|].
  unfold Chat.resolve_profitloss, score;
    cbn [Chat.token_address Chat.details_token_address
         Chat.profitloss_token_address].
  rewrite T.
  destruct (Str.truthy pa) eqn:Tp; [|cbn; auto].
  destruct (Str.eqb_opt (Some a) pa) eqn:Ep; cbn [andb].
  - destruct pa as [b|]; [|discriminate].
    cbn in Ep; apply String.eqb_eq in Ep as <-.
    split.
    + compare_scores.
    + intros [H | H]; [now elim H|]. compare_scores.
  - cbn; auto.
Qed.

(** C1, as amended: when exactly two of the token-value, token-details and
    profit-loss results hold the same non-empty address, disambiguation keeps
    the result with the strictly higher keyword score and clears the other;
    on an exact tie it keeps the result that comes first in the order
    token-value, token-details, profit-loss, so a tie that involves
    profit-loss clears the profit-loss result and keeps the other one. *)
Theorem pairwise_disambiguation (user_input : string) (d : Chat.detections)
    (i j k : token_intent) (a : string) :
  i <> j -> k <> i -> k <> j ->
  a <> "" ->
  subject i d = Some a ->
  subject j d = Some a ->
  subject k d <> Some a ->
  (score j user_input < score i user_input ->
   kept i d (Chat.disambiguate user_input d)
   /\ cleared j (Chat.disambiguate user_input d))
  /\ (score i user_input = score j user_input ->
      tie_rank i < tie_rank j ->
      kept i d (Chat.disambiguate user_input d)
      /\ cleared j (Chat.disambiguate user_input d)).
Proof.
  intros Hij Hki Hkj Ha Si Sj Sk.
  destruct d as [gas nw nn cur sn va vn da dn pa pn pt th bn tn wa hn].
  destruct i, j, k; try contradiction; cbn [subject] in *;
    cbn [Chat.token_address Chat.details_token_address
         Chat.profitloss_token_address] in *; subst;
    unfold Chat.disambiguate, Chat.resolve_value_details, score, tie_rank;
    split; intros; resolve_step Ha Sk;
    unfold Chat.resolve_profitloss; resolve_step Ha Sk.
Qed.

Lemma pairwise_disambiguation_witness :
  Chat.detect_all ("profit and loss value of " ++ sample_address)
  = Ok value_and_profitloss
  /\ score Value ("profit and loss value of " ++ sample_address)
     < score ProfitLoss ("profit and loss value of " ++ sample_address)
  /\ kept ProfitLoss value_and_profitloss
       (Chat.disambiguate ("profit and loss value of " ++ sample_address)
          value_and_profitloss)
  /\ cleared Value
       (Chat.disambiguate ("profit and loss value of " ++ sample_address)
          value_and_profitloss).
Proof.
  assert (S : score Value ("profit and loss value of " ++ sample_address)
              < score ProfitLoss ("profit and loss value of " ++ sample_address))
    by (apply Nat.ltb_lt; vm_compute; reflexivity).
  split; [vm_compute; reflexivity|]. split; [exact S|].
  refine (proj1 (pairwise_disambiguation
                   ("profit and loss value of " ++ sample_address)
                   value_and_profitloss ProfitLoss Value Details sample_address
                   _ _ _ _ _ _ _) S);
    first [reflexivity | discriminate].
Defined.

(** C1 as stated fails on exact ties that involve profit-loss: with one
    profit-loss keyword against one value keyword, and with one profit-loss
    keyword against one details keyword, the profit-loss result is the one
    that is cleared and the other result is kept. *)
Lemma pairwise_disambiguation_counterexample :
  (exists d,
      Chat.detect_all ("profit and value of " ++ sample_address) = Ok d
      /\ subject ProfitLoss d = Some sample_address
      /\ subject Value d = Some sample_address
      /\ subject Details d = None
      /\ score ProfitLoss ("profit and value of " ++ sample_address)
         = score Value ("profit and value of " ++ sample_address)
      /\ cleared ProfitLoss
           (Chat.disambiguate ("profit and value of " ++ sample_address) d)
      /\ kept Value d
           (Chat.disambiguate ("profit and value of " ++ sample_address) d))
  /\ (exists d,
         Chat.detect_all ("loss stats of " ++ sample_address) = Ok d
         /\ subject ProfitLoss d = Some sample_address
         /\ subject Details d = Some sample_address
         /\ subject Value d = None
         /\ score ProfitLoss ("loss stats of " ++ sample_address)
            = score Details ("loss stats of " ++ sample_address)
         /\ cleared ProfitLoss
              (Chat.disambiguate ("loss stats of " ++ sample_address) d)
         /\ kept Details d
              (Chat.disambiguate ("loss stats of " ++ sample_address) d)).
Proof.
  split; eexists; (split; [vm_compute; reflexivity|]);
    repeat split; vm_compute; reflexivity.
Qed.

Lemma value_details_tie_witness :
  Chat.detect_all ("what is the value and details of token " ++ sample_address)
  = Ok value_and_details
  /\ score Value ("what is the value and details of token " ++ sample_address)
     = score Details
         ("what is the value and details of token " ++ sample_address)
  /\ (kept Value value_and_details
        (Chat.resolve_value_details
           ("what is the value and details of token " ++ sample_address)
           value_and_details)
      /\ cleared Details
           (Chat.resolve_value_details
              ("what is the value and details of token " ++ sample_address)
              value_and_details))
  /\ Chat.turn ("what is the value and details of token " ++ sample_address)
       true
     = Ok (Chat.clear_details value_and_details, Some Chat.TokenValue).
Proof.
  assert (S : score Value
                ("what is the value and details of token " ++ sample_address)
              = score Details
                  ("what is the value and details of token " ++ sample_address))
    by (vm_compute; reflexivity).
  split; [vm_compute; reflexivity|]. split; [exact S|].
  split; [|vm_compute; reflexivity].
  exact (proj1 (value_details_tie
                  ("what is the value and details of token " ++ sample_address)
                  value_and_details eq_refl eq_refl S)).
Defined.

Lemma trace_needs_block_number_witness :
  has_token 64 ("trace tx " ++ sample_hash)
  /\ search block_number_pattern ("trace tx " ++ sample_hash) = None
  /\ search block_number_simple_pattern ("trace tx " ++ sample_hash) = None
  /\ exists h,
       leftmost_token 64 ("trace tx " ++ sample_hash) h
       /\ detect_transaction_trace_query ("trace tx " ++ sample_hash)
          = Ok (Some h, None,
                Some (extract_network ("trace tx " ++ sample_hash))).
Proof.
  assert (H : has_token 64 ("trace tx " ++ sample_hash))
    by (apply (first_token_found 64 _ sample_hash); vm_compute; reflexivity).
  assert (B1 : search block_number_pattern ("trace tx " ++ sample_hash) = None)
    by (vm_compute; reflexivity).
  assert (B2 : search block_number_simple_pattern ("trace tx " ++ sample_hash)
               = None)
    by (vm_compute; reflexivity).
  split; [exact H|]. split; [exact B1|]. split; [exact B2|].
  exact (proj1 (proj1 trace_needs_block_number _ H B1 B2)).
Defined.



(* ================================================================== *)
(** ** What the matchers hand on *)

Lemma first_token_shape (n : nat) (text a : string) :
  first_token n text = Some a -> leftmost_token n text a.
Proof. apply first_token_leftmost. Qed.

(** X1: Every address a matcher returns is the leftmost well-formed address of
    the text, in the letter case of the text, and every hash the trace
    matcher returns is the leftmost well-formed hash: a matcher never returns
    a subject that is malformed or that the text does not contain. *)
Theorem subjects_are_leftmost_tokens (text : string) :
  (forall a net, detect_nft_holdings_query text = Ok (Some a, net) ->
                 leftmost_token 40 text a)
  /\ (forall a net, detect_token_value_query text = Ok (Some a, net) ->
                    leftmost_token 40 text a)
  /\ (forall a net, detect_token_details_query text = Ok (Some a, net) ->
                    leftmost_token 40 text a)
  /\ (forall a net range,
         detect_token_profitloss_query text = Ok (Some a, net, range) ->
         leftmost_token 40 text a)
  /\ (forall a net, detect_transaction_history_query text = Ok (Some a, net) ->
                    leftmost_token 40 text a)
  /\ (forall h b net,
         detect_transaction_trace_query text = Ok (Some h, b, net) ->
         leftmost_token 64 text h).
Proof.
  repeat split.
  - intros a net; unfold detect_nft_holdings_query; scan_tokens.
    destruct (any_found nft_patterns _); cbn; [|discriminate].
    intros [= E _]; now apply first_token_shape.
  - intros a net; unfold detect_token_value_query; scan_tokens.
    destruct (any_found TokenValue.token_details_patterns _); [discriminate|].
    destruct (any_found TokenValue.token_value_patterns _),
      (first_token 40 text) eqn:E, (any_keyword value_keywords _); cbn;
      try discriminate; intros [= <- _]; now apply first_token_shape.
  - intros a net; unfold detect_token_details_query; scan_tokens.
    destruct (any_found token_details_patterns _),
      (first_token 40 text) eqn:E, (any_keyword details_keywords _); cbn;
      try discriminate; intros [= <- _]; now apply first_token_shape.
  - intros a net range; unfold detect_token_profitloss_query; scan_tokens.
    destruct (any_found profitloss_patterns _),
      (first_token 40 text) eqn:E, (any_keyword profitloss_keywords _); cbn;
      try discriminate; intros [= <- _ _]; now apply first_token_shape.
  - intros a net; unfold detect_transaction_history_query; scan_tokens.
    destruct (any_found history_patterns _),
      (first_token 40 text) eqn:E, (any_keyword history_keywords _); cbn;
      try discriminate; intros [= <- _]; now apply first_token_shape.
  - intros h b net; unfold detect_transaction_trace_query; scan_tokens.
    destruct (block_number_ok text) as [bn ->].
    destruct (any_found trace_patterns _), (first_token 64 text) eqn:E; cbn;
      try discriminate; intros [= <- _ _]; now apply first_token_shape.
Qed.

Lemma extract_network_is_key (text : string) :
  In (extract_network text) (keys NETWORK_TO_CHAIN_ID).
Proof.
  rewrite extract_network_scan.
  destruct (scan_network text) as [net|] eqn:E; [|cbn; auto].
  now apply find_some in E as [E _].
Qed.

Lemma key_has_chain (net : string) :
  In net (keys NETWORK_TO_CHAIN_ID) ->
  Str.lower net = net
  /\ exists chain_id, dict_get NETWORK_TO_CHAIN_ID net = Some chain_id.
Proof.
  cbn; intros H.
  repeat (destruct H as [<- | H]; [split; [reflexivity | eexists; reflexivity]|]).
  contradiction.
Qed.

(** X2: Whatever network name a matcher returns is a key of the alias table, in
    lower case already, so the chain id lookups the callers make on it
    ([NETWORK_TO_CHAIN_ID.get(network.lower(), "1")] and
    [NETWORK_TO_CHAIN_ID.get(network)]) always find an entry and never fall
    back on a default or on "unknown network". *)
Theorem matcher_networks_are_table_keys (text net : string) :
  detect_gas_price_query text = Ok (Some net)
  \/ (exists x, detect_nft_holdings_query text = Ok (x, Some net))
  \/ (exists x, detect_spot_price_query text = Ok (x, Some net))
  \/ (exists x, detect_token_value_query text = Ok (x, Some net))
  \/ (exists x, detect_token_details_query text = Ok (x, Some net))
  \/ (exists x y, detect_token_profitloss_query text = Ok (x, Some net, y))
  \/ (exists x y, detect_transaction_trace_query text = Ok (x, y, Some net))
  \/ (exists x, detect_transaction_history_query text = Ok (x, Some net)) ->
  In net (keys NETWORK_TO_CHAIN_ID)
  /\ Str.lower net = net
  /\ exists chain_id,
       dict_get NETWORK_TO_CHAIN_ID net = Some chain_id
       /\ Server.chain_id_of (Some net) = Ok chain_id.
Proof.
  intros H.
  assert (E : net = extract_network text).
  { destruct H as [H | [[x H] | [[x H] | [[x H] | [[x H] | [[x [y H]]
                 | [[x [y H]] | [x H]]]]]]]]; revert H.
    - destruct (gas_shape text) as [-> | ->]; congruence.
    - destruct (nft_shape text) as [-> | [? ->]]; congruence.
    - destruct (spot_shape text) as [-> | [? ->]]; congruence.
    - destruct (value_shape text) as [-> | [? ->]]; congruence.
    - destruct (details_shape text) as [-> | [? ->]]; congruence.
    - destruct (profitloss_shape text) as [-> | [? ->]]; congruence.
    - destruct (trace_shape text) as [-> | [? [? ->]]]; congruence.
    - destruct (history_shape text) as [-> | [? ->]]; congruence. }
  subst net.
  pose proof (extract_network_is_key text) as K.
  destruct (key_has_chain _ K) as [L [cid C]].
  repeat split; auto.
  exists cid; split; [exact C|].
  unfold Server.chain_id_of, dict_get_default; now rewrite L, C.
Qed.

Lemma matcher_networks_are_table_keys_witness :
  detect_gas_price_query "what's the gas price on polygon?" = Ok (Some "polygon")
  /\ Server.chain_id_of (Some "polygon") = Ok "137".
Proof.
  assert (H : detect_gas_price_query "what's the gas price on polygon?"
              = Ok (Some "polygon")) by (vm_compute; reflexivity).
  split; [exact H|].
  destruct (matcher_networks_are_table_keys _ _ (or_introl H))
    as [_ [_ [cid [C E]]]].
  vm_compute in C; injection C as <-; exact E.
Defined.

(** X3: The currency of a spot-price match is always one of the six supported
    codes: the first of them, in the order of the list, whose lower-case form
    occurs in the lower-cased text, and "USD" when none occurs. *)
Theorem spot_currency_is_supported (text : string) (c net : option string) :
  detect_spot_price_query text = Ok (c, net) ->
  c = None
  \/ exists code,
       c = Some code /\ In code ["USD"; "INR"; "EUR"; "GBP"; "JPY"; "CNY"]
       /\ ((exists earlier later,
              ["USD"; "INR"; "EUR"; "GBP"; "JPY"; "CNY"]
              = (earlier ++ code :: later)%list
              /\ Str.contains (Str.lower code) (Str.lower text) = true
              /\ forall other, In other earlier ->
                   Str.contains (Str.lower other) (Str.lower text) = false)
           \/ (code = "USD"
               /\ forall other, In other ["USD"; "INR"; "EUR"; "GBP"; "JPY"; "CNY"] ->
                    Str.contains (Str.lower other) (Str.lower text) = false)).
Proof.
  unfold detect_spot_price_query.
  destruct (any_found price_patterns _); cbn [negb]; [|intros [= <- _]; now left].
  destruct (find _ currencies) as [code|] eqn:F; intros [= <- _]; right.
  - exists code; split; [reflexivity|].
    pose proof (find_some _ _ F) as [Hin _]. split; [exact Hin|]. left.
    apply (find_first_spec
             (fun curr => Str.contains (Str.lower curr) (Str.lower text))) in F.
    exact F.
  - exists "USD"; split; [reflexivity|]. split; [cbn; auto|]. right.
    split; [reflexivity|]. intros other Ho.
    exact (find_none _ _ F other Ho).
Qed.

Lemma spot_currency_is_supported_witness :
  detect_spot_price_query "show price of tokens in eur on polygon"
  = Ok (Some "EUR", Some "polygon")
  /\ In "EUR" ["USD"; "INR"; "EUR"; "GBP"; "JPY"; "CNY"].
Proof.
  assert (H : detect_spot_price_query "show price of tokens in eur on polygon"
              = Ok (Some "EUR", Some "polygon")) by (vm_compute; reflexivity).
  split; [exact H|].
  destruct (spot_currency_is_supported _ _ _ H)
    as [E | [code [E [Hin _]]]]; [discriminate E|].
  injection E as <-; exact Hin.
Defined.

(* ================================================================== *)
(** ** The block number of a trace query *)

Lemma rep_spec (p : ascii -> bool) (cap : option string) (s : string) :
  forall lo hi prev c',
    In c' (rep p lo hi cap prev s) ->
    exists m, s = m ++ rest c' /\ Str.all p m = true
              /\ lo <= String.length m.
Proof.
  induction s as [|a s IH]; intros lo hi prev c'; cbn [rep].
  - destruct (Nat.eqb_spec lo 0) as [-> | _]; [intros [<- | []] | intros []].
    exists ""; repeat split; auto.
  - assert (Stop : In c' (if (lo =? 0)%nat
                          then [Cursor prev (String a s) cap] else []) ->
                   exists m, String a s = m ++ rest c' /\ Str.all p m = true
                             /\ lo <= String.length m).
    { destruct (Nat.eqb_spec lo 0) as [-> | _]; [intros [<- | []] | intros []].
      exists ""; repeat split; auto. }
    destruct (p a) eqn:Pa; cbn [andb]; [|exact Stop].
    destruct (may_take hi); [|exact Stop].
    intros H; apply in_app_or in H as [H | H]; [|now apply Stop].
    destruct (IH _ _ _ _ H) as [m [-> [Hm Hlen]]].
    exists (String a m); repeat split; cbn; [now rewrite Pa | lia].
Qed.

Lemma search_from_match_at (r : regex) (s : string) :
  forall prev m,
    search_from r prev s = Some m ->
    exists pre prev' s', s = pre ++ s' /\ match_at r prev' s' = Some m.
Proof.
  induction s as [|a s IH]; intros prev m; cbn [search_from];
    destruct (match_at r prev _) eqn:E.
  - intros [= <-]; exists "", prev, ""; auto.
  - discriminate.
  - intros [= <-]; exists "", prev, (String a s); auto.
  - intros H; destruct (IH _ _ H) as [pre [prev' [s' [-> M]]]].
    exists (String a pre), prev', s'; auto.
Qed.

Lemma run_Cat (r1 r2 : regex) (c c' : cursor) :
  In c' (run (Cat r1 r2) c) ->
  exists c1, In c1 (run r1 c) /\ In c' (run r2 c1).
Proof. cbn [run]; intros H; now apply in_flat_map in H. Qed.

Lemma run_Group_Rep (p : ascii -> bool) (lo : nat) (hi : option nat)
    (c c' : cursor) :
  In c' (run (Group (Rep p lo hi)) c) ->
  exists d, captured c' = Some d /\ rest c = d ++ rest c'
            /\ Str.all p d = true /\ lo <= String.length d.
Proof.
  cbn [run]; intros H; apply in_map_iff in H as [c1 [<- H]].
  destruct (rep_spec _ _ _ _ _ _ _ H) as [d [E [Hd Hlen]]].
  exists d; cbn [captured rest].
  rewrite E, length_append, Nat.add_sub, take_append; auto.
Qed.

Lemma run_WordBoundary (c c' : cursor) :
  In c' (run WordBoundary c) -> c' = c.
Proof.
  cbn [run]; destruct (xorb _ _); [intros [<- | []]; reflexivity | intros []].
Qed.

(** What group 1 of the block number pattern holds: the digits after the
    word "block" or "blk", at least one, taken from the text. *)
Lemma block_number_group (text : string) (m : re_match) :
  search block_number_pattern text = Some m ->
  exists digits,
    groups m = [Some digits] /\ 1 <= String.length digits
    /\ Str.all Str.is_digit digits = true
    /\ Str.contains digits text = true.
Proof.
  intros H; apply search_from_match_at in H as [pre [prev [s [-> M]]]].
  revert M; unfold match_at.
  destruct (run block_number_pattern (Cursor prev s None)) as [|c cs] eqn:R;
    [discriminate|].
  assert (Hc : In c (run block_number_pattern (Cursor prev s None)))
    by (rewrite R; now left).
  intros [= <-]; cbn [groups]. clear R.
  replace (has_group block_number_pattern) with true by reflexivity.
  unfold block_number_pattern in Hc; cbn [cat] in Hc.
  apply run_Cat in Hc as [c1 [H1 Hc]].
  apply run_Cat in Hc as [c2 [H2 Hc]].
  apply run_Cat in Hc as [c3 [H3 Hc]].
  apply run_Group_Rep in Hc as [d [Cap [E [Hd Hlen]]]].
  exists d; rewrite Cap; repeat split; auto.
  apply run_forward in H1 as [w1 E1].
  apply run_forward in H2 as [w2 E2].
  apply run_forward in H3 as [w3 E3].
  cbn [rest] in E1. apply contains_spec.
  exists (pre ++ w1 ++ w2 ++ w3), (rest c).
  rewrite E1, E2, E3, E, !append_assoc; reflexivity.
Qed.

(** What the fallback pattern matches: a run of at least seven digits. *)
Lemma simple_block_number_group (text : string) (m : re_match) :
  search block_number_simple_pattern text = Some m ->
  7 <= String.length (group0 m)
  /\ Str.all Str.is_digit (group0 m) = true
  /\ Str.contains (group0 m) text = true.
Proof.
  intros H.
  assert (Sub : Str.contains (group0 m) text = true)
    by (apply contains_spec; eapply search_substring; eassumption).
  apply search_from_match_at in H as [pre [prev [s [-> M]]]].
  revert M Sub; unfold match_at.
  destruct (run block_number_simple_pattern (Cursor prev s None))
    as [|c cs] eqn:R; [discriminate|].
  assert (Hc : In c (run block_number_simple_pattern (Cursor prev s None)))
    by (rewrite R; now left).
  intros [= <-] Sub; cbn [group0] in *. clear R.
  unfold block_number_simple_pattern in Hc; cbn [cat] in Hc.
  apply run_Cat in Hc as [c1 [H1 Hc]].
  apply run_Cat in Hc as [c2 [H2 Hc]].
  apply run_WordBoundary in H1; subst c1.
  apply run_WordBoundary in Hc; subst c2.
  cbn [run before rest captured] in H2.
  destruct (rep_spec _ _ _ _ _ _ _ H2) as [d [E [Hd Hlen]]].
  rewrite E, length_append, Nat.add_sub, take_append in *.
  auto.
Qed.

Lemma block_number_digits (text : string)
    (h : option string) (b : string) (net : option string) :
  detect_transaction_trace_query text = Ok (h, Some b, net) ->
  1 <= String.length b
  /\ Str.all Str.is_digit b = true
  /\ Str.contains b text = true
  /\ Str.truthy (Some b) = true.
Proof.
  unfold detect_transaction_trace_query; scan_tokens.
  destruct (negb _); [discriminate|]; cbn [bind].
  assert (G : forall x, (1 <= String.length x /\ Str.all Str.is_digit x = true
                         /\ Str.contains x text = true) ->
                        1 <= String.length x /\ Str.all Str.is_digit x = true
                        /\ Str.contains x text = true
                        /\ Str.truthy (Some x) = true).
  { intros x [L [D C]]; repeat split; auto. destruct x; [cbn in L; lia|reflexivity]. }
  destruct (search block_number_pattern text) as [m|] eqn:B.
  - destruct (block_number_group _ _ B) as [d [Gm [L [D C]]]].
    destruct m as [g0 gs]; cbn [groups] in Gm; subst gs; cbn.
    intros [= _ <- _]; apply G; auto.
  - destruct (search block_number_simple_pattern text) as [m|] eqn:S; cbn;
      [|discriminate].
    destruct (simple_block_number_group _ _ S) as [L [D C]].
    intros [= _ <- _]; apply G; repeat split; auto; lia.
Qed.

(** X4: on ASCII text, where the digit class of the patterns is the one
    modelled, a block number the trace matcher returns is never empty: it is
    a run of the digits 0 to 9 that occurs in the text, so the callers' test
    [tx_hash and block_number] fails only when no block number was found.
    (On other text Python's digit class also takes the decimal digits of
    other scripts, and the block number can be made of those.) *)
Theorem trace_block_number_is_digits (text : string)
    (h : option string) (b : string) (net : option string) :
  is_ascii text = true ->
  detect_transaction_trace_query text = Ok (h, Some b, net) ->
  1 <= String.length b
  /\ Str.all Str.is_digit b = true
  /\ Str.contains b text = true
  /\ Str.truthy (Some b) = true.
Proof. intros _; apply block_number_digits. Qed.

Lemma trace_block_number_is_digits_witness :
  is_ascii ("trace tx " ++ sample_hash ++ " in block 18500000") = true
  /\ detect_transaction_trace_query
       ("trace tx " ++ sample_hash ++ " in block 18500000")
     = Ok (Some sample_hash, Some "18500000", Some "ethereum")
  /\ Str.all Str.is_digit "18500000" = true.
Proof.
  assert (A : is_ascii ("trace tx " ++ sample_hash ++ " in block 18500000")
              = true) by (vm_compute; reflexivity).
  assert (H : detect_transaction_trace_query
                ("trace tx " ++ sample_hash ++ " in block 18500000")
              = Ok (Some sample_hash, Some "18500000", Some "ethereum"))
    by (vm_compute; reflexivity).
  exact (conj A (conj H
           (proj1 (proj2 (trace_block_number_is_digits _ _ _ _ A H))))).
Defined.

(* ================================================================== *)
(** ** Invariants of the disambiguation *)

Ltac settle a :=
  repeat first
    [ rewrite (truthy_Some a) by assumption
    | rewrite eqb_opt_refl
    | rewrite truthy_None
    | rewrite eqb_opt_None_r
    | match goal with
      | H : _ <> Some a |- _ =>
          first [ rewrite (eqb_opt_other_l _ _ H)
                | rewrite (eqb_opt_other_r _ _ H) ]
      end
    | rewrite andb_false_r
    | progress cbn [andb Chat.token_address Chat.details_token_address
                    Chat.profitloss_token_address Chat.clear_value
                    Chat.clear_details Chat.clear_profitloss
                    Chat.token_network Chat.details_token_network
                    Chat.profitloss_token_network Chat.profitloss_timerange
                    subject]
    | match goal with
      | |- context [(?x <? ?y)%nat] => destruct (x <? y)%nat
      | |- context [if ?b then _ else _] =>
          lazymatch b with
          | context [if _ then _ else _] => fail
          | _ => destruct b eqn:?
          end
      end ].

Lemma holds_dec (o : option string) (a : string) : o = Some a \/ o <> Some a.
Proof.
  destruct o as [b|]; [|right; discriminate].
  destruct (string_dec b a) as [-> | N]; [now left | right; congruence].
Qed.

Lemma only_clears (user_input : string) (d : Chat.detections) :
  (forall i, kept i d (Chat.disambiguate user_input d)
             \/ cleared i (Chat.disambiguate user_input d))
  /\ Chat.network (Chat.disambiguate user_input d) = Chat.network d
  /\ Chat.nft_wallet_address (Chat.disambiguate user_input d)
     = Chat.nft_wallet_address d
  /\ Chat.nft_network (Chat.disambiguate user_input d) = Chat.nft_network d
  /\ Chat.currency (Chat.disambiguate user_input d) = Chat.currency d
  /\ Chat.spot_network (Chat.disambiguate user_input d) = Chat.spot_network d
  /\ Chat.tx_hash (Chat.disambiguate user_input d) = Chat.tx_hash d
  /\ Chat.block_number (Chat.disambiguate user_input d) = Chat.block_number d
  /\ Chat.tx_network (Chat.disambiguate user_input d) = Chat.tx_network d
  /\ Chat.wallet_address (Chat.disambiguate user_input d)
     = Chat.wallet_address d
  /\ Chat.history_network (Chat.disambiguate user_input d)
     = Chat.history_network d.
Proof.
  destruct d as [gas nw nn cur sn va vn da dn pa pn pt th bn tn wa hn].
  unfold Chat.disambiguate, Chat.resolve_profitloss, Chat.resolve_value_details.
  repeat match goal with
         | |- context [if ?b then _ else _] => destruct b
         end;
    (split; [intros []; cbn; auto | cbn; repeat split]).
Qed.

(** X5: Disambiguation only clears: each of the three token results is after it
    what it was before, or absent altogether, and the results of the other
    five matchers are not touched. *)
Theorem disambiguation_only_clears (user_input : string) (d : Chat.detections) :
  (forall i, kept i d (Chat.disambiguate user_input d)
             \/ cleared i (Chat.disambiguate user_input d))
  /\ Chat.network (Chat.disambiguate user_input d) = Chat.network d
  /\ Chat.nft_wallet_address (Chat.disambiguate user_input d)
     = Chat.nft_wallet_address d
  /\ Chat.nft_network (Chat.disambiguate user_input d) = Chat.nft_network d
  /\ Chat.currency (Chat.disambiguate user_input d) = Chat.currency d
  /\ Chat.spot_network (Chat.disambiguate user_input d) = Chat.spot_network d
  /\ Chat.tx_hash (Chat.disambiguate user_input d) = Chat.tx_hash d
  /\ Chat.block_number (Chat.disambiguate user_input d) = Chat.block_number d
  /\ Chat.tx_network (Chat.disambiguate user_input d) = Chat.tx_network d
  /\ Chat.wallet_address (Chat.disambiguate user_input d)
     = Chat.wallet_address d
  /\ Chat.history_network (Chat.disambiguate user_input d)
     = Chat.history_network d.
Proof. apply only_clears. Qed.

Lemma one_holder (user_input : string) (d : Chat.detections)
    (a : string) :
  a <> "" ->
  (exists i, subject i d = Some a) ->
  exists i,
    subject i (Chat.disambiguate user_input d) = Some a
    /\ forall j, subject j (Chat.disambiguate user_input d) = Some a -> j = i.
Proof.
  intros Ha Held.
  destruct d as [gas nw nn cur sn va vn da dn pa pn pt th bn tn wa hn].
  assert (Some_a : va = Some a \/ da = Some a \/ pa = Some a)
    by (destruct Held as [[] H]; cbn in H; auto).
  clear Held.
  unfold Chat.disambiguate, Chat.resolve_value_details.
  destruct (holds_dec va a) as [-> | Nv], (holds_dec da a) as [-> | Nd],
    (holds_dec pa a) as [-> | Np];
    try (exfalso; destruct Some_a as [? | [? | ?]]; contradiction);
    clear Some_a; settle a;
    unfold Chat.resolve_profitloss; settle a;
    first [ exists Value; split; [reflexivity|];
            intros [] J; cbn in J; congruence
          | exists Details; split; [reflexivity|];
            intros [] J; cbn in J; congruence
          | exists ProfitLoss; split; [reflexivity|];
            intros [] J; cbn in J; congruence ].
Qed.

(** X6: After disambiguation every address that one of the three token matchers
    had found is held by exactly one of the three results: no address is
    lost, and no two results are left with the same address. *)
Theorem disambiguation_one_holder (user_input : string) (d : Chat.detections)
    (a : string) :
  a <> "" ->
  (exists i, subject i d = Some a) ->
  exists i,
    subject i (Chat.disambiguate user_input d) = Some a
    /\ forall j, subject j (Chat.disambiguate user_input d) = Some a -> j = i.
Proof. apply one_holder. Qed.

Lemma disambiguation_one_holder_witness :
  let d := Chat.Detections None None None None None
             (Some sample_address) (Some "ethereum")
             (Some sample_address) (Some "ethereum")
             (Some sample_address) (Some "ethereum") (Some "1day")
             None None None None None in
  sample_address <> ""
  /\ (exists i, subject i d = Some sample_address)
  /\ exists i,
       subject i (Chat.disambiguate "details and profit of the token" d)
       = Some sample_address
       /\ forall j,
            subject j (Chat.disambiguate "details and profit of the token" d)
            = Some sample_address -> j = i.
Proof.
  cbv zeta.
  assert (Ha : sample_address <> "") by discriminate.
  assert (Hd : exists i,
             subject i
               (Chat.Detections None None None None None
                  (Some sample_address) (Some "ethereum")
                  (Some sample_address) (Some "ethereum")
                  (Some sample_address) (Some "ethereum") (Some "1day")
                  None None None None None) = Some sample_address)
    by (exists Value; reflexivity).
  exact (conj Ha (conj Hd (disambiguation_one_holder _ _ _ Ha Hd))).
Defined.

Lemma eqb_opt_eq (a b : option string) :
  Str.eqb_opt a b = true -> Str.truthy a = true -> a = b.
Proof.
  destruct a as [x|], b as [y|]; cbn; try discriminate.
  intros E _; apply String.eqb_eq in E; now subst.
Qed.

Lemma no_shared_address (user_input : string) (d : Chat.detections)
    (i j : token_intent) :
  i <> j ->
  Str.truthy (subject i (Chat.disambiguate user_input d)) = true ->
  subject i (Chat.disambiguate user_input d)
  <> subject j (Chat.disambiguate user_input d).
Proof.
  intros Nij T E.
  destruct (truthy_inv _ T) as [a [Ei Ha]].
  assert (Ej : subject j (Chat.disambiguate user_input d) = Some a)
    by congruence.
  assert (Held : exists k, subject k d = Some a).
  { exists i.
    destruct (only_clears user_input d) as [K _].
    destruct (K i) as [Kept | Cleared].
    - destruct i; cbn in *; destruct Kept as [<- _]; exact Ei.
    - destruct i; cbn in *; destruct Cleared as [C _]; congruence. }
  destruct (one_holder user_input d a Ha Held) as [k [_ U]].
  apply Nij; now rewrite (U i Ei), (U j Ej).
Qed.

Lemma disambiguate_fixed (user_input : string) (d : Chat.detections) :
  (forall i j, i <> j -> Str.truthy (subject i d) = true ->
               subject i d <> subject j d) ->
  Chat.disambiguate user_input d = d.
Proof.
  intros Free.
  assert (VD : Str.truthy (Chat.token_address d)
               && Str.truthy (Chat.details_token_address d)
               && Str.eqb_opt (Chat.token_address d)
                    (Chat.details_token_address d) = false).
  { match goal with |- ?b = false => destruct b eqn:E end; [|reflexivity].
    apply andb_true_iff in E as [E E3]; apply andb_true_iff in E as [E1 E2].
    exfalso; apply (Free Value Details); [discriminate | exact E1 |].
    now apply eqb_opt_eq. }
  assert (VP : Str.truthy (Chat.token_address d)
               && Str.eqb_opt (Chat.token_address d)
                    (Chat.profitloss_token_address d) = false).
  { match goal with |- ?b = false => destruct b eqn:E end; [|reflexivity].
    apply andb_true_iff in E as [E1 E2].
    exfalso; apply (Free Value ProfitLoss); [discriminate | exact E1 |].
    now apply eqb_opt_eq. }
  assert (DP : Str.truthy (Chat.details_token_address d)
               && Str.eqb_opt (Chat.details_token_address d)
                    (Chat.profitloss_token_address d) = false).
  { match goal with |- ?b = false => destruct b eqn:E end; [|reflexivity].
    apply andb_true_iff in E as [E1 E2].
    exfalso; apply (Free Details ProfitLoss); [discriminate | exact E1 |].
    now apply eqb_opt_eq. }
  unfold Chat.disambiguate, Chat.resolve_value_details; rewrite VD.
  unfold Chat.resolve_profitloss; rewrite VP, DP.
  now destruct (Str.truthy (Chat.profitloss_token_address d)).
Qed.

(** X7: Disambiguation settles in one pass: run on its own result it changes
    nothing, and it leaves alone any record in which no two token results
    hold the same non-empty address. *)
Theorem disambiguation_idempotent (user_input : string) (d : Chat.detections) :
  Chat.disambiguate user_input (Chat.disambiguate user_input d)
  = Chat.disambiguate user_input d
  /\ ((forall i j, i <> j -> Str.truthy (subject i d) = true ->
                   subject i d <> subject j d) ->
      Chat.disambiguate user_input d = d).
Proof.
  split; [|apply disambiguate_fixed].
  apply disambiguate_fixed; intros i j; apply no_shared_address.
Qed.

(* ================================================================== *)
(** ** The routing ladder as a whole *)

Lemma chain_id_of_extract (message : string) :
  exists chain,
    dict_get NETWORK_TO_CHAIN_ID (extract_network message) = Some chain
    /\ Server.chain_id_of (Some (extract_network message)) = Ok chain.
Proof.
  destruct (key_has_chain _ (extract_network_is_key message)) as [L [cid C]].
  exists cid; split; [exact C|].
  unfold Server.chain_id_of, dict_get_default; now rewrite L, C.
Qed.

Lemma keyed_step_runs
    (detect : string -> result (option string * option string))
    (action message chain : string) :
  Server.chain_id_of (Some (extract_network message)) = Ok chain ->
  (detect message = Ok (None, None)
   \/ exists x, detect message = Ok (x, Some (extract_network message))) ->
  Server.keyed_step detect action message = Ok None
  \/ exists subject,
       subject <> ""
       /\ Server.keyed_step detect action message
          = Ok (Some (Server.Request action [subject; chain])).
Proof.
  intros Hc [E | [x E]]; unfold Server.keyed_step; rewrite E; cbn [bind].
  - rewrite truthy_None; now left.
  - destruct (Str.truthy x) eqn:T; [|now left].
    apply truthy_inv in T as [s [-> Hs]].
    rewrite Hc; cbn [bind Server.text_of]; right; exists s; auto.
Qed.

Lemma step_runs (message chain : string)
    (step : string -> result (option Server.request)) :
  Server.chain_id_of (Some (extract_network message)) = Ok chain ->
  In step Server.steps ->
  step message = Ok None
  \/ exists req, step message = Ok (Some req) /\ call_shape chain req.
Proof.
  intros Hc Hin; cbn in Hin.
  destruct Hin as [<- | [<- | [<- | [<- | [<- | [<- | [<- | [<- | []]]]]]]]].
  - unfold Server.trace_step.
    destruct (trace_shape message) as [-> | [h [b ->]]]; cbn [bind].
    + rewrite truthy_None; now left.
    + destruct (Str.truthy h) eqn:Th; [|now left].
      destruct (Str.truthy b) eqn:Tb; [|now left].
      apply truthy_inv in Th as [h' [-> Hh]].
      apply truthy_inv in Tb as [b' [-> Hb]].
      cbn [andb]; rewrite Hc; cbn [bind Server.text_of].
      right; eexists; split; [reflexivity|]. left; exists h', b'; auto.
  - unfold Server.gas_step.
    destruct (gas_shape message) as [-> | ->]; cbn [bind].
    + rewrite truthy_None; now left.
    + destruct (Str.truthy _); [|now left].
      rewrite Hc; cbn [bind].
      right; eexists; split; [reflexivity|]. right; now left.
  - destruct (keyed_step_runs detect_nft_holdings_query "get-nft-holdings"
                message chain Hc (nft_shape message)) as [-> | [s [Hs ->]]];
      [now left|].
    right; eexists; split; [reflexivity|]. right; right; left.
    exists "get-nft-holdings", s; cbn; auto.
  - destruct (keyed_step_runs detect_token_value_query "get-token-value"
                message chain Hc (value_shape message)) as [-> | [s [Hs ->]]];
      [now left|].
    right; eexists; split; [reflexivity|]. right; right; left.
    exists "get-token-value", s; cbn; auto.
  - destruct (keyed_step_runs detect_token_details_query "get-token-details"
                message chain Hc (details_shape message)) as [-> | [s [Hs ->]]];
      [now left|].
    right; eexists; split; [reflexivity|]. right; right; left.
    exists "get-token-details", s; cbn; auto.
  - unfold Server.profitloss_step.
    destruct (profitloss_shape message) as [-> | [a ->]]; cbn [bind].
    + rewrite truthy_None; now left.
    + destruct (Str.truthy a) eqn:Ta; [|now left].
      apply truthy_inv in Ta as [a' [-> Ha]].
      rewrite Hc; cbn [bind Server.text_of].
      right; eexists; split; [reflexivity|]. right; right; right.
      exists a', (extract_timerange message); auto.
  - assert (S : detect_spot_price_query message = Ok (None, None)
                \/ exists x, detect_spot_price_query message
                             = Ok (x, Some (extract_network message))).
    { destruct (spot_shape message) as [-> | [c ->]]; eauto. }
    destruct (keyed_step_runs detect_spot_price_query "get-spot-price"
                message chain Hc S) as [-> | [s [Hs ->]]];
      [now left|].
    right; eexists; split; [reflexivity|]. right; right; left.
    exists "get-spot-price", s; cbn; auto 6.
  - destruct (keyed_step_runs detect_transaction_history_query
                "get-transaction-history"
                message chain Hc (history_shape message)) as [-> | [s [Hs ->]]];
      [now left|].
    right; eexists; split; [reflexivity|]. right; right; left.
    exists "get-transaction-history", s; cbn; auto 7.
Qed.

Lemma route_from_first (perform_action : Server.request -> bool)
    (message : string) (todo : list (string -> result (option Server.request))) :
  (forall step, In step todo -> exists o, step message = Ok o) ->
  forall calls,
  exists new routed,
    Server.route_from perform_action todo message calls
    = Ok ((calls ++ new)%list, routed)
    /\ List.length new <= List.length todo
    /\ match routed with
       | Some req =>
           exists earlier,
             new = (earlier ++ [req])%list
             /\ perform_action req = true
             /\ forall r, In r earlier -> perform_action r = false
       | None => forall r, In r new -> perform_action r = false
       end.
Proof.
  induction todo as [|step todo IH]; intros Runs calls; cbn [Server.route_from].
  - exists [], None; rewrite app_nil_r; repeat split; auto. intros r [].
  - destruct (Runs step (or_introl eq_refl)) as [o ->]; cbn [bind].
    assert (Runs' : forall s, In s todo -> exists o, s message = Ok o)
      by (intros s Hs; apply Runs; now right).
    destruct o as [req|].
    + destruct (perform_action req) eqn:P.
      * exists [req], (Some req); repeat split; [cbn; lia|].
        exists []; repeat split; auto. intros r [].
      * destruct (IH Runs' (calls ++ [req])%list)
          as [new [routed [E [Len T]]]].
        exists (req :: new), routed. split.
        { rewrite E, <- app_assoc; reflexivity. }
        split; [cbn; lia|].
        destruct routed as [r0|].
        -- destruct T as [earlier [-> [P0 F]]].
           exists (req :: earlier); repeat split; auto.
           intros r [<- | Hr]; auto.
        -- intros r [<- | Hr]; auto.
    + destruct (IH Runs' calls) as [new [routed [E [Len T]]]].
      exists new, routed; split; [exact E|]. split; [cbn; lia | exact T].
Qed.

(** X8: The routing ladder of the chat endpoint never raises.  It asks the API
    tools connection at most eight times, and it stops at the first call
    that gives a result: the request it reports as routed is the last call
    made and the only one that succeeded, and when it reports none, every
    call it made has failed. *)
Theorem route_stops_at_first_result
    (perform_action : Server.request -> bool) (message : string) :
  exists calls routed,
    Server.route perform_action message = Ok (calls, routed)
    /\ List.length calls <= 8
    /\ match routed with
       | Some req =>
           exists earlier,
             calls = (earlier ++ [req])%list
             /\ perform_action req = true
             /\ forall r, In r earlier -> perform_action r = false
       | None => forall r, In r calls -> perform_action r = false
       end.
Proof.
  destruct (chain_id_of_extract message) as [chain [_ Hc]].
  assert (Runs : forall step, In step Server.steps ->
                              exists o, step message = Ok o).
  { intros step Hs.
    destruct (step_runs message chain step Hc Hs) as [-> | [req [-> _]]]; eauto. }
  destruct (route_from_first perform_action message Server.steps Runs [])
    as [new [routed [E [Len T]]]].
  exists new, routed; split; [exact E|]. split; [exact Len | exact T].
Qed.

(** X9: Every call the routing ladder makes for a message has one of the eight
    action names with the parameters of that action, its subject is never
    empty, and its chain id is the entry of the alias table for the network
    read from the message: all calls of one message carry the same chain id,
    and the default of the lookup is never used. *)
Theorem route_calls_share_chain
    (perform_action : Server.request -> bool) (message : string) :
  exists chain,
    dict_get NETWORK_TO_CHAIN_ID (extract_network message) = Some chain
    /\ forall calls routed req,
         Server.route perform_action message = Ok (calls, routed) ->
         In req calls -> call_shape chain req.
Proof.
  destruct (chain_id_of_extract message) as [chain [Hd Hc]].
  exists chain; split; [exact Hd|].
  intros calls routed req R Hin.
  destruct (route_from_calls _ _ _ _ _ _ R req Hin) as [[] | [step [Hs Es]]].
  destruct (step_runs message chain step Hc Hs) as [E | [r [E S]]];
    rewrite E in Es; [discriminate|].
  now injection Es as <-.
Qed.

(* ================================================================== *)
(** ** The action functions *)

Lemma table_values_truthy (k cid : string) :
  dict_get NETWORK_TO_CHAIN_ID k = Some cid -> Str.truthy (Some cid) = true.
Proof.
  cbn [NETWORK_TO_CHAIN_ID dict_get].
  repeat (destruct (String.eqb _ k); [intros [= <-]; reflexivity|]).
  discriminate.
Qed.

Lemma truthy_text (o : option string) :
  Str.truthy o = true -> o = Some (Server.text_of o) /\ Server.text_of o <> "".
Proof.
  intros T; apply truthy_inv in T as [s [-> Hs]]; cbn; auto.
Qed.

(** The three ways the chain of an action is settled. *)
Lemma settle_chain_given (chain_id network : option string) (cid : string) :
  chain_id = Some cid -> cid <> "" ->
  Actions.settle_chain chain_id network = Some (cid, Actions.display_name cid).
Proof.
  intros -> Hc; unfold Actions.settle_chain; cbv zeta.
  rewrite (truthy_Some _ Hc), andb_false_r; cbn [negb].
  now rewrite (truthy_Some _ Hc).
Qed.

Lemma settle_chain_named (chain_id network : option string) (n cid : string) :
  Str.truthy chain_id = false -> network = Some n ->
  dict_get NETWORK_TO_CHAIN_ID (Str.lower n) = Some cid ->
  Actions.settle_chain chain_id network = Some (cid, Actions.display_name cid).
Proof.
  intros Tc -> D; unfold Actions.settle_chain.
  assert (Hn : n <> "") by (intros ->; discriminate D).
  rewrite (truthy_Some _ Hn), Tc; cbn [negb andb Server.text_of].
  rewrite D, (table_values_truthy _ _ D); cbn [negb].
  now rewrite (table_values_truthy _ _ D).
Qed.

Lemma settle_chain_default (chain_id network : option string) :
  Str.truthy chain_id = false -> Str.truthy network = false ->
  Actions.settle_chain chain_id network = Some ("1", Actions.display_name "1").
Proof.
  intros Tc Tn; unfold Actions.settle_chain; cbv zeta.
  rewrite Tn; cbn [andb]; rewrite Tc; reflexivity.
Qed.

Lemma settle_chain_unknown (chain_id network : option string) (n : string) :
  Str.truthy chain_id = false -> network = Some n -> n <> "" ->
  dict_get NETWORK_TO_CHAIN_ID (Str.lower n) = None ->
  Actions.settle_chain chain_id network = None.
Proof.
  intros Tc -> Hn D; unfold Actions.settle_chain.
  rewrite (truthy_Some _ Hn), Tc; cbn [negb andb Server.text_of].
  now rewrite D.
Qed.

Lemma timerange_settled (timerange : option string) :
  exists t,
    In t Actions.valid_timeranges
    /\ (if negb (Actions.is_valid_timerange timerange) then Some "1day"
        else timerange) = Some t.
Proof.
  destruct (Actions.is_valid_timerange timerange) eqn:V; cbn [negb].
  - destruct timerange as [t|]; [|discriminate].
    exists t; split; [|reflexivity].
    cbn [Actions.is_valid_timerange] in V.
    apply existsb_exists in V as [x [Hx E]].
    apply String.eqb_eq in E; now subst.
  - exists "1day"; split; [cbn; auto | reflexivity].
Qed.

Lemma settled (kw : Actions.kwargs) (cid : string) :
  Actions.settle_chain (Actions.get kw "chain_id") (Actions.get kw "network")
  = Some (cid, Actions.display_name cid) ->
  settled_on kw cid.
Proof.
  intros S; unfold settled_on, Actions.get_gas_price, Actions.get_nft_holdings,
    Actions.get_token_value, Actions.get_token_details,
    Actions.get_token_profitloss, Actions.get_transaction_trace,
    Actions.get_transaction_history; cbv zeta; rewrite S.
  split; [reflexivity|].
  split; [now intros ->|].
  split; [now intros ->|].
  split; [now intros ->|].
  split.
  { intros ->; cbn [negb].
    destruct (timerange_settled (Actions.get_default kw "timerange" "1day"))
      as [t [Ht ->]].
    exists t; auto. }
  split; [now intros -> ->|].
  now intros ->.
Qed.

(** X10: How an action settles its chain.  A chain id that is given is used as it
    is and the network name is not looked at.  Without one, a network name is
    looked up in the alias table whatever its letter case.  With neither, the
    call goes to chain "1", shown as "Ethereum".  In each case every action
    whose subject is given makes its call on that chain. *)
Theorem chain_settlement (kw : Actions.kwargs) :
  (forall cid,
      Actions.get kw "chain_id" = Some cid -> cid <> "" -> settled_on kw cid)
  /\ (forall n cid,
         Str.truthy (Actions.get kw "chain_id") = false ->
         Actions.get kw "network" = Some n ->
         dict_get NETWORK_TO_CHAIN_ID (Str.lower n) = Some cid ->
         settled_on kw cid)
  /\ (Str.truthy (Actions.get kw "chain_id") = false ->
      Str.truthy (Actions.get kw "network") = false ->
      settled_on kw "1" /\ Actions.display_name "1" = "Ethereum").
Proof.
  split; [|split].
  - intros cid E Hc; apply settled; now apply settle_chain_given.
  - intros n cid Tc En D; apply settled; now apply (settle_chain_named _ _ n).
  - intros Tc Tn; split; [|reflexivity].
    apply settled; now apply settle_chain_default.
Qed.

(** X11: A network name that is not an alias of the table, given without a chain
    id, ends every action that settles a chain before any call is made. *)
Theorem unknown_network_is_refused (kw : Actions.kwargs) (n : string) :
  Str.truthy (Actions.get kw "chain_id") = false ->
  Actions.get kw "network" = Some n ->
  n <> "" ->
  dict_get NETWORK_TO_CHAIN_ID (Str.lower n) = None ->
  all_refused kw.
Proof.
  intros Tc En Hn D.
  pose proof (settle_chain_unknown _ _ n Tc En Hn D) as S.
  unfold all_refused, Actions.get_gas_price, Actions.get_nft_holdings,
    Actions.get_token_value, Actions.get_token_details,
    Actions.get_token_profitloss, Actions.get_transaction_trace,
    Actions.get_transaction_history; cbv zeta; rewrite S.
  repeat split;
    repeat match goal with
           | |- context [if ?b then _ else _] => destruct b
           end; reflexivity.
Qed.

Lemma unknown_network_is_refused_witness :
  let kw := [("token_address", Some sample_address);
             ("network", Some "Solana")] in
  Actions.get kw "network" = Some "Solana"
  /\ dict_get NETWORK_TO_CHAIN_ID (Str.lower "Solana") = None
  /\ all_refused kw.
Proof.
  cbv zeta.
  refine (conj eq_refl (conj eq_refl
            (unknown_network_is_refused _ "Solana" _ _ _ _)));
    [reflexivity | reflexivity | discriminate | reflexivity].
Defined.

(* ================================================================== *)
(** ** From the chat loop to the action *)

Lemma detect_all_inv (user_input : string) (d : Chat.detections) :
  Chat.detect_all user_input = Ok d ->
  detect_gas_price_query user_input = Ok (Chat.network d)
  /\ detect_nft_holdings_query user_input
     = Ok (Chat.nft_wallet_address d, Chat.nft_network d)
  /\ detect_spot_price_query user_input
     = Ok (Chat.currency d, Chat.spot_network d)
  /\ detect_token_value_query user_input
     = Ok (Chat.token_address d, Chat.token_network d)
  /\ detect_token_details_query user_input
     = Ok (Chat.details_token_address d, Chat.details_token_network d)
  /\ detect_token_profitloss_query user_input
     = Ok (Chat.profitloss_token_address d, Chat.profitloss_token_network d,
           Chat.profitloss_timerange d)
  /\ detect_transaction_trace_query user_input
     = Ok (Chat.tx_hash d, Chat.block_number d, Chat.tx_network d)
  /\ detect_transaction_history_query user_input
     = Ok (Chat.wallet_address d, Chat.history_network d).
Proof.
  unfold Chat.detect_all.
  destruct (detect_gas_price_query user_input) as [g|]; [|discriminate].
  destruct (detect_nft_holdings_query user_input) as [[? ?]|]; [|discriminate].
  destruct (detect_spot_price_query user_input) as [[? ?]|]; [|discriminate].
  destruct (detect_token_value_query user_input) as [[? ?]|]; [|discriminate].
  destruct (detect_token_details_query user_input) as [[? ?]|];
    [|discriminate].
  destruct (detect_token_profitloss_query user_input) as [[[? ?] ?]|];
    [|discriminate].
  destruct (detect_transaction_trace_query user_input) as [[[? ?] ?]|];
    [|discriminate].
  destruct (detect_transaction_history_query user_input) as [[? ?]|];
    [|discriminate].
  cbn [bind]; intros [= <-]; cbn; repeat split.
Qed.

Lemma not_truthy_None (P : Prop) : Str.truthy None = true -> P.
Proof. discriminate. Qed.

Lemma detect_all_groups (user_input : string) (d : Chat.detections) :
  Chat.detect_all user_input = Ok d ->
  groups_ok (extract_network user_input) (extract_timerange user_input) d.
Proof.
  intros D; apply detect_all_inv in D
    as (G & N & S & V & Dt & P & T & H).
  unfold groups_ok.
  split; [|split; [|split; [|split; [|split; [|split; [|split]]]]]].
  - destruct (gas_shape user_input) as [E | E]; rewrite E in G;
      injection G as <-; [apply not_truthy_None | reflexivity].
  - destruct (nft_shape user_input) as [E | [? E]]; rewrite E in N;
      injection N as <- <-; [apply not_truthy_None | reflexivity].
  - revert S; unfold detect_spot_price_query.
    destruct (any_found price_patterns _); cbn [negb];
      [|intros [= <- _]; apply not_truthy_None].
    destruct (find _ currencies) as [code|] eqn:F; intros [= <- <-] _;
      (split; [reflexivity|]).
    + exists code; split; [reflexivity|]. now apply find_some in F as [F _].
    + exists "USD"; split; [reflexivity | cbn; auto].
  - destruct (value_shape user_input) as [E | [? E]]; rewrite E in V;
      injection V as <- <-; [apply not_truthy_None | reflexivity].
  - destruct (details_shape user_input) as [E | [? E]]; rewrite E in Dt;
      injection Dt as <- <-; [apply not_truthy_None | reflexivity].
  - destruct (profitloss_shape user_input) as [E | [? E]]; rewrite E in P;
      injection P as <- <- <-; [apply not_truthy_None | now split].
  - destruct (trace_shape user_input) as [E | [? [? E]]]; rewrite E in T;
      injection T as <- _ <-; [apply not_truthy_None | reflexivity].
  - destruct (history_shape user_input) as [E | [? E]]; rewrite E in H;
      injection H as <- <-; [apply not_truthy_None | reflexivity].
Qed.

Lemma disambiguate_groups (user_input net range : string)
    (d : Chat.detections) :
  groups_ok net range d ->
  groups_ok net range (Chat.disambiguate user_input d).
Proof.
  intros (G & N & S & V & Dt & P & T & H).
  destruct (only_clears user_input d)
    as (K & E1 & E2 & E3 & E4 & E5 & E6 & E7 & E8 & E9 & E10).
  unfold groups_ok; rewrite E1, E2, E3, E4, E5, E6, E8, E9, E10.
  split; [|split; [|split; [|split; [|split; [|split; [|split]]]]]]; auto.
  - destruct (K Value) as [[Ea En] | [Ea _]]; cbn in *;
      [rewrite Ea, En; exact V | rewrite Ea; apply not_truthy_None].
  - destruct (K Details) as [[Ea En] | [Ea _]]; cbn in *;
      [rewrite Ea, En; exact Dt | rewrite Ea; apply not_truthy_None].
  - destruct (K ProfitLoss) as [[Ea [En Er]] | [Ea _]]; cbn in *;
      [rewrite Ea, En, Er; exact P | rewrite Ea; apply not_truthy_None].
Qed.

Lemma select_tool_guard (d : Chat.detections) (api_tools : bool)
    (t : Chat.tool) :
  Chat.select_tool d api_tools = Some t -> guard t d.
Proof.
  unfold Chat.select_tool.
  repeat match goal with
         | |- context [if ?b then _ else _] =>
             destruct b eqn:?; [intros [= <-]|]
         end; try discriminate;
    repeat match goal with
           | H : _ && _ = true |- _ => apply andb_true_iff in H as [? ?]
           end; cbn; auto.
Qed.

Lemma turn_inv (user_input : string) (api_tools : bool)
    (d : Chat.detections) (t : option Chat.tool) :
  Chat.turn user_input api_tools = Ok (d, t) ->
  exists d0,
    Chat.detect_all user_input = Ok d0
    /\ d = Chat.disambiguate user_input d0
    /\ t = Chat.select_tool d api_tools.
Proof.
  unfold Chat.turn.
  destruct (Chat.detect_all user_input) as [d0|]; [|discriminate].
  cbn [bind]; intros [= <- <-]; eauto.
Qed.

Lemma table_chain_shown (k cid : string) :
  dict_get NETWORK_TO_CHAIN_ID k = Some cid ->
  exists net,
    Actions.first_alias cid = Some net
    /\ dict_get NETWORK_TO_CHAIN_ID net = Some cid.
Proof.
  cbn [NETWORK_TO_CHAIN_ID dict_get].
  repeat (destruct (String.eqb _ k);
          [intros [= <-]; eexists; split; reflexivity|]).
  discriminate.
Qed.

Lemma currency_upper (code : string) :
  In code currencies -> Actions.upper code = code.
Proof.
  cbn; intros H.
  repeat (destruct H as [<- | H]; [reflexivity|]); contradiction.
Qed.

Lemma extract_timerange_valid (text : string) :
  Actions.is_valid_timerange (Some (extract_timerange text)) = true.
Proof.
  unfold extract_timerange.
  destruct (find _ timerange_patterns) as [[p v]|] eqn:F; [|reflexivity].
  apply find_some in F as [Hin _].
  unfold timerange_patterns in Hin; cbn [In] in Hin.
  repeat (destruct Hin as [Hin | Hin];
          [injection Hin as _ <-; reflexivity|]).
  contradiction.
Qed.

(** X12: Whenever a turn of the chat loop selects a tool, the keyword arguments it
    builds never make the lookup of the chain id raise, the action registered
    under the name it uses does not refuse them, and the one request the
    action makes carries what the matchers found: the subject as detected, the
    time range as detected, and the chain id the alias table gives for the
    network read from the message.  The trace request carries the hash and
    the block number only. *)
Theorem selected_tool_is_served (user_input : string) (api_tools : bool)
    (d : Chat.detections) (t : Chat.tool) :
  Chat.turn user_input api_tools = Ok (d, Some t) ->
  exists chain,
    dict_get NETWORK_TO_CHAIN_ID (extract_network user_input) = Some chain
    /\ exists name kw action,
         ChatTools.tool_call t d = Ok (name, kw)
         /\ ChatTools.registered name = Some action
         /\ action kw
            = Ok (Actions.Call (Actions.display_name chain) name
                    (expected_params t d chain)).
Proof.
  intros Turn; apply turn_inv in Turn as (d0 & D & -> & Sel).
  symmetry in Sel; apply select_tool_guard in Sel.
  pose proof (disambiguate_groups user_input _ _ _
                (detect_all_groups _ _ D)) as Gr.
  set (d := Chat.disambiguate user_input d0) in *; clearbody d.
  destruct Gr as (G & N & S & V & Dt & P & T & H).
  destruct (key_has_chain _ (extract_network_is_key user_input))
    as [L [chain C]].
  assert (Hc : Server.chain_id_of (Some (extract_network user_input))
               = Ok chain).
  { unfold Server.chain_id_of, dict_get_default; now rewrite L, C. }
  assert (Tc : chain <> "").
  { pose proof (table_values_truthy _ _ C) as X.
    now apply truthy_inv in X as [? [[= <-] ?]]. }
  exists chain; split; [exact C|].
  destruct t; cbn [guard] in Sel; cbn [ChatTools.tool_call expected_params].
  - (* gas price *)
    do 3 eexists; split; [reflexivity|]. split; [reflexivity|].
    cbv beta; f_equal; unfold Actions.get_gas_price; cbv zeta.
    rewrite (settle_chain_named _ _ (extract_network user_input) chain);
      [reflexivity | reflexivity | exact (G Sel) | now rewrite L].
  - (* NFT holdings *)
    do 3 eexists; split; [reflexivity|]. split; [reflexivity|].
    cbv beta; f_equal; unfold Actions.get_nft_holdings; cbv zeta.
    rewrite (settle_chain_named _ _ (extract_network user_input) chain);
      [| reflexivity | exact (N Sel) | now rewrite L].
    change (Actions.get _ "wallet_address") with (Chat.nft_wallet_address d).
    now rewrite Sel.
  - (* spot price *)
    destruct (S Sel) as [-> [code [Ec Hcode]]]; rewrite Hc; cbn [bind].
    do 3 eexists; split; [reflexivity|]. split; [reflexivity|].
    unfold Actions.get_spot_price.
    change (Actions.get_default _ "currency" "USD") with (Chat.currency d).
    change (Actions.get_default _ "chain_id" "1") with (Some chain).
    rewrite Ec, (currency_upper _ Hcode); cbn [bind].
    unfold Actions.display_name.
    now destruct (table_chain_shown _ _ C) as [net [-> _]].
  - (* token value *)
    rewrite (V Sel), Hc; cbn [bind].
    do 3 eexists; split; [reflexivity|]. split; [reflexivity|].
    cbv beta; f_equal; unfold Actions.get_token_value; cbv zeta.
    change (Actions.get _ "token_address") with (Chat.token_address d).
    rewrite Sel, (settle_chain_given _ _ chain eq_refl Tc); reflexivity.
  - (* token details *)
    rewrite (Dt Sel), Hc; cbn [bind].
    do 3 eexists; split; [reflexivity|]. split; [reflexivity|].
    cbv beta; f_equal; unfold Actions.get_token_details; cbv zeta.
    change (Actions.get _ "token_address")
      with (Chat.details_token_address d).
    rewrite Sel, (settle_chain_given _ _ chain eq_refl Tc); reflexivity.
  - (* token profit and loss *)
    destruct (P Sel) as [En Er]; rewrite En, Hc; cbn [bind].
    do 3 eexists; split; [reflexivity|]. split; [reflexivity|].
    cbv beta; f_equal; unfold Actions.get_token_profitloss; cbv zeta.
    change (Actions.get _ "token_address")
      with (Chat.profitloss_token_address d).
    change (Actions.get_default _ "timerange" "1day")
      with (Chat.profitloss_timerange d).
    rewrite Sel, (settle_chain_given _ _ chain eq_refl Tc), Er,
      extract_timerange_valid; reflexivity.
  - (* transaction trace *)
    destruct Sel as [Th Tb]; rewrite (T Th), Hc; cbn [bind].
    do 3 eexists; split; [reflexivity|]. split; [reflexivity|].
    cbv beta; f_equal; unfold Actions.get_transaction_trace; cbv zeta.
    change (Actions.get _ "tx_hash") with (Chat.tx_hash d).
    change (Actions.get _ "block_number") with (Chat.block_number d).
    rewrite Th, Tb, (settle_chain_given _ _ chain eq_refl Tc); reflexivity.
  - (* transaction history *)
    rewrite (H Sel), Hc; cbn [bind].
    do 3 eexists; split; [reflexivity|]. split; [reflexivity|].
    cbv beta; f_equal; unfold Actions.get_transaction_history; cbv zeta.
    change (Actions.get _ "wallet_address") with (Chat.wallet_address d).
    rewrite Sel, (settle_chain_given _ _ chain eq_refl Tc); reflexivity.
Qed.

Lemma selected_tool_is_served_witness :
  let text := "show the profit of " ++ sample_address
              ++ " on polygon over 30 days" in
  let d := Chat.Detections None None None None None None None None None
             (Some sample_address) (Some "polygon") (Some "30day")
             None None None None None in
  Chat.turn text true = Ok (d, Some Chat.TokenProfitLoss)
  /\ exists chain,
       dict_get NETWORK_TO_CHAIN_ID (extract_network text) = Some chain
       /\ exists name kw action,
            ChatTools.tool_call Chat.TokenProfitLoss d = Ok (name, kw)
            /\ ChatTools.registered name = Some action
            /\ action kw
               = Ok (Actions.Call (Actions.display_name chain) name
                       (expected_params Chat.TokenProfitLoss d chain)).
Proof.
  cbv zeta.
  assert (H : Chat.turn ("show the profit of " ++ sample_address
                         ++ " on polygon over 30 days") true
              = Ok (Chat.Detections None None None None None None None None
                      None (Some sample_address) (Some "polygon")
                      (Some "30day") None None None None None,
                    Some Chat.TokenProfitLoss))
    by (vm_compute; reflexivity).
  exact (conj H (selected_tool_is_served _ _ _ _ H)).
Defined.

(* ================================================================== *)
(** ** The prompt built from a conversation *)

Lemma append_nil_r (s : string) : s ++ "" = s.
Proof. induction s as [|c s IH]; cbn; [reflexivity | now rewrite IH]. Qed.

Lemma collect_from (messages : list Ollama.message) :
  forall us assts,
    fold_left
      (fun '(user_messages, assistant_messages) msg =>
         match msg with
         | Ollama.Dict _ content =>
             if Ollama.has_role msg "user"
             then ((user_messages ++ [content])%list, assistant_messages)
             else if Ollama.has_role msg "assistant"
             then (user_messages, (assistant_messages ++ [content])%list)
             else (user_messages, assistant_messages)
         | Ollama.Text s => ((user_messages ++ [s])%list, assistant_messages)
         end)
      messages (us, assts)
    = ((us ++ users messages)%list, (assts ++ assistants messages)%list).
Proof.
  induction messages as [|msg rest IH]; intros us assts; cbn [fold_left].
  - cbn; now rewrite !app_nil_r.
  - destruct msg as [r c | s]; cbn [users assistants speaker].
    + destruct (Ollama.has_role (Ollama.Dict r c) "user");
        [rewrite IH, <- app_assoc; reflexivity|].
      destruct (Ollama.has_role (Ollama.Dict r c) "assistant");
        rewrite IH; [rewrite <- app_assoc|]; reflexivity.
    + rewrite IH, <- app_assoc; reflexivity.
Qed.

Lemma collect_spec (messages : list Ollama.message) :
  Ollama.collect messages = (users messages, assistants messages).
Proof. unfold Ollama.collect; now rewrite collect_from. Qed.

Lemma round_shift (u : string) (us assts : list string) (prompt : string)
    (i : nat) :
  Ollama.round (u :: us) assts prompt (S i)
  = Ollama.round us (tl assts) prompt i.
Proof. destruct assts as [|a assts]; reflexivity. Qed.

Lemma rounds_shift (u : string) (us assts : list string) (l : list nat) :
  forall prompt,
    fold_left (Ollama.round (u :: us) assts) (map S l) prompt
    = fold_left (Ollama.round us (tl assts)) l prompt.
Proof.
  induction l as [|i l IH]; intros prompt; cbn [map fold_left];
    [reflexivity | now rewrite round_shift, IH].
Qed.

Lemma rounds_paired (us : list string) :
  forall assts prompt,
    List.length assts <= List.length us ->
    fold_left (Ollama.round us assts) (seq 0 (List.length us)) prompt
    = prompt ++ paired_lines us assts.
Proof.
  induction us as [|u us IH]; intros assts prompt Len.
  - cbn; now rewrite append_nil_r.
  - cbn [List.length seq fold_left]; rewrite <- seq_shift, rounds_shift.
    destruct assts as [|a assts]; cbn [tl paired_lines].
    + rewrite IH by (cbn; lia).
      unfold Ollama.round; cbn [List.length Nat.ltb Nat.leb nth].
      now rewrite !append_assoc.
    + rewrite IH by (cbn in Len; lia).
      unfold Ollama.round; cbn [List.length Nat.ltb Nat.leb nth].
      now rewrite !append_assoc.
Qed.

Lemma turns_spec (messages : list Ollama.message) :
  (takes_turns true messages = true ->
   transcript messages = paired_lines (users messages) (assistants messages)
   /\ List.length (users messages)
      = (if awaits_reply false messages then 1 else 0)
        + List.length (assistants messages))
  /\ (takes_turns false messages = true ->
      (forall u,
          "User: " ++ u ++ "
" ++ transcript messages
          = paired_lines (u :: users messages) (assistants messages))
      /\ List.length (assistants messages)
         = (if awaits_reply true messages then 0 else 1)
           + List.length (users messages)).
Proof.
  induction messages as [|msg rest [IHt IHf]].
  - split; intros _; cbn; auto.
  - destruct msg as [r c | s];
      cbn [takes_turns awaits_reply transcript users assistants speaker].
    + destruct (Ollama.has_role (Ollama.Dict r c) "user"); cbn [Bool.eqb andb].
      { split; [|discriminate].
        intros T; destruct (IHf T) as [E L]; split; [apply E|].
        cbn [List.length]; destruct (awaits_reply true rest); lia. }
      destruct (Ollama.has_role (Ollama.Dict r c) "assistant");
        cbn [Bool.eqb andb negb]; [|now split].
      split; [discriminate|].
      intros T; destruct (IHt T) as [E L]; split.
      * intros u; cbn [paired_lines]; now rewrite E.
      * cbn [List.length]; destruct (awaits_reply false rest); lia.
    + cbn [Bool.eqb andb]; split; [|discriminate].
      intros T; destruct (IHf T) as [E L]; split; [apply E|].
      cbn [List.length]; destruct (awaits_reply true rest); lia.
Qed.

(** X13: When the user and the assistant take turns, starting with the user, the
    prompt is the conversation written out in the order of the messages, with
    the system messages left out, followed by "Assistant: " when the last
    speaker is the user. *)
Theorem prompt_is_transcript (messages : list Ollama.message) :
  takes_turns true messages = true ->
  Ollama.chat_prompt messages
  = transcript messages
    ++ (if awaits_reply false messages then "Assistant: " else "").
Proof.
  intros T; destruct (proj1 (turns_spec messages) T) as [E L].
  unfold Ollama.chat_prompt; rewrite collect_spec.
  assert (Len : List.length (assistants messages)
                <= List.length (users messages))
    by (destruct (awaits_reply false messages); lia).
  rewrite (Nat.max_l _ _ Len), (rounds_paired _ _ _ Len), <- E.
  cbn [append].
  destruct (awaits_reply false messages).
  - now replace (_ <? _)%nat with true by (symmetry; apply Nat.ltb_lt; lia).
  - replace (_ <? _)%nat with false by (symmetry; apply Nat.ltb_ge; lia).
    now rewrite append_nil_r.
Qed.

Lemma prompt_is_transcript_witness :
  let messages :=
    [Ollama.Dict (Some "system") "You are Franky.";
     Ollama.Dict (Some "user") "hi";
     Ollama.Dict (Some "assistant") "hello";
     Ollama.Dict (Some "system") "CRITICAL INSTRUCTION";
     Ollama.Dict (Some "user") "gas price?"] in
  takes_turns true messages = true
  /\ Ollama.chat_prompt messages
     = transcript messages
       ++ (if awaits_reply false messages then "Assistant: " else "").
Proof.
  cbv zeta.
  refine (conj eq_refl (prompt_is_transcript _ _)); reflexivity.
Defined.

(* ================================================================== *)
(** ** The [/api-tools] endpoints *)

Lemma process_route (perform_action : Server.request -> bool)
    (query : string)
    (later : list (string -> result (option Server.request))) :
  forall first,
    (forall step, In step (first ++ later)%list ->
                  exists o, step query = Ok o) ->
    exists o,
      Endpoints.process_from first query = Ok o
      /\ match o with
         | Some req =>
             exists more routed,
               Server.route_from perform_action (first ++ later)%list query []
               = Ok (req :: more, routed)
         | None =>
             Server.route_from perform_action (first ++ later)%list query []
             = Server.route_from perform_action later query []
         end.
Proof.
  induction first as [|step first IH]; intros Runs.
  - exists None; split; reflexivity.
  - cbn [Endpoints.process_from Server.route_from app].
    destruct (Runs step (or_introl eq_refl)) as [o ->]; cbn [bind].
    assert (Runs' : forall s, In s (first ++ later)%list ->
                              exists o, s query = Ok o)
      by (intros s Hs; apply Runs; now right).
    destruct o as [req|]; [|exact (IH Runs')].
    exists (Some req); split; [reflexivity|].
    destruct (perform_action req).
    + now exists [], (Some req).
    + destruct (route_from_first perform_action query _ Runs' ([] ++ [req])%list)
        as [new [routed [E _]]].
      exists new, routed; exact E.
Qed.

(** X14: the [/api-tools/process] endpoint answers 400 when no agent is
    loaded and 500 when it is given no parameter.  On a query, the matchers
    and the chain lookups never raise; the endpoint makes at most one call,
    which is the first call the chat endpoint makes for the same message, and
    it returns the answer of that call, or fails with 500 when the call
    raises.  When it detects nothing it makes no call, and the chat endpoint
    can only go on to the profit-loss, the spot-price or the
    transaction-history call. *)
Theorem process_makes_first_chat_call (R : Type)
    (agent_perform_action : Server.request -> option R)
    (perform_action : Server.request -> bool) (query : string)
    (rest : list string) :
  (forall params,
      Endpoints.process_api_tools_request false agent_perform_action params
      = Endpoints.Raised (Endpoints.HTTPException 400))
  /\ Endpoints.process_api_tools_request true agent_perform_action []
     = Endpoints.Raised (Endpoints.HTTPException 500)
  /\ ((exists req more routed,
          Server.route perform_action query = Ok (req :: more, routed)
          /\ Endpoints.process_api_tools_request true agent_perform_action
               (query :: rest)
             = match agent_perform_action req with
               | Some answer => Endpoints.Return (Some (req, answer))
               | None => Endpoints.Raised (Endpoints.HTTPException 500)
               end)
      \/ (Endpoints.process_api_tools_request true agent_perform_action
            (query :: rest)
          = Endpoints.Return None
          /\ forall calls routed req,
               Server.route perform_action query = Ok (calls, routed) ->
               In req calls ->
               In (Server.action_name req)
                  ["get-token-profitloss"; "get-spot-price";
                   "get-transaction-history"])).
Proof.
  split; [reflexivity|]. split; [reflexivity|].
  destruct (chain_id_of_extract query) as [chain [_ Hc]].
  assert (Runs : forall step, In step Server.steps ->
                              exists o, step query = Ok o).
  { intros step Hs.
    destruct (step_runs query chain step Hc Hs) as [-> | [req [-> _]]]; eauto. }
  destruct (process_route perform_action query
              [ Server.profitloss_step;
                Server.keyed_step detect_spot_price_query "get-spot-price";
                Server.keyed_step detect_transaction_history_query
                  "get-transaction-history" ]
              Endpoints.process_steps Runs) as [o [E Rt]].
  unfold Endpoints.process_api_tools_request; cbn [negb].
  rewrite E; cbn [Endpoints.run].
  destruct o as [req|].
  - left; destruct Rt as [more [routed Rt]].
    exists req, more, routed; split; [exact Rt|].
    now destruct (agent_perform_action req).
  - right; split; [reflexivity|].
    intros calls routed req Rq Hin.
    unfold Server.route in Rq.
    change Server.steps with
      (Endpoints.process_steps
       ++ [ Server.profitloss_step;
            Server.keyed_step detect_spot_price_query "get-spot-price";
            Server.keyed_step detect_transaction_history_query
              "get-transaction-history" ])%list in Rq.
    rewrite Rt in Rq.
    destruct (route_from_calls _ _ _ _ _ _ Rq req Hin) as [[] | [step [Hs Es]]].
    cbn [In] in Hs; destruct Hs as [<- | [<- | [<- | []]]].
    + apply profitloss_step_action in Es; rewrite Es; cbn; auto.
    + apply keyed_step_action in Es; rewrite Es; cbn; auto.
    + apply keyed_step_action in Es; rewrite Es; cbn; auto.
Qed.

Lemma trace_hash_leftmost (text h : string) (b net : option string) :
  detect_transaction_trace_query text = Ok (Some h, b, net) ->
  leftmost_token 64 text h.
Proof.
  unfold detect_transaction_trace_query; scan_tokens.
  destruct (block_number_ok text) as [bn ->].
  destruct (any_found trace_patterns _), (first_token 64 text) eqn:E; cbn;
    try discriminate; intros [= <- _ _]; now apply first_token_leftmost.
Qed.

Lemma token_length (n : nat) (text a : string) :
  leftmost_token n text a -> 2 + n <= String.length text.
Proof.
  intros [pre [post [-> [[h [-> [Hl _]]] _]]]].
  rewrite !length_append; cbn [String.length]; lia.
Qed.

Lemma isdigit_digits (b : string) :
  1 <= String.length b -> Str.all Str.is_digit b = true ->
  Endpoints.isdigit b = true.
Proof.
  intros L D; unfold Endpoints.isdigit; rewrite D.
  destruct b; [cbn in L; lia | reflexivity].
Qed.

(** X15: on ASCII text, a query in which the trace matcher finds a hash and
    a block number is always longer than the 50 characters the trace
    endpoint asks of a query in natural language.  When the block number has
    at most 4300 digits, the endpoint makes for the query the very call the
    chat endpoint makes, and answers with it when the call gives a result.
    A block number of more digits is refused by [int()], and the endpoint
    fails with 500 without a call. *)
Theorem trace_endpoint_serves_detected_query
    (perform_action : list (option string) -> bool) (query : string)
    (req : Server.request) :
  is_ascii query = true ->
  Server.trace_step query = Ok (Some req) ->
  exists h b chain,
    Server.params req = [h; b; chain]
    /\ 50 < String.length query
    /\ (String.length b <= 4300 ->
        Endpoints.get_transaction_trace perform_action [query]
        = if perform_action (map Some (Server.params req))
          then Endpoints.Return (map Some (Server.params req))
          else Endpoints.Raised (Endpoints.HTTPException 500))
    /\ (4300 < String.length b ->
        Endpoints.get_transaction_trace perform_action [query]
        = Endpoints.Raised (Endpoints.HTTPException 500)).
Proof.
  intros _; unfold Server.trace_step.
  destruct (detect_transaction_trace_query query) as [[[h b] net]|e] eqn:D;
    cbn [bind]; [|discriminate].
  destruct (Str.truthy h) eqn:Th; [|discriminate].
  destruct (Str.truthy b) eqn:Tb; [|discriminate].
  cbn [andb].
  destruct (Server.chain_id_of net) as [chain|e] eqn:C; cbn [bind];
    [|discriminate].
  intros [= <-].
  destruct h as [h|]; [|discriminate Th].
  destruct b as [b|]; [|discriminate Tb].
  exists h, b, chain; cbn [Server.text_of Server.params map].
  split; [reflexivity|].
  assert (Len : 50 < String.length query).
  { pose proof D as D'; apply trace_hash_leftmost, token_length in D'; lia. }
  split; [exact Len|].
  assert (Dg : Endpoints.isdigit b = true).
  { pose proof D as D'; apply block_number_digits in D' as [L [Dg _]].
    now apply isdigit_digits. }
  unfold Endpoints.get_transaction_trace, Endpoints.trace_arguments.
  apply Nat.ltb_lt in Len; rewrite Len, D, Th, Tb, C.
  cbn [negb orb].
  unfold Endpoints.convert_block_number, Endpoints.int_raises,
    Endpoints.int_max_str_digits; rewrite Dg; cbn [andb].
  split; intros B.
  - replace (_ <? _)%nat with false by (symmetry; apply Nat.ltb_ge; exact B).
    unfold Endpoints.call_trace; now destruct (perform_action _).
  - replace (_ <? _)%nat with true by (symmetry; apply Nat.ltb_lt; exact B).
    reflexivity.
Qed.

Lemma trace_endpoint_serves_detected_query_witness :
  let query := "trace tx " ++ sample_hash ++ " in block 18500000 on polygon" in
  let req := Server.Request "get-transaction-trace"
               [sample_hash; "18500000"; "137"] in
  is_ascii query = true
  /\ Server.trace_step query = Ok (Some req)
  /\ 50 < String.length query
  /\ Endpoints.get_transaction_trace (fun _ => true) [query]
     = Endpoints.Return [Some sample_hash; Some "18500000"; Some "137"].
Proof.
  cbv zeta.
  assert (A : is_ascii ("trace tx " ++ sample_hash
                        ++ " in block 18500000 on polygon") = true)
    by (vm_compute; reflexivity).
  assert (H : Server.trace_step
                ("trace tx " ++ sample_hash ++ " in block 18500000 on polygon")
              = Ok (Some (Server.Request "get-transaction-trace"
                            [sample_hash; "18500000"; "137"])))
    by (vm_compute; reflexivity).
  destruct (trace_endpoint_serves_detected_query (fun _ => true) _ _ A H)
    as (h & b & chain & Ep & Len & Short & _).
  injection Ep as _ <- _.
  assert (B : String.length "18500000" <= 4300)
    by (apply Nat.leb_le; vm_compute; reflexivity).
  exact (conj A (conj H (conj Len (Short B)))).
Defined.

(** X16: The trace endpoints never answer with status 400: the errors their
    bodies raise as 400 ("Parameters required", "Could not extract ...",
    "API Tools connection is not configured") are caught by the handlers
    around them and leave as 500, as does a call without result.  Whatever
    they return is the parameter list of a call that gave a result.  A single
    parameter of at most 50 characters is not read at all: the call is made
    without hash and block number, on chain "1". *)
Theorem trace_endpoints_fail_with_500
    (perform_action : list (option string) -> bool) :
  (forall params,
      Endpoints.get_transaction_trace perform_action params
      = Endpoints.Raised (Endpoints.HTTPException 500)
      \/ exists call,
           Endpoints.get_transaction_trace perform_action params
           = Endpoints.Return call
           /\ perform_action call = true)
  /\ (forall is_configured tx_hash block_number network,
         Endpoints.get_transaction_trace_direct is_configured perform_action
           tx_hash block_number network
         = Endpoints.Raised (Endpoints.HTTPException 500)
         \/ (is_configured = true
             /\ exists chain_id,
                  Endpoints.get_transaction_trace_direct is_configured
                    perform_action tx_hash block_number network
                  = Endpoints.Return
                      [Some tx_hash; Some block_number; Some chain_id]
                  /\ perform_action
                       [Some tx_hash; Some block_number; Some chain_id]
                     = true))
  /\ (forall p,
         String.length p <= 50 ->
         Endpoints.get_transaction_trace perform_action [p]
         = if perform_action [None; None; Some "1"]
           then Endpoints.Return [None; None; Some "1"]
           else Endpoints.Raised (Endpoints.HTTPException 500)).
Proof.
  split; [|split].
  - intros params; unfold Endpoints.get_transaction_trace.
    destruct (Endpoints.trace_arguments params) as [[[h b] chain]|r];
      [|now left].
    destruct (Endpoints.convert_block_number b) as [[]|r]; [|now left].
    unfold Endpoints.call_trace.
    destruct (perform_action _) eqn:P; [right | now left].
    eexists; split; [reflexivity | exact P].
  - intros is_configured tx_hash block_number network.
    unfold Endpoints.get_transaction_trace_direct; cbv zeta.
    destruct is_configured; [|now left]; cbn [negb].
    destruct (perform_action _) eqn:P; [right | now left].
    split; [reflexivity|]. eexists; split; [reflexivity | exact P].
  - intros p Len.
    unfold Endpoints.get_transaction_trace, Endpoints.trace_arguments.
    replace (50 <? String.length p)%nat with false
      by (symmetry; apply Nat.ltb_ge; lia).
    cbn [Endpoints.convert_block_number].
    unfold Endpoints.call_trace; now destruct (perform_action _).
Qed.

(* ================================================================== *)
(** ** The reply after correction *)

Lemma lower_append (a b : string) :
  Str.lower (a ++ b) = Str.lower a ++ Str.lower b.
Proof. induction a as [|c a IH]; cbn; [reflexivity | now rewrite IH]. Qed.

Lemma keyword_in_correction (response what template kw : string) :
  Str.contains kw (Str.lower what) = true ->
  Str.contains kw (Str.lower (Reply.with_correction response what template))
  = true.
Proof.
  rewrite !contains_spec; intros [pre [post E]].
  unfold Reply.with_correction; rewrite !lower_append, E.
  match goal with
  | |- exists pre' post',
         ?a ++ ?b ++ (pre ++ kw ++ post) ++ ?c ++ ?d = _ =>
      exists (a ++ b ++ pre), (post ++ c ++ d)
  end.
  now rewrite !append_assoc.
Qed.

Lemma amend_prefix (contains : bool) (what : string) (l : Reply.locals)
    (response : string) :
  exists suffix, Reply.amend contains what l response = response ++ suffix.
Proof.
  unfold Reply.amend, Reply.with_correction.
  destruct (Reply.template_response l) as [t|]; [destruct contains|];
    cbn [negb].
  - exists ""; now rewrite append_nil_r.
  - eexists; reflexivity.
  - exists ""; now rewrite append_nil_r.
Qed.

Lemma nonempty_append (a b : string) : a <> "" -> a ++ b <> "".
Proof. destruct a; [contradiction | discriminate]. Qed.

Lemma amend_truthy (contains : bool) (what : string) (l : Reply.locals)
    (response : string) :
  response <> "" ->
  Str.truthy (Some (Reply.amend contains what l response)) = true.
Proof.
  intros Hr; destruct (amend_prefix contains what l response) as [suffix ->].
  now apply truthy_Some, nonempty_append.
Qed.

Lemma amend_settles (mention : string -> bool) (keywords : list string)
    (what kw : string) (l : Reply.locals) (response : string) :
  In kw keywords ->
  Str.contains kw (Str.lower what) = true ->
  Reply.amend
    (Reply.contains_data
       (mention (Reply.amend
                   (Reply.contains_data (mention response) keywords response)
                   what l response))
       keywords
       (Reply.amend (Reply.contains_data (mention response) keywords response)
          what l response))
    what l
    (Reply.amend (Reply.contains_data (mention response) keywords response)
       what l response)
  = Reply.amend (Reply.contains_data (mention response) keywords response)
      what l response.
Proof.
  intros Hin Hkw; unfold Reply.amend.
  destruct (Reply.template_response l) as [t|]; [|reflexivity].
  destruct (Reply.contains_data (mention response) keywords response) eqn:C;
    cbn [negb]; [now rewrite C|].
  unfold Reply.contains_data at 1.
  rewrite (any_keyword_intro keywords kw _ Hin
             (keyword_in_correction response what t kw Hkw)).
  now rewrite orb_true_r.
Qed.

Ltac amended_branch mention keywords what kw Hr :=
  do 2 eexists; split; [reflexivity|];
  split; [apply amend_prefix|];
  split; [unfold Reply.amend; now intros ->|];
  split; [reflexivity|];
  rewrite (amend_truthy _ _ _ _ Hr); cbn [negb fst]; f_equal;
  apply (amend_settles mention keywords what kw); [cbn; auto 12 | reflexivity].

(** X17: Outside the NFT branch the reply of the model is never lost: what is
    appended to the history is the reply itself, or the reply followed by a
    correction, and it is the reply itself when no template is at hand.  The
    correction settles the matter: its opening sentence holds one of the
    keywords the branch looks for, so that the corrected reply, checked
    again, is left as it is. *)
Theorem reply_correction_settles (d : Chat.detections) (api_tools : bool)
    (l : Reply.locals) (response : string) :
  response <> "" ->
  Chat.select_tool d api_tools <> Some Chat.NftHoldings ->
  exists reply l',
    Reply.correct d api_tools l response = (Some reply, l')
    /\ (exists suffix, reply = response ++ suffix)
    /\ (Reply.template_response l = None -> reply = response)
    /\ Reply.template_response l' = Reply.template_response l
    /\ fst (Reply.correct d api_tools l' reply) = Some reply.
Proof.
  intros Hr Hn.
  unfold Reply.correct; rewrite (truthy_Some _ Hr); cbn [negb].
  destruct (Chat.select_tool d api_tools) as [[]|]; try contradiction.
  - (* gas price *)
    cbv zeta.
    destruct (Reply.template_response l) as [t|] eqn:Tp.
    + destruct (Reply.contains_data _ Reply.gas_keywords response) eqn:C;
        cbn [negb].
      * do 2 eexists; split; [reflexivity|].
        split; [exists ""; now rewrite append_nil_r|].
        split; [discriminate|]. split; [exact Tp|].
        rewrite Tp, C, (truthy_Some _ Hr); reflexivity.
      * do 2 eexists; split; [reflexivity|].
        split; [unfold Reply.with_correction; eexists; reflexivity|].
        split; [discriminate|]. split; [reflexivity|].
        cbn [Reply.template_response].
        assert (T : Str.truthy
                      (Some (Reply.with_correction response "gas prices" t))
                    = true)
          by (apply truthy_Some, nonempty_append, Hr).
        rewrite T; cbn [negb].
        unfold Reply.contains_data at 1.
        rewrite (any_keyword_intro Reply.gas_keywords "gas" _
                   (or_introl eq_refl)
                   (keyword_in_correction response "gas prices" t "gas"
                      eq_refl)).
        rewrite orb_true_r; reflexivity.
    + do 2 eexists; split; [reflexivity|].
      split; [exists ""; now rewrite append_nil_r|].
      split; [reflexivity|]. split; [exact Tp|].
      rewrite Tp, (truthy_Some _ Hr); reflexivity.
  - amended_branch (Str.contains (Server.text_of (Chat.currency d)))
      Reply.price_keywords "spot prices" "spot" Hr.
  - amended_branch (Str.contains (Server.text_of (Chat.token_address d)))
      Reply.token_keywords "token value information" "token" Hr.
  - amended_branch
      (Str.contains (Server.text_of (Chat.details_token_address d)))
      Reply.details_keywords "token details information" "token" Hr.
  - amended_branch
      (Str.contains (Server.text_of (Chat.profitloss_token_address d)))
      Reply.profitloss_keywords "token profit/loss information" "profit" Hr.
  - amended_branch (Str.contains (Server.text_of (Chat.tx_hash d)))
      Reply.trace_keywords "transaction trace information" "transaction" Hr.
  - amended_branch (Str.contains (Server.text_of (Chat.wallet_address d)))
      Reply.history_keywords "transaction history information" "transaction"
      Hr.
  - (* no tool *)
    do 2 eexists; split; [reflexivity|].
    split; [exists ""; now rewrite append_nil_r|].
    split; [reflexivity|]. split; [reflexivity|].
    rewrite (truthy_Some _ Hr); reflexivity.
Qed.

Lemma reply_correction_settles_witness :
  let d := Chat.Detections None None None None None
             (Some sample_address) (Some "ethereum")
             None None None None None None None None None None in
  let l := Reply.Locals (Some "Total: 5 USD") None None in
  "I cannot tell." <> ""
  /\ Chat.select_tool d true <> Some Chat.NftHoldings
  /\ exists reply l',
       Reply.correct d true l "I cannot tell." = (Some reply, l')
       /\ (exists suffix, reply = "I cannot tell." ++ suffix)
       /\ (Reply.template_response l = None -> reply = "I cannot tell.")
       /\ Reply.template_response l' = Reply.template_response l
       /\ fst (Reply.correct d true l' reply) = Some reply.
Proof.
  cbv zeta.
  assert (Hr : "I cannot tell." <> "") by discriminate.
  assert (Hn : Chat.select_tool
                 (Chat.Detections None None None None None
                    (Some sample_address) (Some "ethereum")
                    None None None None None None None None None None) true
               <> Some Chat.NftHoldings) by discriminate.
  exact (conj Hr (conj Hn (reply_correction_settles _ _ _ _ Hr Hn))).
Defined.

(** X18: In the NFT branch the reply of the model is appended to the history
    only inside a correction made in the same turn, which takes a call that
    found no assets, a reply that does not mention the wallet and a template.
    In every other case what is appended is the corrected reply of an
    earlier turn, and nothing at all when there has been none: so the reply
    to a query whose call found assets is never appended itself. *)
Theorem nft_reply_is_replaced (d : Chat.detections) (api_tools : bool)
    (l : Reply.locals) (response : string) :
  Chat.select_tool d api_tools = Some Chat.NftHoldings ->
  response <> "" ->
  (forall assets,
      Reply.nft_has_assets l = Some assets ->
      assets = true
      \/ Str.contains (Server.text_of (Chat.nft_wallet_address d)) response
         = true
      \/ Reply.template_response l = None ->
      Reply.correct d api_tools l response = (Reply.corrected_response l, l))
  /\ (forall template,
         Reply.nft_has_assets l = Some false ->
         Str.contains (Server.text_of (Chat.nft_wallet_address d)) response
         = false ->
         Reply.template_response l = Some template ->
         fst (Reply.correct d api_tools l response)
         = Some (Reply.with_correction response "NFT data" template))
  /\ (Reply.nft_has_assets l = None ->
      Reply.correct d api_tools l response = (None, l)).
Proof.
  intros Sel Hr; unfold Reply.correct.
  rewrite (truthy_Some _ Hr), Sel; cbn [negb]; cbv zeta.
  split; [|split].
  - intros assets -> H.
    destruct (Reply.template_response l) as [t|]; [|reflexivity].
    destruct H as [-> | [-> | H]]; [| |discriminate].
    + now rewrite orb_true_r.
    + reflexivity.
  - now intros template -> -> ->.
  - now intros ->.
Qed.

Lemma nft_reply_is_replaced_witness :
  let d := Chat.Detections None (Some sample_address) (Some "ethereum")
             None None None None None None None None None None None None
             None None in
  let l := Reply.Locals (Some "NFT #1: Ape") None (Some true) in
  Chat.select_tool d true = Some Chat.NftHoldings
  /\ "You hold one NFT, an Ape." <> ""
  /\ Reply.correct d true l "You hold one NFT, an Ape." = (None, l).
Proof.
  cbv zeta.
  assert (Hs : Chat.select_tool
                 (Chat.Detections None (Some sample_address) (Some "ethereum")
                    None None None None None None None None None None None
                    None None None) true
               = Some Chat.NftHoldings) by reflexivity.
  assert (Hr : "You hold one NFT, an Ape." <> "") by discriminate.
  exact (conj Hs (conj Hr
           (proj1 (nft_reply_is_replaced _ _
                     (Reply.Locals (Some "NFT #1: Ape") None (Some true))
                     _ Hs Hr)
              true eq_refl (or_introl eq_refl)))).
Defined.

(* ================================================================== *)
(** ** The chat loop and the server on the same message *)

Lemma route_all_fail (perform_action : Server.request -> bool)
    (message : string) :
  (forall req, perform_action req = false) ->
  forall todo,
    (forall step, In step todo -> exists o, step message = Ok o) ->
    forall calls,
    exists calls',
      Server.route_from perform_action todo message calls = Ok (calls', None)
      /\ (forall req, In req calls -> In req calls')
      /\ forall step req,
           In step todo -> step message = Ok (Some req) -> In req calls'.
Proof.
  intros Fail; induction todo as [|step todo IH]; intros Runs calls;
    cbn [Server.route_from].
  - exists calls; repeat split; auto. intros step req [].
  - destruct (Runs step (or_introl eq_refl)) as [o E]; rewrite E; cbn [bind].
    assert (Runs' : forall s, In s todo -> exists o, s message = Ok o)
      by (intros s Hs; apply Runs; now right).
    destruct o as [r|].
    + rewrite Fail.
      destruct (IH Runs' (calls ++ [r])%list) as [calls' [R [Keep All]]].
      exists calls'; split; [exact R|]. split.
      * intros req Hin; apply Keep, in_or_app; now left.
      * intros s req [<- | Hs] Es; [|now apply (All s)].
        rewrite E in Es; injection Es as <-.
        apply Keep, in_or_app; right; now left.
    + destruct (IH Runs' calls) as [calls' [R [Keep All]]].
      exists calls'; split; [exact R|]. split; [exact Keep|].
      intros s req [<- | Hs] Es; [|now apply (All s)].
      rewrite E in Es; discriminate.
Qed.

Lemma keyed_step_some
    (detect : string -> result (option string * option string))
    (action message net chain : string) (subject : option string) :
  detect message = Ok (subject, Some net) ->
  Str.truthy subject = true ->
  Server.chain_id_of (Some net) = Ok chain ->
  Server.keyed_step detect action message
  = Ok (Some (Server.Request action [Server.text_of subject; chain])).
Proof.
  intros E T C; unfold Server.keyed_step; rewrite E; cbn [bind].
  now rewrite T, C.
Qed.

Lemma kept_subject (user_input : string) (d0 : Chat.detections)
    (i : token_intent) :
  Str.truthy (subject i (Chat.disambiguate user_input d0)) = true ->
  kept i d0 (Chat.disambiguate user_input d0).
Proof.
  intros T; destruct (only_clears user_input d0) as [K _].
  destruct (K i) as [Kept | Cleared]; [exact Kept|].
  destruct i; cbn in *; destruct Cleared as [C _]; rewrite C in T;
    discriminate T.
Qed.

(** X19: The tool the chat loop selects for a message is one the chat endpoint of
    the server tries for the same message: when no call gives a result, so
    that the ladder of the endpoint runs to its end, one of its calls has the
    action name of the tool and the parameters the tool is served with, the
    chain id added in the case of the trace. *)
Theorem selected_tool_is_on_server_route (message : string) (api_tools : bool)
    (d : Chat.detections) (t : Chat.tool)
    (perform_action : Server.request -> bool) :
  Chat.turn message api_tools = Ok (d, Some t) ->
  (forall req, perform_action req = false) ->
  exists chain name kw calls req,
    dict_get NETWORK_TO_CHAIN_ID (extract_network message) = Some chain
    /\ ChatTools.tool_call t d = Ok (name, kw)
    /\ Server.route perform_action message = Ok (calls, None)
    /\ In req calls
    /\ Server.action_name req = name
    /\ map Some (Server.params req)
       = (expected_params t d chain
          ++ match t with
             | Chat.TransactionTrace => [Some chain]
             | _ => []
             end)%list.
Proof.
  intros Turn Fail; apply turn_inv in Turn as (d0 & D & -> & Sel).
  symmetry in Sel; apply select_tool_guard in Sel.
  pose proof (detect_all_groups _ _ D) as Gr0.
  pose proof (disambiguate_groups message _ _ _ Gr0) as Gr.
  destruct (only_clears message d0)
    as (_ & E1 & E2 & E3 & E4 & E5 & E6 & E7 & E8 & E9 & E10).
  pose proof (kept_subject message d0) as Kept.
  apply detect_all_inv in D as (Dg & Dn & Ds & Dv & Dd & Dp & Dt & Dh).
  destruct (chain_id_of_extract message) as [chain [C Hc]].
  assert (Runs : forall step, In step Server.steps ->
                              exists o, step message = Ok o).
  { intros step Hs.
    destruct (step_runs message chain step Hc Hs) as [-> | [req [-> _]]]; eauto. }
  destruct (route_all_fail perform_action message Fail Server.steps Runs [])
    as [calls [R [_ All]]].
  set (d := Chat.disambiguate message d0) in *.
  destruct Gr as (G & N & S & V & Dtl & P & T & H).
  exists chain.
  destruct t; cbn [guard] in Sel; cbn [ChatTools.tool_call expected_params].
  - (* gas price *)
    exists "get-gas-price", [("network", Chat.network d)], calls,
      (Server.Request "get-gas-price" [chain]).
    repeat split; auto.
    apply (All Server.gas_step); [cbn; auto|].
    unfold Server.gas_step; rewrite Dg, <- E1; cbn [bind].
    now rewrite Sel, (G Sel), Hc.
  - (* NFT holdings *)
    do 2 eexists.
    exists calls, (Server.Request "get-nft-holdings"
                     [Server.text_of (Chat.nft_wallet_address d); chain]).
    split; [exact C|]. split; [reflexivity|]. split; [exact R|]. split.
    + apply (All (Server.keyed_step detect_nft_holdings_query
                    "get-nft-holdings")); [cbn; auto|].
      apply (keyed_step_some _ _ _ (extract_network message));
        [ now rewrite Dn, <- E2, <- E3, (N Sel) | exact Sel | exact Hc ].
    + split; [reflexivity|]. cbn [Server.params map app].
      now rewrite <- (proj1 (truthy_text _ Sel)).
  - (* spot price *)
    destruct (S Sel) as [En _]; rewrite En, Hc; cbn [bind].
    do 2 eexists.
    exists calls, (Server.Request "get-spot-price"
                     [Server.text_of (Chat.currency d); chain]).
    split; [exact C|]. split; [reflexivity|]. split; [exact R|]. split.
    + apply (All (Server.keyed_step detect_spot_price_query
                    "get-spot-price")); [cbn; auto 8|].
      apply (keyed_step_some _ _ _ (extract_network message));
        [ now rewrite Ds, <- E4, <- E5, En | exact Sel | exact Hc ].
    + split; [reflexivity|]. cbn [Server.params map app].
      now rewrite <- (proj1 (truthy_text _ Sel)).
  - (* token value *)
    destruct (Kept Value Sel) as [Ka Kn]; fold d in Ka, Kn.
    rewrite (V Sel), Hc; cbn [bind].
    do 2 eexists.
    exists calls, (Server.Request "get-token-value"
                     [Server.text_of (Chat.token_address d); chain]).
    split; [exact C|]. split; [reflexivity|]. split; [exact R|]. split.
    + apply (All (Server.keyed_step detect_token_value_query
                    "get-token-value")); [cbn; auto 8|].
      apply (keyed_step_some _ _ _ (extract_network message));
        [ now rewrite Dv, <- Ka, <- Kn, (V Sel) | exact Sel | exact Hc ].
    + split; [reflexivity|]. cbn [Server.params map app].
      now rewrite <- (proj1 (truthy_text _ Sel)).
  - (* token details *)
    destruct (Kept Details Sel) as [Ka Kn]; fold d in Ka, Kn.
    rewrite (Dtl Sel), Hc; cbn [bind].
    do 2 eexists.
    exists calls, (Server.Request "get-token-details"
                     [Server.text_of (Chat.details_token_address d); chain]).
    split; [exact C|]. split; [reflexivity|]. split; [exact R|]. split.
    + apply (All (Server.keyed_step detect_token_details_query
                    "get-token-details")); [cbn; auto 8|].
      apply (keyed_step_some _ _ _ (extract_network message));
        [ now rewrite Dd, <- Ka, <- Kn, (Dtl Sel) | exact Sel | exact Hc ].
    + split; [reflexivity|]. cbn [Server.params map app].
      now rewrite <- (proj1 (truthy_text _ Sel)).
  - (* token profit and loss *)
    destruct (Kept ProfitLoss Sel) as [Ka [Kn Kr]]; fold d in Ka, Kn, Kr.
    destruct (P Sel) as [En Er]; rewrite En, Hc; cbn [bind].
    do 2 eexists.
    exists calls, (Server.Request "get-token-profitloss"
                     [Server.text_of (Chat.profitloss_token_address d); chain;
                      Server.text_of (Chat.profitloss_timerange d)]).
    split; [exact C|]. split; [reflexivity|]. split; [exact R|]. split.
    + apply (All Server.profitloss_step); [cbn; auto 8|].
      unfold Server.profitloss_step; rewrite Dp, <- Ka, <- Kn, <- Kr.
      cbn [bind]; now rewrite Sel, En, Hc.
    + split; [reflexivity|]. cbn [Server.params map app].
      rewrite <- (proj1 (truthy_text _ Sel)); now rewrite Er.
  - (* transaction trace *)
    destruct Sel as [Th Tb]; rewrite (T Th), Hc; cbn [bind].
    do 2 eexists.
    exists calls, (Server.Request "get-transaction-trace"
                     [Server.text_of (Chat.tx_hash d);
                      Server.text_of (Chat.block_number d); chain]).
    split; [exact C|]. split; [reflexivity|]. split; [exact R|]. split.
    + apply (All Server.trace_step); [cbn; auto|].
      unfold Server.trace_step; rewrite Dt, <- E6, <- E7, <- E8.
      cbn [bind]; now rewrite Th, Tb, (T Th), Hc.
    + split; [reflexivity|]. cbn [Server.params map app].
      now rewrite <- (proj1 (truthy_text _ Th)),
                  <- (proj1 (truthy_text _ Tb)).
  - (* transaction history *)
    rewrite (H Sel), Hc; cbn [bind].
    do 2 eexists.
    exists calls, (Server.Request "get-transaction-history"
                     [Server.text_of (Chat.wallet_address d); chain]).
    split; [exact C|]. split; [reflexivity|]. split; [exact R|]. split.
    + apply (All (Server.keyed_step detect_transaction_history_query
                    "get-transaction-history")); [cbn; auto 10|].
      apply (keyed_step_some _ _ _ (extract_network message));
        [ now rewrite Dh, <- E9, <- E10, (H Sel) | exact Sel | exact Hc ].
    + split; [reflexivity|]. cbn [Server.params map app].
      now rewrite <- (proj1 (truthy_text _ Sel)).
Qed.

Lemma selected_tool_is_on_server_route_witness :
  let message := "show the profit of " ++ sample_address
                 ++ " on polygon over 30 days" in
  let d := Chat.Detections None None None None None None None None None
             (Some sample_address) (Some "polygon") (Some "30day")
             None None None None None in
  Chat.turn message true = Ok (d, Some Chat.TokenProfitLoss)
  /\ (forall req : Server.request, (fun _ => false) req = false)
  /\ exists chain name kw calls req,
       dict_get NETWORK_TO_CHAIN_ID (extract_network message) = Some chain
       /\ ChatTools.tool_call Chat.TokenProfitLoss d = Ok (name, kw)
       /\ Server.route (fun _ => false) message = Ok (calls, None)
       /\ In req calls
       /\ Server.action_name req = name
       /\ map Some (Server.params req)
          = (expected_params Chat.TokenProfitLoss d chain ++ [])%list.
Proof.
  cbv zeta.
  assert (H : Chat.turn ("show the profit of " ++ sample_address
                         ++ " on polygon over 30 days") true
              = Ok (Chat.Detections None None None None None None None None
                      None (Some sample_address) (Some "polygon")
                      (Some "30day") None None None None None,
                    Some Chat.TokenProfitLoss))
    by (vm_compute; reflexivity).
  exact (conj H (conj (fun _ => eq_refl)
           (selected_tool_is_on_server_route _ _ _ _ (fun _ => false) H
              (fun _ => eq_refl)))).
Defined.

(* ================================================================== *)
(** ** Disambiguation and the choice of the tool *)

Lemma token_subject_survives (user_input : string) (d : Chat.detections) :
  (exists i, Str.truthy (subject i d) = true) <->
  (exists i, Str.truthy (subject i (Chat.disambiguate user_input d)) = true).
Proof.
  split; intros [i T].
  - apply truthy_inv in T as [a [E Ha]].
    destruct (one_holder user_input d a Ha (ex_intro _ i E)) as [j [Ej _]].
    exists j; rewrite Ej; now apply truthy_Some.
  - exists i; pose proof (kept_subject user_input d i T) as K.
    destruct i; cbn in *; destruct K as [<- _]; exact T.
Qed.

(** X20: Disambiguation never leaves a turn without its tool.  When a tool other
    than the three token tools would be selected before it, the same tool is
    selected after it; when a token tool would be, a token tool still is. *)
Theorem disambiguation_keeps_a_tool (user_input : string)
    (d : Chat.detections) (api_tools : bool) (t : Chat.tool) :
  Chat.select_tool d api_tools = Some t ->
  exists t',
    Chat.select_tool (Chat.disambiguate user_input d) api_tools = Some t'
    /\ (In t [Chat.TokenValue; Chat.TokenDetails; Chat.TokenProfitLoss] <->
        In t' [Chat.TokenValue; Chat.TokenDetails; Chat.TokenProfitLoss])
    /\ (~ In t [Chat.TokenValue; Chat.TokenDetails; Chat.TokenProfitLoss] ->
        t' = t).
Proof.
  destruct (only_clears user_input d)
    as (_ & E1 & E2 & E3 & E4 & E5 & E6 & E7 & E8 & E9 & E10).
  pose proof (token_subject_survives user_input d) as [Fwd Bwd].
  unfold Chat.select_tool; rewrite E1, E2, E4, E6, E7, E9.
  destruct api_tools; [|now rewrite !andb_false_r].
  rewrite !andb_true_r.
  assert (Tok : forall x, In x [Chat.TokenValue; Chat.TokenDetails;
                                Chat.TokenProfitLoss] ->
                forall y, In y [Chat.TokenValue; Chat.TokenDetails;
                                Chat.TokenProfitLoss] ->
                exists t',
                  Some y = Some t'
                  /\ (In x [Chat.TokenValue; Chat.TokenDetails;
                            Chat.TokenProfitLoss] <->
                      In t' [Chat.TokenValue; Chat.TokenDetails;
                             Chat.TokenProfitLoss])
                  /\ (~ In x [Chat.TokenValue; Chat.TokenDetails;
                              Chat.TokenProfitLoss] -> t' = x)).
  { intros x Hx y Hy; exists y; repeat split; auto; contradiction. }
  assert (Same : forall x,
             ~ In x [Chat.TokenValue; Chat.TokenDetails;
                     Chat.TokenProfitLoss] ->
             exists t',
               Some x = Some t'
               /\ (In x [Chat.TokenValue; Chat.TokenDetails;
                         Chat.TokenProfitLoss] <->
                   In t' [Chat.TokenValue; Chat.TokenDetails;
                          Chat.TokenProfitLoss])
               /\ (~ In x [Chat.TokenValue; Chat.TokenDetails;
                           Chat.TokenProfitLoss] -> t' = x)).
  { intros x Hx; exists x; repeat split; auto. }
  assert (Out : forall x,
             In x [Chat.GasPrice; Chat.NftHoldings; Chat.SpotPrice;
                   Chat.TransactionTrace; Chat.TransactionHistory] ->
             ~ In x [Chat.TokenValue; Chat.TokenDetails;
                     Chat.TokenProfitLoss]).
  { intros x Hx Hy; cbn in Hx, Hy.
    repeat (destruct Hx as [<- | Hx];
            [repeat (destruct Hy as [Hy | Hy]; [discriminate Hy|]);
             exact Hy|]).
    exact Hx. }
  destruct (Str.truthy (Chat.network d));
    [intros [= <-]; apply Same, Out; cbn; auto|].
  destruct (Str.truthy (Chat.nft_wallet_address d));
    [intros [= <-]; apply Same, Out; cbn; auto|].
  destruct (Str.truthy (Chat.currency d));
    [intros [= <-]; apply Same, Out; cbn; auto|].
  set (d' := Chat.disambiguate user_input d) in *.
  change (Chat.token_address d) with (subject Value d) in *.
  change (Chat.details_token_address d) with (subject Details d) in *.
  change (Chat.profitloss_token_address d) with (subject ProfitLoss d) in *.
  change (Chat.token_address d') with (subject Value d') in *.
  change (Chat.details_token_address d') with (subject Details d') in *.
  change (Chat.profitloss_token_address d') with (subject ProfitLoss d') in *.
  destruct (Str.truthy (subject Value d)) eqn:V,
    (Str.truthy (subject Details d)) eqn:Dt,
    (Str.truthy (subject ProfitLoss d)) eqn:P;
    destruct (Str.truthy (subject Value d')) eqn:V',
      (Str.truthy (subject Details d')) eqn:Dt',
      (Str.truthy (subject ProfitLoss d')) eqn:P';
    try (intros [= <-]; apply Tok; cbn; now auto);
    try (exfalso;
         first
           [ assert (X : exists i, Str.truthy (subject i d) = true)
               by (first [ exists Value; exact V
                         | exists Details; exact Dt
                         | exists ProfitLoss; exact P ]);
             destruct (Fwd X) as [[] F]; congruence
           | assert (X : exists i, Str.truthy (subject i d') = true)
               by (first [ exists Value; exact V'
                         | exists Details; exact Dt'
                         | exists ProfitLoss; exact P' ]);
             destruct (Bwd X) as [[] F]; congruence ]).
  destruct (Str.truthy (Chat.tx_hash d) && Str.truthy (Chat.block_number d));
    [intros [= <-]; apply Same, Out; cbn; auto 6|].
  destruct (Str.truthy (Chat.wallet_address d));
    [intros [= <-]; apply Same, Out; cbn; auto 6 | discriminate].
Qed.

Lemma disambiguation_keeps_a_tool_witness :
  let d := Chat.Detections None None None None None
             (Some sample_address) (Some "ethereum")
             (Some sample_address) (Some "ethereum")
             (Some sample_address) (Some "ethereum") (Some "1day")
             None None None None None in
  Chat.select_tool d true = Some Chat.TokenValue
  /\ exists t',
       Chat.select_tool
         (Chat.disambiguate "details and profit of the token" d) true
       = Some t'
       /\ (In Chat.TokenValue
             [Chat.TokenValue; Chat.TokenDetails; Chat.TokenProfitLoss] <->
           In t' [Chat.TokenValue; Chat.TokenDetails; Chat.TokenProfitLoss])
       /\ (~ In Chat.TokenValue
               [Chat.TokenValue; Chat.TokenDetails; Chat.TokenProfitLoss] ->
           t' = Chat.TokenValue).
Proof.
  cbv zeta.
  assert (H : Chat.select_tool
                (Chat.Detections None None None None None
                   (Some sample_address) (Some "ethereum")
                   (Some sample_address) (Some "ethereum")
                   (Some sample_address) (Some "ethereum") (Some "1day")
                   None None None None None) true
              = Some Chat.TokenValue) by reflexivity.
  exact (conj H (disambiguation_keeps_a_tool _ _ _ _ H)).
Defined.
